(** * The API router of the fee calculator: cache layer and route handlers

    A shallow embedding of [routes/api.js]: the in-memory TTL cache
    ([getCacheKey], [getCachedData], [setCachedData]), the Dune helper
    [fetchDuneQuery], the [checkDuneApiKey] middleware and the route handlers
    [/health], [/depositors], [/tvl], [/tvl-history], [/depositors-history],
    [/lighter-volume], [/hyperliquid-volume], [/deposits-timeline], [/query],
    [/user/:address], [/usdc-flow], [/lighter-exchange-stats] and
    [/lighter-account/:address].  Floating
    point arithmetic, random draws, built-in string functions and what
    Express and Node do with a status code enter as section variables.

    JavaScript values are a small inductive universe; numbers are the
    integers and [NaN] (every number the modelled paths compute with is a
    millisecond count, an HTTP status, an error code or the result of
    [parseInt]).  The process state is threaded
    through a state-and-exception monad: the [Map] behind [cache], the clock
    read by [Date.now()] and [new Date()], and two logs that record every
    [cache.set]/[cache.delete] and every outbound call. *)

From Stdlib Require Import ZArith String Ascii List Lia.
From stdpp Require Import base option list gmap strings pretty.

Local Open Scope string_scope.
Set Warnings "-register-all".

(** ** JavaScript values *)

Inductive value : Type :=
| VUndefined
| VNull
| VBool (b : bool)
| VNum (n : Z)
| VNaN
| VStr (s : string)
| VArr (items : list value)
| VObj (fields : list (string * value)).

(** [!!v] *)
Definition truthy (v : value) : bool :=
  match v with
  | VUndefined | VNull => false
  | VBool b => b
  | VNum n => negb (n =? 0)%Z
  | VNaN => false
  | VStr s => negb (String.eqb s "")
  | VArr _ | VObj _ => true
  end.

(** [a || b] on already evaluated operands (every right operand in the
    modelled code is effect free or is sequenced by hand). *)
Definition jsOr (a b : value) : value := if truthy a then a else b.

Definition nullish (v : value) : bool :=
  match v with VUndefined | VNull => true | _ => false end.

Fixpoint field (name : string) (fs : list (string * value)) : value :=
  match fs with
  | [] => VUndefined
  | (k, v) :: rest => if String.eqb k name then v else field name rest
  end.

(** [v.name] for a non-nullish [v] and a name that is no built-in property
    of strings and arrays (the code reads no [length] through this). *)
Definition prop (v : value) (name : string) : value :=
  match v with
  | VObj fs => field name fs
  | _ => VUndefined
  end.

(** [v?.name] *)
Definition optProp (v : value) (name : string) : value :=
  if nullish v then VUndefined else prop v name.

(** The keys of an object, in order; [[]] for everything else. *)
Definition keys (v : value) : list string :=
  match v with
  | VObj fs => map fst fs
  | _ => []
  end.

(** [new Error(msg)], as far as the handlers look at it. *)
Definition newError (msg : string) : value := VObj [("message", VStr msg)].

(** The [TypeError] of a property read on [undefined] or [null] (V8's text). *)
Definition typeError (v : value) (name : string) : value :=
  newError ("Cannot read properties of "
              +:+ match v with VNull => "null" | _ => "undefined" end
              +:+ " (reading '" +:+ name +:+ "')").

(** The [TypeError] of a conversion to a string that finds no primitive
    (V8's text). *)
Definition noPrimitive : value := newError "Cannot convert object to primitive value".

(** ** Process state *)

(** A cache entry: [{ data, timestamp }]. *)
Record Entry : Type := mkEntry { data : value; timestamp : Z }.

Inductive Mutation : Type :=
| MSet (key : string)
| MDelete (key : string).

(** An outbound call: [getLatestResult] with the [queryId] it was given,
    or [fetch] with its URL. *)
Inductive Outbound : Type :=
| ODune (queryId : value)
| OFetch (url : string).

(** [clock] gives the successive readings of the system clock in
    milliseconds and [tick] counts the readings taken so far, so that no
    relation between two readings is assumed.  [mutations] and [outbound]
    are logs, most recent last. *)
Record World : Type := mkWorld {
  cache : gmap string Entry;
  clock : nat -> Z;
  tick : nat;
  mutations : list Mutation;
  outbound : list Outbound
}.

(** The reading the next [Date.now()] returns. *)
Definition nowOf (w : World) : Z := clock w (tick w).

Inductive Outcome (A : Type) : Type :=
| Return (a : A)
| Throw (e : value).
Arguments Return {A} a.
Arguments Throw {A} e.

Definition M (A : Type) : Type := World -> Outcome A * World.

Definition ret {A} (a : A) : M A := fun w => (Return a, w).

Definition bind {A B} (m : M A) (k : A -> M B) : M B :=
  fun w =>
    match m w with
    | (Return a, w') => k a w'
    | (Throw e, w') => (Throw e, w')
    end.

Definition throw {A} (e : value) : M A := fun w => (Throw e, w).

(** [try { body } catch (error) { handler }] *)
Definition tryCatch {A} (body : M A) (handler : value -> M A) : M A :=
  fun w =>
    match body w with
    | (Return a, w') => (Return a, w')
    | (Throw e, w') => handler e w'
    end.

Declare Scope js_scope.
Delimit Scope js_scope with js.
Notation "x <- m ;; k" := (bind m (fun x => k))
  (at level 100, m at next level, right associativity) : js_scope.
Notation "m ;;; k" := (bind m (fun _ => k))
  (at level 100, right associativity) : js_scope.
Local Open Scope js_scope.

(** An outcome reached without touching the process state. *)
Definition lift {A} (o : Outcome A) : M A := fun w => (o, w).

(** [v.name], which throws on [undefined] and [null]. *)
Definition getProp (v : value) (name : string) : M value :=
  if nullish v then throw (typeError v name) else ret (prop v name).

(** [Date.now()] *)
Definition dateNow : M Z :=
  fun w => (Return (nowOf w),
            mkWorld (cache w) (clock w) (S (tick w)) (mutations w) (outbound w)).

(** [cache.get(key)] *)
Definition cacheGet (key : string) : M (option Entry) :=
  fun w => (Return (cache w !! key), w).

(** [cache.set(key, e)] *)
Definition cacheSet (key : string) (e : Entry) : M unit :=
  fun w => (Return tt,
            mkWorld (<[key := e]> (cache w)) (clock w) (tick w)
                    (mutations w ++ [MSet key]) (outbound w)).

(** [cache.delete(key)] *)
Definition cacheDelete (key : string) : M unit :=
  fun w => (Return tt,
            mkWorld (delete key (cache w)) (clock w) (tick w)
                    (mutations w ++ [MDelete key]) (outbound w)).

(** ** The cache layer *)

Definition CACHE_TTL : Z := 6 * 60 * 60 * 1000.

Definition getCachedData (key : string) : M value :=
  cached <- cacheGet key ;;
  match cached with
  | Some e =>
      now <- dateNow ;;
      if (now - timestamp e <? CACHE_TTL)%Z then ret (data e)
      else (cacheDelete key ;;; ret VNull)
  | None => ret VNull
  end.

Definition setCachedData (key : string) (d : value) : M unit :=
  now <- dateNow ;;
  cacheSet key (mkEntry d now).

(** ** Configuration, requests and responses *)

(** The variables of [process.env] the router reads; [None] is unset. *)
Record Env : Type := mkEnv {
  DUNE_API_KEY : option string;
  DEPOSITORS_QUERY_ID : option string;
  TVL_QUERY_ID : option string;
  DEPOSITS_TIMELINE_QUERY_ID : option string
}.

Definition envVal (o : option string) : value :=
  match o with
  | Some s => VStr s
  | None => VUndefined
  end.

(** What a handler reads of [req]: [req.query.queryId], [req.body.queryId]
    and [req.params.address]. *)
Record Request : Type := mkRequest {
  query_queryId : value;
  body_queryId : value;
  params_address : string
}.

(** [res.status(statusCode).json(body)] *)
Record Response : Type := mkResponse { statusCode : value; body : value }.

(** [res.json(body)] *)
Definition json (b : value) : Response := mkResponse (VNum 200) b.

(** What [fetch] resolves to, as far as the handlers read it; [jsonBody] is
    the outcome of [response.json()]. *)
Record FetchResponse : Type := mkFetchResponse {
  status : Z;
  statusText : string;
  jsonBody : Outcome value
}.

(** [response.ok] *)
Definition ok (r : FetchResponse) : bool :=
  ((200 <=? status r) && (status r <? 300))%Z.

(** [v === n] for a number literal [n] *)
Definition strictEqNum (v : value) (n : Z) : bool :=
  match v with
  | VNum m => (m =? n)%Z
  | _ => false
  end.

Definition isHexDigit (c : ascii) : bool :=
  let n := nat_of_ascii c in
  ((48 <=? n) && (n <=? 57) || (65 <=? n) && (n <=? 70) || (97 <=? n) && (n <=? 102))%nat.

(** [/^0x[a-fA-F0-9]{40}$/.test(address)] *)
Definition testAddress (address : string) : bool :=
  match address with
  | String c0 (String c1 rest) =>
      Ascii.eqb c0 "0" && Ascii.eqb c1 "x"
      && (String.length rest =? 40)%nat && forallb isHexDigit (list_ascii_of_string rest)
  | _ => false
  end.

(** ** Worlds and values the statements name *)

(** A string without the separator that [getCacheKey] puts between its
    two parts. *)
Fixpoint noUnderscore (s : string) : bool :=
  match s with
  | EmptyString => true
  | String c rest => negb (Ascii.eqb c "_") && noUnderscore rest
  end.

(** The endpoint names the router passes to [getCacheKey]. *)
Definition endpointNames : list string :=
  ["depositors"; "tvl"; "tvl-history"; "depositors-history"; "lighter-volume";
   "hyperliquid-volume"; "usdc-flow"].

(** The world after one more clock reading. *)
Definition ticked (w : World) : World :=
  mkWorld (cache w) (clock w) (S (tick w)) (mutations w) (outbound w).

(** The world after [getCachedData key] has found a stale entry. *)
Definition evicted (key : string) (w : World) : World :=
  mkWorld (delete key (cache w)) (clock w) (S (tick w))
          (mutations w ++ [MDelete key]) (outbound w).

(** The world after one more outbound Dune call. *)
Definition asked (q : value) (w : World) : World :=
  mkWorld (cache w) (clock w) (tick w) (mutations w) (outbound w ++ [ODune q]).

(** The world after [setCachedData key d]. *)
Definition stored (key : string) (d : value) (w : World) : World :=
  mkWorld (<[key := mkEntry d (nowOf w)]> (cache w)) (clock w) (S (tick w))
          (mutations w ++ [MSet key]) (outbound w).

(** What [fetchDuneQuery] makes of an answer of the service: the result it
    can read, or the error it throws. *)
Definition settle (answer : Outcome value) : Outcome value :=
  match answer with
  | Throw err => Throw (if nullish err then typeError err "message" else err)
  | Return qr => if nullish qr then Throw (typeError qr "result") else Return qr
  end.

(** The value [fetchDuneQuery] returns for the result [qr] of the service. *)
Definition duneData (qr queryId : value) : value :=
  VObj [("result", VObj [("rows", jsOr (optProp (prop qr "result") "rows") (VArr []))]);
        ("execution_time", prop qr "execution_time_millis");
        ("query_id", queryId)].

(** What a cache read returns, and the world it leaves. *)
Definition readValue (key : string) (w : World) : value :=
  match cache w !! key with
  | Some e => if (nowOf w - timestamp e <? CACHE_TTL)%Z then data e else VNull
  | None => VNull
  end.

Definition readWorld (key : string) (w : World) : World :=
  match cache w !! key with
  | Some e => if (nowOf w - timestamp e <? CACHE_TTL)%Z then ticked w else evicted key w
  | None => w
  end.

(** Whether [key] holds an entry that the next read finds expired. *)
Definition staleAt (key : string) (w : World) : bool :=
  match cache w !! key with
  | Some e => negb (nowOf w - timestamp e <? CACHE_TTL)%Z
  | None => false
  end.

(** ** Sample requests, services and worlds *)

Definition sampleEnv : Env := mkEnv (Some "dune-key") None None None.

Definition bareEnv : Env := mkEnv None None None None.

(** A request with no query identifier and a well-formed address. *)
Definition sampleRequest : Request :=
  mkRequest VUndefined VUndefined "0x52908400098527886E0F7030069857D2E4169EE7".

(** A request that names query 42 in the query string and in the body. *)
Definition idRequest : Request := mkRequest (VStr "42") (VStr "42") "0x1234".

Definition sampleClock (n : nat) : Z := Z.of_nat n * 1000 + 1700000000000.

Definition emptyWorld : World := mkWorld ∅ sampleClock 0 [] [].

Definition oldPayload : value := VObj [("success", VBool true); ("data", VArr [])].

(** A world whose entry for the default depositors query is seven hours old. *)
Definition staleWorld : World :=
  mkWorld {["depositors_5253927" := mkEntry oldPayload (1700000000000 - 25200000)]}
          sampleClock 0 [] [].

(** A rendering of dates that stands in for [toISOString]. *)
Definition stubISO (t : Z) : string := "t" +:+ pretty t.

Definition stubTop (v : value) : Outcome value := Return VNull.

Definition sdkRows (q : value) : Outcome value :=
  Return (VObj [("result", VObj [("rows", VArr [VObj [("count", VNum 70000)]])]);
                ("execution_time_millis", VNum 12)]).

Definition sdkDown (q : value) : Outcome value := Throw (newError "Request timed out").

Definition sdkPaymentRequired (q : value) : Outcome value :=
  Throw (VObj [("message", VStr "Payment Required");
               ("response", VObj [("status", VNum 402)])]).

Definition netDown (url : string) : Outcome FetchResponse :=
  Throw (newError "socket hang up").

Definition netUnavailable (url : string) : Outcome FetchResponse :=
  Return (mkFetchResponse 503 "Service Unavailable" (Throw (newError "Unexpected token <"))).

Definition netNoAccount (url : string) : Outcome FetchResponse :=
  Return (mkFetchResponse 400 "Bad Request"
            (Return (VObj [("code", VNum 21100); ("message", VStr "account not found")]))).

(** A service answer without rows. *)
Definition sdkNoRows (q : value) : Outcome value :=
  Return (VObj [("result", VObj [("rows", VArr [])]); ("execution_time_millis", VNum 3)]).

(** Stand-ins for the row processing of [/usdc-flow] and for the summary of
    [/hyperliquid-volume]. *)
Definition stubFlow (rows : list value) : Outcome (list value) := Return rows.

Definition stubSummary (d : value) : Outcome value := Return (VObj [("markets", VNum 2)]).

Definition netOk (url : string) : Outcome FetchResponse :=
  Return (mkFetchResponse 200 "OK" (Return (VObj [("total", VNum 7)]))).

Definition mockA : value := VObj [("trades24h", VNum 700)].

Definition mockB : value := VObj [("trades24h", VNum 1200)].

(** Lower-casing of the letters A to Z, as a stand-in for [toLowerCase]. *)
Definition asciiLower (s : string) : string :=
  string_of_list_ascii
    (map (fun c => let n := nat_of_ascii c in
                   if ((65 <=? n) && (n <=? 90))%nat then ascii_of_nat (n + 32) else c)
         (list_ascii_of_string s)).

(** A service answer without a result. *)
Definition sdkBare (q : value) : Outcome value :=
  Return (VObj [("execution_time_millis", VNum 3)]).

(** A request for the rows of an address under query 77. *)
Definition userRequest : Request := mkRequest (VStr "77") VUndefined "0xAbC".

Definition sdkTransfers (q : value) : Outcome value :=
  Return (VObj [("result",
                 VObj [("rows", VArr [VObj [("toAddress", VStr "0xABC"); ("amount", VNum 1)];
                                      VObj [("toAddress", VStr "0xdef"); ("amount", VNum 2)];
                                      VObj [("amount", VNum 5)]])])]).

(** A stand-in for the loop of the history routes: it keeps what the loop
    was given. *)
Definition stubHistory (current : value) (baseDate : Z) : Outcome value :=
  Return (VArr [current; VNum baseDate]).

(** A service whose first row spells the count [Distinct_Depositors]. *)
Definition sdkDistinct (q : value) : Outcome value :=
  Return (VObj [("result",
                 VObj [("rows", VArr [VObj [("Distinct_Depositors", VNum 70000);
                                            ("TVL", VNum 300)]])])]).

(** A request whose identifier, in the query string and in the body, is an
    object with an own property [toString]. *)
Definition oddRequest : Request :=
  mkRequest (VObj [("toString", VNum 1)]) (VObj [("toString", VNum 1)]) "0x1234".

(** A service that rejects with an error whose status no server sends. *)
Definition sdkOddStatus (q : value) : Outcome value :=
  Throw (VObj [("message", VStr "odd"); ("response", VObj [("status", VNum 1000)])]).

(** The clock of [sampleClock], seven hours later. *)
Definition laterClock (n : nat) : Z := Z.of_nat n * 1000 + 1700025200000.

(** Stand-ins for the printing of numbers beyond the safe integers, for
    [parseInt] on strings that are not plain digits, and for a server that
    refuses every status code that is not a number from 100 to 999. *)
Definition stubLarge (n : Z) : string := pretty n.

Definition stubParse (s : string) : value := VNaN.

Definition stubStatusError (code : value) : value := newError "Invalid status code".

Definition stubOtherStatus (code : value) : Outcome value :=
  Throw (newError "Invalid status code").

(** ** The router *)

Section Router.

(** *** Conversions *)

(** [Number.prototype.toString] on an integer beyond the safe integers,
    where the digits printed are those of the nearest double, or an
    exponent form. *)
Variable largeNumberToString : Z -> string.

Definition MAX_SAFE_INTEGER : Z := 9007199254740991.

(** [String(n)] for the number [n]. *)
Definition numberToString (n : Z) : string :=
  if (Z.abs n <=? MAX_SAFE_INTEGER)%Z then pretty n else largeNumberToString n.

(** Whether an object has an own property [name]. *)
Definition hasOwn (name : string) (fs : list (string * value)) : bool :=
  existsb (fun kv => String.eqb (fst kv) name) fs.

(** [String(v)], as a template literal applies it.  An object converts
    through its [toString]; an own property of that name is no function
    here, and then the conversion throws. *)
Fixpoint toStr (v : value) : Outcome string :=
  match v with
  | VUndefined => Return "undefined"
  | VNull => Return "null"
  | VBool true => Return "true"
  | VBool false => Return "false"
  | VNum n => Return (numberToString n)
  | VNaN => Return "NaN"
  | VStr s => Return s
  | VArr items =>
      let elem x := if nullish x then Return "" else toStr x in
      (fix join (l : list value) : Outcome string :=
         match l with
         | [] => Return ""
         | [x] => elem x
         | x :: rest =>
             match elem x with
             | Return s =>
                 match join rest with
                 | Return t => Return (s +:+ "," +:+ t)
                 | Throw e => Throw e
                 end
             | Throw e => Throw e
             end
         end) items
  | VObj fs => if hasOwn "toString" fs then Throw noPrimitive else Return "[object Object]"
  end.

(** [parseInt] on a string that is not a plain run of decimal digits
    (blanks, a sign, a [0x] prefix, trailing characters; [NaN] when it
    finds no digit). *)
Variable parseIntOther : string -> value.

Definition isDigit (c : ascii) : bool :=
  let n := nat_of_ascii c in ((48 <=? n) && (n <=? 57))%nat.

(** The number a run of decimal digits denotes, after the digits [acc]. *)
Fixpoint digitsValue (acc : Z) (s : string) : option Z :=
  match s with
  | EmptyString => Some acc
  | String c rest =>
      if isDigit c then digitsValue (10 * acc + Z.of_nat (nat_of_ascii c - 48)) rest
      else None
  end.

(** [parseInt(s)] for a string [s]. *)
Definition parseIntString (s : string) : value :=
  match s with
  | EmptyString => parseIntOther s
  | _ => match digitsValue 0 s with
         | Some n => VNum n
         | None => parseIntOther s
         end
  end.

(** [parseInt(v)] *)
Definition parseInt (v : value) : Outcome value :=
  match toStr v with
  | Return s => Return (parseIntString s)
  | Throw e => Throw e
  end.

(** [console.log(`... ${v} ...`)], as far as the handler can tell: the
    conversion of [v]. *)
Definition logTemplate (v : value) : M unit :=
  match toStr v with
  | Return _ => ret tt
  | Throw e => throw e
  end.

(** *** The cache key *)

Definition getCacheKey (endpoint queryId : value) : Outcome string :=
  match toStr endpoint with
  | Return e =>
      match toStr queryId with
      | Return q => Return (e +:+ "_" +:+ q)
      | Throw err => Throw err
      end
  | Throw err => Throw err
  end.

(** *** Responses *)

(** The error thrown at a status code that is refused. *)
Variable statusError : value -> value.

(** What becomes of a status code that is not a number: the status sent,
    or the error thrown (Express 4 hands the code to Node, which converts
    it; Express 5 refuses it). *)
Variable otherStatus : value -> Outcome value.

(** [res.status(code).json(body)]: a number from 100 to 999 is sent as the
    status, and a number outside that range is refused when the head of
    the response is written. *)
Definition sendStatus (code body : value) : Outcome Response :=
  match code with
  | VNum n =>
      if ((100 <=? n) && (n <=? 999))%Z then Return (mkResponse code body)
      else Throw (statusError code)
  | _ =>
      match otherStatus code with
      | Return sent => Return (mkResponse sent body)
      | Throw e => Throw e
      end
  end.

Definition resStatusJson (code body : value) : M Response := lift (sendStatus code body).

(** *** The handlers *)

(** [Date.prototype.toISOString], on a millisecond count. *)
Variable toISOString : Z -> string.

Variable env : Env.

(** The reduction over [data.order_book_stats] that picks
    [top_volume_market] (a comparison of [parseFloat] results), as a
    function of [data.order_book_stats]. *)
Variable topVolumeMarket : value -> Outcome value.

(** [new Date().toISOString()] *)
Definition newDateISO : M value :=
  now <- dateNow ;; ret (VStr (toISOString now)).

(** [duneClient], set at load time when the key is there. *)
Definition duneClient : value :=
  if truthy (envVal (DUNE_API_KEY env)) then VObj [] else VNull.

(** [duneClient.getLatestResult({ queryId: parseInt(queryId) })]: the
    receiver is read first, then the argument is parsed; the answer of the
    service to the number [n] is [sdk n], and the call is logged. *)
Definition getLatestResult (sdk : value -> Outcome value) (queryId : value) : M value :=
  if nullish duneClient then throw (typeError duneClient "getLatestResult")
  else
    number <- lift (parseInt queryId) ;;
    fun w =>
      (sdk number,
       mkWorld (cache w) (clock w) (tick w) (mutations w) (outbound w ++ [ODune number])).

(** [fetch(url)] *)
Definition fetchUrl (net : string -> Outcome FetchResponse) (url : string) : M FetchResponse :=
  fun w =>
    (net url,
     mkWorld (cache w) (clock w) (tick w) (mutations w) (outbound w ++ [OFetch url])).

(** [response.json()] *)
Definition readJson (r : FetchResponse) : M value := fun w => (jsonBody r, w).

Definition checkDuneApiKey (next : M Response) : M Response :=
  if negb (truthy (envVal (DUNE_API_KEY env))) || negb (truthy duneClient) then
    ret (mkResponse (VNum 500)
           (VObj [("error", VStr "Dune API key not configured");
                  ("message", VStr "Please set DUNE_API_KEY in your environment variables")]))
  else next.

Definition fetchDuneQuery (sdk : value -> Outcome value) (queryId : value) : M value :=
  tryCatch
    (logTemplate queryId ;;;
     query_result <- getLatestResult sdk queryId ;;
     result <- getProp query_result "result" ;;
     execution_time_millis <- getProp query_result "execution_time_millis" ;;
     ret (VObj [("result", VObj [("rows", jsOr (optProp result "rows") (VArr []))]);
                ("execution_time", execution_time_millis);
                ("query_id", queryId)]))
    (fun error =>
       getProp error "message" ;;;
       throw error).

(** The success body the Dune routes build from [data]. *)
Definition duneResponse (data queryId : value) : M value :=
  result <- getProp data "result" ;;
  execution_time <- getProp data "execution_time" ;;
  ts <- newDateISO ;;
  ret (VObj [("success", VBool true);
             ("data", jsOr (optProp result "rows") (VArr []));
             ("query_id", queryId);
             ("execution_time", execution_time);
             ("timestamp", ts)]).

(** [GET /api/depositors] *)
Definition depositors (sdk : value -> Outcome value) (req : Request) : M Response :=
  checkDuneApiKey
    (tryCatch
       (let queryId := jsOr (jsOr (query_queryId req) (envVal (DEPOSITORS_QUERY_ID env)))
                              (VStr "5253927") in
        cacheKey <- lift (getCacheKey (VStr "depositors") queryId) ;;
        cachedData <- getCachedData cacheKey ;;
        if truthy cachedData then ret (json cachedData)
        else
          logTemplate queryId ;;;
          data <- fetchDuneQuery sdk queryId ;;
          response <- duneResponse data queryId ;;
          setCachedData cacheKey response ;;;
          ret (json response))
       (fun error =>
          message <- getProp error "message" ;;
          ts <- newDateISO ;;
          ret (mkResponse (VNum 500)
                 (VObj [("error", VStr "Failed to fetch depositors data");
                        ("message", jsOr message (VStr "Unknown error occurred"));
                        ("timestamp", ts)])))).

(** [GET /api/tvl] *)
Definition tvl (sdk : value -> Outcome value) (req : Request) : M Response :=
  checkDuneApiKey
    (tryCatch
       (let queryId := jsOr (jsOr (query_queryId req) (envVal (TVL_QUERY_ID env)))
                              (VStr "5253928") in
        if negb (truthy queryId) then
          ret (mkResponse (VNum 400)
                 (VObj [("error", VStr "Missing query ID");
                        ("message", VStr "Please provide queryId parameter or set TVL_QUERY_ID environment variable")]))
        else
          cacheKey <- lift (getCacheKey (VStr "tvl") queryId) ;;
          cachedData <- getCachedData cacheKey ;;
          if truthy cachedData then ret (json cachedData)
          else
            logTemplate queryId ;;;
            data <- fetchDuneQuery sdk queryId ;;
            response <- duneResponse data queryId ;;
            setCachedData cacheKey response ;;;
            ret (json response))
       (fun error =>
          message <- getProp error "message" ;;
          ts <- newDateISO ;;
          ret (mkResponse (VNum 500)
                 (VObj [("error", VStr "Failed to fetch TVL data");
                        ("message", jsOr message (VStr "Unknown error occurred"));
                        ("timestamp", ts)])))).

(** The [catch] block of [/deposits-timeline], [/query] and
    [/user/:address]. *)
Definition upstreamStatusCatch (short : string) (error : value) : M Response :=
  response <- getProp error "response" ;;
  let code := jsOr (optProp response "status") (VNum 500) in
  response' <- getProp error "response" ;;
  let detail := optProp (optProp response' "data") "error" in
  message <- (if truthy detail then ret detail else getProp error "message") ;;
  ts <- newDateISO ;;
  resStatusJson code
    (VObj [("error", VStr short); ("message", message); ("timestamp", ts)]).

(** [GET /api/deposits-timeline] *)
Definition depositsTimeline (sdk : value -> Outcome value) (req : Request) : M Response :=
  checkDuneApiKey
    (tryCatch
       (let queryId := jsOr (query_queryId req) (envVal (DEPOSITS_TIMELINE_QUERY_ID env)) in
        if negb (truthy queryId) then
          ret (mkResponse (VNum 400)
                 (VObj [("error", VStr "Missing query ID");
                        ("message", VStr "Please provide queryId parameter or set DEPOSITS_TIMELINE_QUERY_ID environment variable")]))
        else
          data <- fetchDuneQuery sdk queryId ;;
          response <- duneResponse data queryId ;;
          ret (json response))
       (upstreamStatusCatch "Failed to fetch deposits timeline")).

(** [POST /api/query] *)
Definition query (sdk : value -> Outcome value) (req : Request) : M Response :=
  checkDuneApiKey
    (tryCatch
       (let queryId := body_queryId req in
        if negb (truthy queryId) then
          ret (mkResponse (VNum 400)
                 (VObj [("error", VStr "Missing query ID");
                        ("message", VStr "Please provide queryId in request body")]))
        else
          data <- fetchDuneQuery sdk queryId ;;
          response <- duneResponse data queryId ;;
          ret (json response))
       (upstreamStatusCatch "Failed to execute query")).

(** [GET /api/lighter-exchange-stats] *)
Definition lighterExchangeStats (net : string -> Outcome FetchResponse) (req : Request)
  : M Response :=
  tryCatch
    (response <- fetchUrl net "https://mainnet.zklighter.elliot.ai/api/v1/exchangeStats" ;;
     if negb (ok response) then
       throw (newError ("Lighter API error: " +:+ numberToString (status response) +:+ " "
                          +:+ statusText response))
     else
       data <- readJson response ;;
       daily_usd_volume <- getProp data "daily_usd_volume" ;;
       daily_trades_count <- getProp data "daily_trades_count" ;;
       total <- getProp data "total" ;;
       order_book_stats <- getProp data "order_book_stats" ;;
       last_updated <- newDateISO ;;
       top_volume_market <- (fun w => (topVolumeMarket order_book_stats, w)) ;;
       ret (json (VObj [("daily_usd_volume", jsOr daily_usd_volume (VNum 0));
                        ("daily_trades_count", jsOr daily_trades_count (VNum 0));
                        ("total_markets", jsOr total (VNum 0));
                        ("markets", jsOr order_book_stats (VArr []));
                        ("last_updated", last_updated);
                        ("top_volume_market", top_volume_market)])))
    (fun error =>
       details <- getProp error "message" ;;
       ret (mkResponse (VNum 500)
              (VObj [("error", VStr "Failed to fetch exchange statistics");
                     ("details", details)]))).

(** [GET /api/lighter-account/:address] *)
Definition lighterAccount (net : string -> Outcome FetchResponse) (req : Request)
  : M Response :=
  tryCatch
    (let address := params_address req in
     if negb (testAddress address) then
       ret (mkResponse (VNum 400) (VObj [("error", VStr "Invalid Ethereum address format")]))
     else
       response <- fetchUrl net
         ("https://mainnet.zklighter.elliot.ai/api/v1/account?by=l1_address&value=" +:+ address) ;;
       if negb (ok response) then
         errorData <- tryCatch (readJson response) (fun _ => ret (VObj [])) ;;
         notFound <- (if (status response =? 400)%Z
                      then code <- getProp errorData "code" ;; ret (strictEqNum code 21100)
                      else ret false) ;;
         if notFound : bool then
           ret (mkResponse (VNum 404)
                  (VObj [("error", VStr "Account not found");
                         ("message", VStr "This address has not used the Lighter protocol yet. Try a different address or create an account on Lighter first.");
                         ("code", VNum 21100)]))
         else
           message <- getProp errorData "message" ;;
           text <- lift (toStr (jsOr message (VStr "Unknown error"))) ;;
           throw (newError ("Lighter API error: " +:+ numberToString (status response) +:+ " "
                              +:+ statusText response +:+ " - " +:+ text))
       else
         data <- readJson response ;;
         ret (json data))
    (fun error =>
       details <- getProp error "message" ;;
       ret (mkResponse (VNum 500)
              (VObj [("error", VStr "Failed to fetch account data");
                     ("details", details)]))).

(** *** The remaining cached routes and the health check *)

(** [process.env.USDC_FLOW_QUERY_ID] *)
Variable USDC_FLOW_QUERY_ID : option string.

(** What [/usdc-flow] makes of the rows of an array: the [map] over the
    rows ([parseFloat], [parseInt]) followed by the [sort] on dates. *)
Variable usdcFlowData : list value -> Outcome (list value).

(** The [data] object [/hyperliquid-volume] computes from the parsed
    answer (a [reduce] over [parseFloat] results, [length], [slice] and
    [map]), as a function of that answer. *)
Variable hyperliquidSummary : value -> Outcome value.

(** [v.length] for a non-nullish [v]; on a string, the count of its bytes,
    which is zero exactly when the string is empty. *)
Definition lengthProp (v : value) : value :=
  match v with
  | VArr items => VNum (Z.of_nat (List.length items))
  | VStr s => VNum (Z.of_nat (String.length s))
  | VObj fs => field "length" fs
  | _ => VUndefined
  end.

(** [GET /api/health] *)
Definition health (req : Request) : M Response :=
  ts <- newDateISO ;;
  ret (json (VObj [("status", VStr "OK");
                   ("timestamp", ts);
                   ("service", VStr "Lighter Exchange Calculator API");
                   ("duneApiConfigured", VBool (truthy (envVal (DUNE_API_KEY env))))])).

(** [GET /api/lighter-volume]; [mockVolume] is the object the three draws
    of [Math.random()] give in this call. *)
Definition lighterVolume (mockVolume : value) (req : Request) : M Response :=
  checkDuneApiKey
    (tryCatch
       (cacheKey <- lift (getCacheKey (VStr "lighter-volume") (VStr "volume")) ;;
        cachedData <- getCachedData cacheKey ;;
        if truthy cachedData then ret (json cachedData)
        else
          ts <- newDateISO ;;
          let response := VObj [("success", VBool true);
                                ("data", mockVolume);
                                ("query_id", VStr "lighter-volume-mock");
                                ("timestamp", ts)] in
          setCachedData cacheKey response ;;;
          ret (json response))
       (fun error =>
          message <- getProp error "message" ;;
          ts <- newDateISO ;;
          ret (mkResponse (VNum 500)
                 (VObj [("error", VStr "Failed to fetch Lighter volume data");
                        ("message", jsOr message (VStr "Unknown error occurred"));
                        ("timestamp", ts)])))).

(** [GET /api/hyperliquid-volume] *)
Definition hyperliquidVolume (net : string -> Outcome FetchResponse) (req : Request)
  : M Response :=
  tryCatch
    (cacheKey <- lift (getCacheKey (VStr "hyperliquid-volume") (VStr "api")) ;;
     cachedData <- getCachedData cacheKey ;;
     if truthy cachedData then ret (json cachedData)
     else
       hyperliquidResponse <- fetchUrl net "https://api.hyperliquid.xyz/info/meta" ;;
       if negb (ok hyperliquidResponse) then
         throw (newError ("Hyperliquid API error: "
                            +:+ numberToString (status hyperliquidResponse)))
       else
         hyperliquidData <- readJson hyperliquidResponse ;;
         data <- (fun w => (hyperliquidSummary hyperliquidData, w)) ;;
         ts <- newDateISO ;;
         let response := VObj [("success", VBool true);
                               ("data", data);
                               ("source", VStr "hyperliquid-api");
                               ("timestamp", ts)] in
         setCachedData cacheKey response ;;;
         ret (json response))
    (fun error =>
       message <- getProp error "message" ;;
       ts <- newDateISO ;;
       ret (mkResponse (VNum 500)
              (VObj [("error", VStr "Failed to fetch Hyperliquid volume data");
                     ("message", jsOr message (VStr "Unknown error occurred"));
                     ("timestamp", ts)]))).

(** [GET /api/usdc-flow] *)
Definition usdcFlow (sdk : value -> Outcome value) (req : Request) : M Response :=
  checkDuneApiKey
    (tryCatch
       (let queryId := jsOr (jsOr (query_queryId req) (envVal USDC_FLOW_QUERY_ID))
                            (VStr "5253905") in
        cacheKey <- lift (getCacheKey (VStr "usdc-flow") queryId) ;;
        cachedData <- getCachedData cacheKey ;;
        if truthy cachedData then ret (json cachedData)
        else
          logTemplate queryId ;;;
          data <- fetchDuneQuery sdk queryId ;;
          result <- getProp data "result" ;;
          let rows := optProp result "rows" in
          noRows <- (if negb (truthy rows) then ret true
                     else
                       result' <- getProp data "result" ;;
                       rows' <- getProp result' "rows" ;;
                       len <- (if nullish rows' then throw (typeError rows' "length")
                               else ret (lengthProp rows')) ;;
                       ret (strictEqNum len 0)) ;;
          if noRows : bool then
            ts <- newDateISO ;;
            ret (json (VObj [("success", VBool false);
                             ("error", VStr "No USDC flow data available");
                             ("data", VArr []);
                             ("timestamp", ts)]))
          else
            result' <- getProp data "result" ;;
            rows' <- getProp result' "rows" ;;
            flowData <- (match rows' with
                         | VArr items => fun w => (usdcFlowData items, w)
                         | _ => throw (newError "data.result.rows.map is not a function")
                         end) ;;
            execution_time <- getProp data "execution_time" ;;
            ts <- newDateISO ;;
            let response := VObj [("success", VBool true);
                                  ("data", VArr flowData);
                                  ("query_id", queryId);
                                  ("execution_time", execution_time);
                                  ("timestamp", ts);
                                  ("total_days", VNum (Z.of_nat (List.length flowData)))] in
            setCachedData cacheKey response ;;;
            ret (json response))
       (fun error =>
          message <- getProp error "message" ;;
          ts <- newDateISO ;;
          ret (mkResponse (VNum 500)
                 (VObj [("error", VStr "Failed to fetch USDC flow data");
                        ("message", jsOr message (VStr "Unknown error occurred"));
                        ("timestamp", ts)])))).

(** *** The user route *)

(** [process.env.USER_STATS_QUERY_ID] *)
Variable USER_STATS_QUERY_ID : option string.

(** [String.prototype.toLowerCase] *)
Variable toLowerCase : string -> string.

(** The callback of the [filter] in [/user/:address]:
    [row.toAddress?.toLowerCase() === address.toLowerCase()]. *)
Definition rowMatches (address : string) (row : value) : M bool :=
  toAddress <- getProp row "toAddress" ;;
  if nullish toAddress then ret false
  else
    match toAddress with
    | VStr s => ret (String.eqb (toLowerCase s) (toLowerCase address))
    | _ => throw (newError "row.toAddress?.toLowerCase is not a function")
    end.

(** [rows.filter(callback)] on the elements of an array. *)
Fixpoint filterRows (address : string) (rows : list value) : M (list value) :=
  match rows with
  | [] => ret []
  | row :: rest =>
      keep <- rowMatches address row ;;
      kept <- filterRows address rest ;;
      ret (if keep : bool then row :: kept else kept)
  end.

(** [GET /api/user/:address] *)
Definition user (sdk : value -> Outcome value) (req : Request) : M Response :=
  checkDuneApiKey
    (tryCatch
       (let address := params_address req in
        let queryId := jsOr (query_queryId req) (envVal USER_STATS_QUERY_ID) in
        if negb (truthy queryId) then
          ret (mkResponse (VNum 400)
                 (VObj [("error", VStr "Missing query ID");
                        ("message", VStr "Please provide queryId parameter or set USER_STATS_QUERY_ID environment variable")]))
        else
          data <- fetchDuneQuery sdk queryId ;;
          result <- getProp data "result" ;;
          let rows := optProp result "rows" in
          filtered <- (if nullish rows then ret VUndefined
                       else
                         match rows with
                         | VArr items =>
                             kept <- filterRows address items ;; ret (VArr kept)
                         | _ => throw (newError "data.result?.rows?.filter is not a function")
                         end) ;;
          execution_time <- getProp data "execution_time" ;;
          ts <- newDateISO ;;
          ret (json (VObj [("success", VBool true);
                           ("data", jsOr filtered (VArr []));
                           ("user_address", VStr address);
                           ("query_id", queryId);
                           ("execution_time", execution_time);
                           ("timestamp", ts)])))
       (upstreamStatusCatch "Failed to fetch user data")).

(** *** The history routes *)

(** [v[0]] for a non-nullish [v]; on a string, its first byte. *)
Definition index0 (v : value) : value :=
  match v with
  | VArr (x :: _) => x
  | VStr (String c _) => VStr (String c EmptyString)
  | VObj fs => field "0" fs
  | _ => VUndefined
  end.

(** [v?.[0]] *)
Definition optIndex0 (v : value) : value :=
  if nullish v then VUndefined else index0 v.

(** [GET /api/tvl-history]; [historicalData] is what the loop of this call
    makes, with its draws of [Math.random()], of [currentTvl] and the
    reading of [baseDate]: the array it builds, or the error its arithmetic
    throws. *)
Definition tvlHistory (historicalData : value -> Z -> Outcome value)
    (sdk : value -> Outcome value) (req : Request) : M Response :=
  checkDuneApiKey
    (tryCatch
       (cacheKey <- lift (getCacheKey (VStr "tvl-history") (VStr "5253928")) ;;
        cachedData <- getCachedData cacheKey ;;
        if truthy cachedData then ret (json cachedData)
        else
          currentTvlResponse <- fetchDuneQuery sdk (VStr "5253928") ;;
          result <- getProp currentTvlResponse "result" ;;
          let currentTvl := jsOr (optProp (optIndex0 (optProp result "rows")) "TVL")
                                 (VNum 224) in
          baseDate <- dateNow ;;
          series <- lift (historicalData currentTvl baseDate) ;;
          ts <- newDateISO ;;
          let response := VObj [("success", VBool true);
                                ("data", series);
                                ("query_id", VStr "mock-historical");
                                ("timestamp", ts)] in
          setCachedData cacheKey response ;;;
          ret (json response))
       (fun error =>
          message <- getProp error "message" ;;
          ts <- newDateISO ;;
          ret (mkResponse (VNum 500)
                 (VObj [("error", VStr "Failed to fetch TVL history");
                        ("message", jsOr message (VStr "Unknown error occurred"));
                        ("timestamp", ts)])))).

(** [GET /api/depositors-history] *)
Definition depositorsHistory (historicalData : value -> Z -> Outcome value)
    (sdk : value -> Outcome value) (req : Request) : M Response :=
  checkDuneApiKey
    (tryCatch
       (cacheKey <- lift (getCacheKey (VStr "depositors-history") (VStr "5253927")) ;;
        cachedData <- getCachedData cacheKey ;;
        if truthy cachedData then ret (json cachedData)
        else
          currentDepositorsResponse <- fetchDuneQuery sdk (VStr "5253927") ;;
          result <- getProp currentDepositorsResponse "result" ;;
          let currentDepositors :=
            jsOr (optProp (optIndex0 (optProp result "rows")) "Dintinct_Depositors")
                 (VNum 64507) in
          baseDate <- dateNow ;;
          series <- lift (historicalData currentDepositors baseDate) ;;
          ts <- newDateISO ;;
          let response := VObj [("success", VBool true);
                                ("data", series);
                                ("query_id", VStr "mock-depositors-historical");
                                ("timestamp", ts)] in
          setCachedData cacheKey response ;;;
          ret (json response))
       (fun error =>
          message <- getProp error "message" ;;
          ts <- newDateISO ;;
          ret (mkResponse (VNum 500)
                 (VObj [("error", VStr "Failed to fetch depositors history");
                        ("message", jsOr message (VStr "Unknown error occurred"));
                        ("timestamp", ts)])))).

(** ** What the routes compute *)

(** The success body of a Dune route, built at clock reading [t]. *)
Definition successBody (qr queryId : value) (t : Z) : value :=
  VObj [("success", VBool true);
        ("data", jsOr (optProp (prop qr "result") "rows") (VArr []));
        ("query_id", queryId);
        ("execution_time", prop qr "execution_time_millis");
        ("timestamp", VStr (toISOString t))].

(** The body the [catch] block of a cached route builds at reading [t]. *)
Definition failureBody (short : string) (err : value) (t : Z) : value :=
  VObj [("error", VStr short);
        ("message", jsOr (prop err "message") (VStr "Unknown error occurred"));
        ("timestamp", VStr (toISOString t))].

(** A cached route after its cache read came back falsy, from world [u]:
    it asks the service for the number [n] and echoes the identifier [q]. *)
Definition fetchPhase (short : string) (sdk : value -> Outcome value) (n q : value)
    (key : string) (u : World) : Response * World :=
  match settle (sdk n) with
  | Return qr =>
      let b := successBody qr q (nowOf u) in
      (json b, stored key b (ticked (asked n u)))
  | Throw err =>
      (mkResponse (VNum 500) (failureBody short err (nowOf u)), ticked (asked n u))
  end.

Definition depositorsQueryId (req : Request) : value :=
  jsOr (jsOr (query_queryId req) (envVal (DEPOSITORS_QUERY_ID env))) (VStr "5253927").

Definition depositorsKey (req : Request) : Outcome string :=
  getCacheKey (VStr "depositors") (depositorsQueryId req).

Definition tvlQueryId (req : Request) : value :=
  jsOr (jsOr (query_queryId req) (envVal (TVL_QUERY_ID env))) (VStr "5253928").

Definition tvlKey (req : Request) : Outcome string :=
  getCacheKey (VStr "tvl") (tvlQueryId req).

Definition depositsTimelineQueryId (req : Request) : value :=
  jsOr (query_queryId req) (envVal (DEPOSITS_TIMELINE_QUERY_ID env)).

Definition configured : Prop := truthy (envVal (DUNE_API_KEY env)) = true.

(** The answer of [checkDuneApiKey] when the key is missing. *)
Definition configErrorResponse : Response :=
  mkResponse (VNum 500)
    (VObj [("error", VStr "Dune API key not configured");
           ("message", VStr "Please set DUNE_API_KEY in your environment variables")]).

(** The answer of a route to a request without a query identifier. *)
Definition missingIdResponse (message : string) : Response :=
  mkResponse (VNum 400)
    (VObj [("error", VStr "Missing query ID"); ("message", VStr message)]).

(** The status [upstreamStatusCatch] answers an error with. *)
Definition upstreamStatus (err : value) : value :=
  jsOr (optProp (prop err "response") "status") (VNum 500).

(** The body [upstreamStatusCatch] builds at reading [t]. *)
Definition upstreamBody (short : string) (err : value) (t : Z) : value :=
  VObj [("error", VStr short);
        ("message", jsOr (optProp (optProp (prop err "response") "data") "error")
                         (prop err "message"));
        ("timestamp", VStr (toISOString t))].

(** What [upstreamStatusCatch] makes of an error at reading [t]. *)
Definition upstreamFailure (short : string) (err : value) (t : Z) : Outcome Response :=
  sendStatus (upstreamStatus err) (upstreamBody short err t).

(** A status code that is a number from 100 to 999. *)
Definition validStatus (code : value) : bool :=
  match code with
  | VNum n => ((100 <=? n) && (n <=? 999))%Z
  | _ => false
  end.

(** A route without cache once it has its query identifier [q], which
    converts and parses to [n], from world [u]. *)
Definition uncachedPhase (short : string) (sdk : value -> Outcome value) (n q : value)
    (u : World) : Outcome Response * World :=
  match settle (sdk n) with
  | Return qr => (Return (json (successBody qr q (nowOf u))), ticked (asked n u))
  | Throw err => (upstreamFailure short err (nowOf u), ticked (asked n u))
  end.

Definition exchangeStatsUrl : string :=
  "https://mainnet.zklighter.elliot.ai/api/v1/exchangeStats".

Definition accountUrl (address : string) : string :=
  "https://mainnet.zklighter.elliot.ai/api/v1/account?by=l1_address&value=" +:+ address.

(** The world after one more outbound [fetch]. *)
Definition fetched (url : string) (w : World) : World :=
  mkWorld (cache w) (clock w) (tick w) (mutations w) (outbound w ++ [OFetch url]).

(** The characters of the class [[a-fA-F0-9]]. *)
Definition hexChars : list ascii :=
  list_ascii_of_string "abcdefABCDEF0123456789".

(** The answer of the [catch] block of a Lighter route. *)
Definition lighterFailure (short : string) (details : value) : Response :=
  mkResponse (VNum 500) (VObj [("error", VStr short); ("details", details)]).

Definition invalidAddressResponse : Response :=
  mkResponse (VNum 400) (VObj [("error", VStr "Invalid Ethereum address format")]).

Definition accountNotFoundResponse : Response :=
  mkResponse (VNum 404)
    (VObj [("error", VStr "Account not found");
           ("message", VStr "This address has not used the Lighter protocol yet. Try a different address or create an account on Lighter first.");
           ("code", VNum 21100)]).

Definition lighterVolumeKey : string := "lighter-volume_volume".

Definition hyperliquidKey : string := "hyperliquid-volume_api".

Definition hyperliquidUrl : string := "https://api.hyperliquid.xyz/info/meta".

Definition usdcFlowQueryId (req : Request) : value :=
  jsOr (jsOr (query_queryId req) (envVal USDC_FLOW_QUERY_ID)) (VStr "5253905").

Definition usdcFlowKey (req : Request) : Outcome string :=
  getCacheKey (VStr "usdc-flow") (usdcFlowQueryId req).

(** The success body of [/lighter-volume], built at clock reading [t]. *)
Definition volumeBody (mockVolume : value) (t : Z) : value :=
  VObj [("success", VBool true);
        ("data", mockVolume);
        ("query_id", VStr "lighter-volume-mock");
        ("timestamp", VStr (toISOString t))].

Definition userQueryId (req : Request) : value :=
  jsOr (query_queryId req) (envVal USER_STATS_QUERY_ID).

(** A row the callback of [/user/:address] can judge: not [null], with a
    [toAddress] that is a string or is missing. *)
Definition judgeable (row : value) : bool :=
  negb (nullish row)
  && match prop row "toAddress" with
     | VUndefined | VNull | VStr _ => true
     | _ => false
     end.

(** Whether the callback keeps a judgeable row. *)
Definition keptRow (address : string) (row : value) : bool :=
  match prop row "toAddress" with
  | VStr s => String.eqb (toLowerCase s) (toLowerCase address)
  | _ => false
  end.

Definition tvlHistoryKey : string := "tvl-history_5253928".

Definition depositorsHistoryKey : string := "depositors-history_5253927".

(** The number a history route starts from: the field [name] of the first
    row of the result [qr] of the service, or [fallback]. *)
Definition historyBase (name : string) (fallback : Z) (qr : value) : value :=
  jsOr (optProp (optIndex0 (jsOr (optProp (prop qr "result") "rows") (VArr []))) name)
       (VNum fallback).

(** The success body of a history route, built at clock reading [t]. *)
Definition historyBody (mockId : string) (series : value) (t : Z) : value :=
  VObj [("success", VBool true);
        ("data", series);
        ("query_id", VStr mockId);
        ("timestamp", VStr (toISOString t))].

(** A history route after its cache read came back falsy, from world [u]:
    it asks the service for the number [n]. *)
Definition historyPhase (short mockId name : string) (fallback : Z)
    (historicalData : value -> Z -> Outcome value) (sdk : value -> Outcome value)
    (n : value) (key : string) (u : World) : Outcome Response * World :=
  match settle (sdk n) with
  | Return qr =>
      match historicalData (historyBase name fallback qr) (nowOf u) with
      | Return series =>
          let b := historyBody mockId series (clock u (S (tick u))) in
          (Return (json b), stored key b (ticked (ticked (asked n u))))
      | Throw e =>
          if nullish e then (Throw (typeError e "message"), ticked (asked n u))
          else (Return (mkResponse (VNum 500) (failureBody short e (clock u (S (tick u))))),
                ticked (ticked (asked n u)))
      end
  | Throw err =>
      (Return (mkResponse (VNum 500) (failureBody short err (nowOf u))), ticked (asked n u))
  end.

(** Every payload in the store reports success. *)
Definition storedSuccess (w : World) : Prop :=
  forall k e, cache w !! k = Some e -> prop (data e) "success" = VBool true.

(** *** The routes that use the cache *)

Inductive CachedRoute : Type :=
| Depositors
| Tvl
| TvlHistory
| DepositorsHistory
| LighterVolume
| HyperliquidVolume
| UsdcFlow.

(** What a call reaches outside the process: the Dune service, [fetch],
    the draws of [/lighter-volume] and the loops of the history routes. *)
Record Upstream : Type := mkUpstream {
  dune : value -> Outcome value;
  web : string -> Outcome FetchResponse;
  volumeDraws : value;
  tvlSeries : value -> Z -> Outcome value;
  depositorsSeries : value -> Z -> Outcome value
}.

(** The handler the router mounts for a cached route. *)
Definition cachedRoute (R : CachedRoute) (up : Upstream) (req : Request) : M Response :=
  match R with
  | Depositors => depositors (dune up) req
  | Tvl => tvl (dune up) req
  | TvlHistory => tvlHistory (tvlSeries up) (dune up) req
  | DepositorsHistory => depositorsHistory (depositorsSeries up) (dune up) req
  | LighterVolume => lighterVolume (volumeDraws up) req
  | HyperliquidVolume => hyperliquidVolume (web up) req
  | UsdcFlow => usdcFlow (dune up) req
  end.

(** The key a cached route computes for a request. *)
Definition cachedRouteKey (R : CachedRoute) (req : Request) : Outcome string :=
  match R with
  | Depositors => depositorsKey req
  | Tvl => tvlKey req
  | TvlHistory => getCacheKey (VStr "tvl-history") (VStr "5253928")
  | DepositorsHistory => getCacheKey (VStr "depositors-history") (VStr "5253927")
  | LighterVolume => getCacheKey (VStr "lighter-volume") (VStr "volume")
  | HyperliquidVolume => getCacheKey (VStr "hyperliquid-volume") (VStr "api")
  | UsdcFlow => usdcFlowKey req
  end.

(** Whether the route is mounted behind [checkDuneApiKey]. *)
Definition gated (R : CachedRoute) : bool :=
  match R with
  | HyperliquidVolume => false
  | _ => true
  end.

(** Whether an outcome is an answer with status 200 whose body says
    [success: true]. *)
Definition succeeded (o : Outcome Response) : bool :=
  match o with
  | Return r =>
      strictEqNum (statusCode r) 200
      && match prop (body r) "success" with
         | VBool true => true
         | _ => false
         end
  | Throw _ => false
  end.

(** The answer of the [catch] block of a cached route to the error of a
    conversion, and the world it leaves. *)
Definition unprintableAnswer (short : string) (w : World) : Outcome Response * World :=
  (Return (mkResponse (VNum 500) (failureBody short noPrimitive (nowOf w))), ticked w).

(** What a cached route has done when it ends in world [w'] with outcome
    [o], after its cache read came back falsy and left world [u]: it has
    stored a success payload, stamped with its last clock reading, and
    answers with it; or it has stored nothing and its outcome is no
    success. *)
Definition missOutcome (key : string) (u : World) (o : Outcome Response) (w' : World) : Prop :=
  clock w' = clock u
  /\ ((exists b, o = Return (json b)
                 /\ prop b "success" = VBool true
                 /\ cache w' = <[key := mkEntry b (clock u (pred (tick w')))]> (cache u)
                 /\ mutations w' = (mutations u ++ [MSet key])%list)
      \/ (succeeded o = false /\ cache w' = cache u /\ mutations w' = mutations u)).

(** A route without cache once it has its query identifier [q], from
    world [w]. *)
Definition uncachedRoute (short : string) (sdk : value -> Outcome value) (q : value)
    (w : World) : Outcome Response * World :=
  match toStr q with
  | Return s => uncachedPhase short sdk (parseIntString s) q w
  | Throw _ =>
      (Return (mkResponse (VNum 500) (upstreamBody short noPrimitive (nowOf w))), ticked w)
  end.

(** The identifier a cached route hands to [fetchDuneQuery], if it calls
    it at all. *)
Definition cachedRouteQuery (R : CachedRoute) (req : Request) : option value :=
  match R with
  | Depositors => Some (depositorsQueryId req)
  | Tvl => Some (tvlQueryId req)
  | TvlHistory => Some (VStr "5253928")
  | DepositorsHistory => Some (VStr "5253927")
  | UsdcFlow => Some (usdcFlowQueryId req)
  | LighterVolume | HyperliquidVolume => None
  end.

(** *** Sample upstreams *)

(** A service with rows, a network that answers, and loops that succeed. *)
Definition sampleUpstream : Upstream :=
  mkUpstream sdkRows netOk mockA stubHistory stubHistory.

(** Nothing outside the process answers. *)
Definition downUpstream : Upstream :=
  mkUpstream sdkDown netDown mockB (fun _ _ => Throw (newError "loop failed"))
    (fun _ _ => Throw (newError "loop failed")).

(** A service that answers without rows. *)
Definition emptyUpstream : Upstream :=
  mkUpstream sdkNoRows netOk mockA stubHistory stubHistory.

(** ** The three cases of a cache read *)

Lemma getCachedData_miss key w :
  cache w !! key = None ->
  getCachedData key w = (Return VNull, w).
Proof.
  intros H. unfold getCachedData, bind, cacheGet. rewrite H. reflexivity.
Qed.

Lemma getCachedData_fresh key w e :
  cache w !! key = Some e ->
  (nowOf w - timestamp e < CACHE_TTL)%Z ->
  getCachedData key w = (Return (data e), ticked w).
Proof.
  intros H Hlt. unfold getCachedData, bind, cacheGet, dateNow. rewrite H. simpl.
  apply Z.ltb_lt in Hlt. rewrite Hlt. reflexivity.
Qed.

Lemma getCachedData_stale key w e :
  cache w !! key = Some e ->
  (CACHE_TTL <= nowOf w - timestamp e)%Z ->
  getCachedData key w = (Return VNull, evicted key w).
Proof.
  intros H Hge. unfold getCachedData, bind, cacheGet, dateNow. rewrite H. simpl.
  apply Z.ltb_ge in Hge. rewrite Hge. reflexivity.
Qed.

(** (C10) A read of [key] leaves either a fresh entry at [key], whose
    payload it returned, or no entry at [key]; the read changes the store
    exactly when it finds an entry [CACHE_TTL] or more past its stamp, which
    it deletes. *)
Theorem getCachedData_leaves_fresh_or_nothing (key : string) (w : World) :
  ((exists e, cache (snd (getCachedData key w)) !! key = Some e
              /\ (nowOf w - timestamp e < CACHE_TTL)%Z
              /\ fst (getCachedData key w) = Return (data e))
   \/ (cache (snd (getCachedData key w)) !! key = None
       /\ fst (getCachedData key w) = Return VNull))
  /\ cache (snd (getCachedData key w))
     = (if staleAt key w then delete key (cache w) else cache w)
  /\ mutations (snd (getCachedData key w))
     = (mutations w ++ (if staleAt key w then [MDelete key] else []))%list
  /\ (staleAt key w = true <->
      exists e, cache w !! key = Some e /\ (CACHE_TTL <= nowOf w - timestamp e)%Z).
Proof.
  unfold staleAt. destruct (cache w !! key) as [e|] eqn:Hk.
  - destruct (Z_lt_le_dec (nowOf w - timestamp e) CACHE_TTL) as [Hlt|Hge].
    + rewrite (getCachedData_fresh key w e Hk Hlt). cbn.
      pose proof Hlt as Hb. apply Z.ltb_lt in Hb. rewrite Hb. cbn.
      split; [left; exists e; auto|]. split; [reflexivity|].
      split; [apply eq_sym, app_nil_r|].
      split; [discriminate|]. intros (e' & [= <-] & Hge). lia.
    + rewrite (getCachedData_stale key w e Hk Hge). cbn.
      pose proof Hge as Hb. apply Z.ltb_ge in Hb. rewrite Hb. cbn.
      split; [right; split; [apply lookup_delete_eq | reflexivity]|].
      repeat split. intros _. exists e. auto.
  - rewrite (getCachedData_miss key w Hk). cbn.
    split; [right; auto|]. split; [reflexivity|]. split; [apply eq_sym, app_nil_r|].
    split; [discriminate|]. intros (e' & [=] & _).
Qed.

Lemma jsOr_truthy a b : truthy b = true -> truthy (jsOr a b) = true.
Proof. intros Hb. unfold jsOr. destruct (truthy a) eqn:Ha; assumption. Qed.

Lemma jsOr_again a b : truthy b = true -> jsOr (jsOr a b) b = jsOr a b.
Proof.
  intros Hb. unfold jsOr at 1. rewrite (jsOr_truthy a b Hb). reflexivity.
Qed.

Lemma getCachedData_eq key w :
  getCachedData key w = (Return (readValue key w), readWorld key w).
Proof.
  unfold getCachedData, readValue, readWorld, bind, cacheGet, dateNow.
  destruct (cache w !! key) as [e|]; [|reflexivity]. cbn.
  destruct (nowOf w - timestamp e <? CACHE_TTL)%Z; reflexivity.
Qed.

Lemma read_value key w v :
  fst (getCachedData key w) = Return v -> v = readValue key w.
Proof. rewrite getCachedData_eq. cbn. congruence. Qed.

Lemma read_world key w : snd (getCachedData key w) = readWorld key w.
Proof. rewrite getCachedData_eq. reflexivity. Qed.

(** ** Conversions and keys *)

(** The only error a conversion to a string throws. *)
Lemma toStr_throws : forall v e, toStr v = Throw e -> e = noPrimitive.
Proof.
  fix IH 1. intros [| |[]|n| |s|items|fs] e; cbn [toStr]; try discriminate.
  - induction items as [|x rest IHrest]; [discriminate|].
    destruct rest as [|y rest']; [destruct (nullish x); [discriminate | apply IH]|].
    assert (Hx : forall e0, (if nullish x then Return "" else toStr x) = Throw e0 ->
                            e0 = noPrimitive).
    { intros e0. destruct (nullish x); [discriminate | apply IH]. }
    destruct (if nullish x then Return "" else toStr x) as [sx|ex]; [|intros [= <-]; auto].
    match goal with
    | |- match ?j with Return _ => _ | Throw _ => _ end = _ -> _ =>
        destruct j as [t|et] eqn:Hj; [discriminate|]
    end.
    intros [= <-]. apply IHrest. cbn [toStr]. first [exact Hj | rewrite <- Hj; reflexivity].
  - destruct (hasOwn "toString" fs); [intros [= <-]; reflexivity | discriminate].
Qed.

Lemma logTemplate_ok q s w : toStr q = Return s -> logTemplate q w = (Return tt, w).
Proof. intros H. unfold logTemplate. rewrite H. reflexivity. Qed.

Lemma getCacheKey_str (e : string) q s :
  toStr q = Return s -> getCacheKey (VStr e) q = Return (e +:+ "_" +:+ s).
Proof. intros H. unfold getCacheKey. cbn [toStr]. rewrite H. reflexivity. Qed.

Lemma getCacheKey_throws (e : string) q err :
  toStr q = Throw err -> getCacheKey (VStr e) q = Throw err.
Proof. intros H. unfold getCacheKey. cbn [toStr]. rewrite H. reflexivity. Qed.

(** A key stands for an identifier that converts. *)
Lemma getCacheKey_text (e : string) q key :
  getCacheKey (VStr e) q = Return key ->
  exists s, toStr q = Return s /\ key = e +:+ "_" +:+ s.
Proof.
  unfold getCacheKey. cbn [toStr]. destruct (toStr q) as [s|err]; [|discriminate].
  intros [= <-]. exists s. auto.
Qed.

(** The number the service is asked for is read off the same string. *)
Lemma getCacheKey_inv (e : string) q key :
  getCacheKey (VStr e) q = Return key ->
  exists s, toStr q = Return s /\ key = e +:+ "_" +:+ s
            /\ parseInt q = Return (parseIntString s).
Proof.
  intros Hk. destruct (getCacheKey_text e q key Hk) as (s & Hq & ->).
  exists s. unfold parseInt. rewrite Hq. auto.
Qed.

Lemma getCacheKey_no_key (e : string) q :
  (forall key, getCacheKey (VStr e) q <> Return key) -> toStr q = Throw noPrimitive.
Proof.
  intros H. destruct (toStr q) as [s|err] eqn:Hq.
  - destruct (H _ (getCacheKey_str e q s Hq)).
  - rewrite (toStr_throws q err Hq). reflexivity.
Qed.

Lemma tryCatch_bind {A B} (m : M A) (k : A -> M B) (h : value -> M B) w a w' :
  m w = (Return a, w') -> tryCatch (bind m k) h w = tryCatch (k a) h w'.
Proof. intros H. unfold tryCatch, bind. rewrite H. reflexivity. Qed.

Lemma tryCatch_bind_throw {A B} (m : M A) (k : A -> M B) (h : value -> M B) w e w' :
  m w = (Throw e, w') -> tryCatch (bind m k) h w = h e w'.
Proof. intros H. unfold tryCatch, bind. rewrite H. reflexivity. Qed.

(** ** [fetchDuneQuery] on an identifier that converts, and on one that
    does not *)

Lemma fetchDuneQuery_spec sdk q s w :
  configured ->
  toStr q = Return s ->
  fetchDuneQuery sdk q w =
    (match settle (sdk (parseIntString s)) with
     | Return qr => Return (duneData qr q)
     | Throw err => Throw err
     end, asked (parseIntString s) w).
Proof.
  intros Hc Hq. unfold fetchDuneQuery, getLatestResult, duneClient, parseInt, lift, logTemplate.
  rewrite Hq, Hc. cbn [nullish]. unfold tryCatch, bind, settle, duneData, getProp, ret, throw.
  cbv beta iota. destruct (sdk (parseIntString s)) as [qr|err].
  - destruct (nullish qr); reflexivity.
  - destruct (nullish err); reflexivity.
Qed.

Lemma fetchDuneQuery_unprintable sdk q e w :
  toStr q = Throw e -> fetchDuneQuery sdk q w = (Throw noPrimitive, w).
Proof.
  intros Hq. unfold fetchDuneQuery, tryCatch, bind, logTemplate. rewrite Hq.
  rewrite (toStr_throws q e Hq). reflexivity.
Qed.

Lemma settle_not_nullish answer err : settle answer = Throw err -> nullish err = false.
Proof.
  unfold settle. destruct answer as [qr|e].
  - destruct (nullish qr); [|discriminate]. intros [= <-]. reflexivity.
  - destruct (nullish e) eqn:He; intros [= <-]; [reflexivity | assumption].
Qed.

(** The part of a cached route that follows a falsy cache read. *)
Lemma cached_tail short sdk q s key u :
  configured ->
  toStr q = Return s ->
  tryCatch
    (logTemplate q ;;;
     data <- fetchDuneQuery sdk q ;;
     response <- duneResponse data q ;;
     setCachedData key response ;;;
     ret (json response))
    (fun error =>
       message <- getProp error "message" ;;
       ts <- newDateISO ;;
       ret (mkResponse (VNum 500)
              (VObj [("error", VStr short);
                     ("message", jsOr message (VStr "Unknown error occurred"));
                     ("timestamp", ts)]))) u
  = (Return (fst (fetchPhase short sdk (parseIntString s) q key u)),
     snd (fetchPhase short sdk (parseIntString s) q key u)).
Proof.
  intros Hc Hq. rewrite (tryCatch_bind _ _ _ u tt u (logTemplate_ok q s u Hq)).
  unfold tryCatch, bind at 1. rewrite (fetchDuneQuery_spec sdk q s u Hc Hq).
  unfold fetchPhase. destruct (settle (sdk (parseIntString s))) as [qr|err] eqn:Hs.
  - cbn. rewrite jsOr_again by reflexivity. reflexivity.
  - cbn. unfold getProp. rewrite (settle_not_nullish _ _ Hs). reflexivity.
Qed.

Lemma depositors_eq sdk req w key n :
  configured ->
  depositorsKey req = Return key ->
  parseInt (depositorsQueryId req) = Return n ->
  depositors sdk req w =
    if truthy (readValue key w)
    then (Return (json (readValue key w)), readWorld key w)
    else (Return (fst (fetchPhase "Failed to fetch depositors data" sdk n
                         (depositorsQueryId req) key (readWorld key w))),
          snd (fetchPhase "Failed to fetch depositors data" sdk n
                 (depositorsQueryId req) key (readWorld key w))).
Proof.
  intros Hc Hk Hn. destruct (getCacheKey_inv _ _ _ Hk) as (s & Hq & _ & Hn').
  rewrite Hn' in Hn. injection Hn as <-.
  unfold depositors, checkDuneApiKey, duneClient. rewrite Hc. cbn [negb truthy orb].
  fold (depositorsQueryId req). fold (depositorsKey req).
  rewrite (tryCatch_bind _ _ _ w key w) by (unfold lift; rewrite Hk; reflexivity).
  rewrite (tryCatch_bind _ _ _ w _ _ (getCachedData_eq key w)).
  destruct (truthy (readValue key w)); [reflexivity|].
  apply (cached_tail _ sdk _ s _ _ Hc Hq).
Qed.

Lemma depositors_unprintable sdk req w e :
  configured ->
  depositorsKey req = Throw e ->
  depositors sdk req w = unprintableAnswer "Failed to fetch depositors data" w.
Proof.
  intros Hc Hk. unfold depositors, checkDuneApiKey, duneClient. rewrite Hc.
  cbn [negb truthy orb]. fold (depositorsQueryId req). fold (depositorsKey req).
  rewrite (tryCatch_bind_throw _ _ _ w e w) by (unfold lift; rewrite Hk; reflexivity).
  unfold depositorsKey, getCacheKey in Hk. cbn [toStr] in Hk.
  destruct (toStr (depositorsQueryId req)) as [s|e'] eqn:Hq; [discriminate|].
  injection Hk as <-. rewrite (toStr_throws _ _ Hq). reflexivity.
Qed.

Lemma tvl_eq sdk req w key n :
  configured ->
  tvlKey req = Return key ->
  parseInt (tvlQueryId req) = Return n ->
  tvl sdk req w =
    if truthy (readValue key w)
    then (Return (json (readValue key w)), readWorld key w)
    else (Return (fst (fetchPhase "Failed to fetch TVL data" sdk n
                         (tvlQueryId req) key (readWorld key w))),
          snd (fetchPhase "Failed to fetch TVL data" sdk n
                 (tvlQueryId req) key (readWorld key w))).
Proof.
  intros Hc Hk Hn. destruct (getCacheKey_inv _ _ _ Hk) as (s & Hq & _ & Hn').
  rewrite Hn' in Hn. injection Hn as <-.
  unfold tvl, checkDuneApiKey, duneClient. rewrite Hc. cbn [negb truthy orb].
  fold (tvlQueryId req). fold (tvlKey req).
  assert (Hid : truthy (tvlQueryId req) = true) by (apply jsOr_truthy; reflexivity).
  rewrite Hid. cbn [negb].
  rewrite (tryCatch_bind _ _ _ w key w) by (unfold lift; rewrite Hk; reflexivity).
  rewrite (tryCatch_bind _ _ _ w _ _ (getCachedData_eq key w)).
  destruct (truthy (readValue key w)); [reflexivity|].
  apply (cached_tail _ sdk _ s _ _ Hc Hq).
Qed.

Lemma tvl_unprintable sdk req w e :
  configured ->
  tvlKey req = Throw e ->
  tvl sdk req w = unprintableAnswer "Failed to fetch TVL data" w.
Proof.
  intros Hc Hk. unfold tvl, checkDuneApiKey, duneClient. rewrite Hc.
  cbn [negb truthy orb]. fold (tvlQueryId req). fold (tvlKey req).
  assert (Hid : truthy (tvlQueryId req) = true) by (apply jsOr_truthy; reflexivity).
  rewrite Hid. cbn [negb].
  rewrite (tryCatch_bind_throw _ _ _ w e w) by (unfold lift; rewrite Hk; reflexivity).
  unfold tvlKey, getCacheKey in Hk. cbn [toStr] in Hk.
  destruct (toStr (tvlQueryId req)) as [s|e'] eqn:Hq; [discriminate|].
  injection Hk as <-. rewrite (toStr_throws _ _ Hq). reflexivity.
Qed.

Lemma unconfigured next w :
  truthy (envVal (DUNE_API_KEY env)) = false ->
  checkDuneApiKey next w = (Return configErrorResponse, w).
Proof. intros Hc. unfold checkDuneApiKey. rewrite Hc. reflexivity. Qed.

Lemma outbound_readWorld key w : outbound (readWorld key w) = outbound w.
Proof.
  unfold readWorld. destruct (cache w !! key) as [e|]; [|reflexivity].
  destruct (nowOf w - timestamp e <? CACHE_TTL)%Z; reflexivity.
Qed.

Lemma mutations_readWorld key w :
  mutations (readWorld key w)
  = (mutations w ++ (if staleAt key w then [MDelete key] else []))%list.
Proof.
  unfold readWorld, staleAt. destruct (cache w !! key) as [e|]; cbn.
  - destruct (nowOf w - timestamp e <? CACHE_TTL)%Z; cbn; [apply eq_sym, app_nil_r | reflexivity].
  - apply eq_sym, app_nil_r.
Qed.

Lemma cache_readWorld key w :
  cache (readWorld key w) = if staleAt key w then delete key (cache w) else cache w.
Proof.
  unfold readWorld, staleAt. destruct (cache w !! key) as [e|]; cbn; [|reflexivity].
  destruct (nowOf w - timestamp e <? CACHE_TTL)%Z; reflexivity.
Qed.

Lemma clock_readWorld key w : clock (readWorld key w) = clock w.
Proof.
  unfold readWorld. destruct (cache w !! key) as [e|]; [|reflexivity].
  destruct (nowOf w - timestamp e <? CACHE_TTL)%Z; reflexivity.
Qed.

Lemma readValue_fresh key w e :
  cache w !! key = Some e -> (nowOf w - timestamp e < CACHE_TTL)%Z ->
  readValue key w = data e /\ readWorld key w = ticked w.
Proof.
  intros Hk Hlt. unfold readValue, readWorld. rewrite Hk.
  apply Z.ltb_lt in Hlt. rewrite Hlt. auto.
Qed.


Lemma readValue_miss key w :
  cache w !! key = None ->
  readValue key w = VNull /\ readWorld key w = w /\ staleAt key w = false.
Proof. intros Hk. unfold readValue, readWorld, staleAt. rewrite Hk. auto. Qed.

Lemma settle_resolved answer qr :
  answer = Return qr -> nullish qr = false -> settle answer = Return qr.
Proof. intros -> Hn. unfold settle. rewrite Hn. reflexivity. Qed.

Lemma settle_rejected answer err :
  answer = Throw err ->
  settle answer = Throw (if nullish err then typeError err "message" else err).
Proof. intros ->. reflexivity. Qed.

(** ** What a cached route does after a falsy read *)

Lemma fetchPhase_miss short sdk n q key u :
  missOutcome key u (Return (fst (fetchPhase short sdk n q key u)))
    (snd (fetchPhase short sdk n q key u)).
Proof.
  unfold fetchPhase, missOutcome. destruct (settle (sdk n)) as [qr|err]; cbn.
  - split; [reflexivity|]. left. eexists. repeat split.
  - split; [reflexivity|]. right. repeat split.
Qed.

Lemma fetchPhase_outbound short sdk n q key u :
  outbound (snd (fetchPhase short sdk n q key u)) = (outbound u ++ [ODune n])%list.
Proof. unfold fetchPhase. destruct (settle (sdk n)); reflexivity. Qed.

(** *** The mock volume route *)

Lemma lighterVolume_eq mock req w :
  configured ->
  lighterVolume mock req w =
    if truthy (readValue lighterVolumeKey w)
    then (Return (json (readValue lighterVolumeKey w)), readWorld lighterVolumeKey w)
    else (Return (json (volumeBody mock (nowOf (readWorld lighterVolumeKey w)))),
          stored lighterVolumeKey (volumeBody mock (nowOf (readWorld lighterVolumeKey w)))
            (ticked (readWorld lighterVolumeKey w))).
Proof.
  intros Hc. unfold lighterVolume, checkDuneApiKey, duneClient. rewrite Hc.
  cbn [negb truthy orb].
  rewrite (tryCatch_bind _ _ _ w lighterVolumeKey w) by reflexivity.
  rewrite (tryCatch_bind _ _ _ w _ _ (getCachedData_eq lighterVolumeKey w)).
  destruct (truthy (readValue lighterVolumeKey w)); reflexivity.
Qed.

(** *** The Hyperliquid route *)

Lemma hyperliquidVolume_read net req w :
  hyperliquidVolume net req w
  = tryCatch
      (if truthy (readValue hyperliquidKey w) then ret (json (readValue hyperliquidKey w))
       else
         hyperliquidResponse <- fetchUrl net "https://api.hyperliquid.xyz/info/meta" ;;
         if negb (ok hyperliquidResponse) then
           throw (newError ("Hyperliquid API error: "
                              +:+ numberToString (status hyperliquidResponse)))
         else
           hyperliquidData <- readJson hyperliquidResponse ;;
           data <- (fun w => (hyperliquidSummary hyperliquidData, w)) ;;
           ts <- newDateISO ;;
           let response := VObj [("success", VBool true);
                                 ("data", data);
                                 ("source", VStr "hyperliquid-api");
                                 ("timestamp", ts)] in
           setCachedData hyperliquidKey response ;;;
           ret (json response))
      (fun error =>
         message <- getProp error "message" ;;
         ts <- newDateISO ;;
         ret (mkResponse (VNum 500)
                (VObj [("error", VStr "Failed to fetch Hyperliquid volume data");
                       ("message", jsOr message (VStr "Unknown error occurred"));
                       ("timestamp", ts)])))
      (readWorld hyperliquidKey w).
Proof.
  unfold hyperliquidVolume.
  rewrite (tryCatch_bind _ _ _ w hyperliquidKey w) by reflexivity.
  rewrite (tryCatch_bind _ _ _ w _ _ (getCachedData_eq hyperliquidKey w)). reflexivity.
Qed.

Lemma hyperliquidVolume_hit net req w :
  truthy (readValue hyperliquidKey w) = true ->
  hyperliquidVolume net req w
  = (Return (json (readValue hyperliquidKey w)), readWorld hyperliquidKey w).
Proof. intros Ht. rewrite hyperliquidVolume_read, Ht. reflexivity. Qed.

Lemma hyperliquidVolume_not_ok net req w resp :
  truthy (readValue hyperliquidKey w) = false ->
  net hyperliquidUrl = Return resp -> ok resp = false ->
  hyperliquidVolume net req w
  = (Return (mkResponse (VNum 500)
               (VObj [("error", VStr "Failed to fetch Hyperliquid volume data");
                      ("message",
                       VStr ("Hyperliquid API error: " +:+ numberToString (status resp)));
                      ("timestamp",
                       VStr (toISOString (nowOf (readWorld hyperliquidKey w))))])),
     ticked (fetched hyperliquidUrl (readWorld hyperliquidKey w))).
Proof.
  intros Ht Hn Hok. rewrite hyperliquidVolume_read, Ht. unfold tryCatch, bind, fetchUrl.
  fold hyperliquidUrl. rewrite Hn, Hok. reflexivity.
Qed.

Lemma hyperliquidVolume_stores net req w resp d sum :
  truthy (readValue hyperliquidKey w) = false ->
  net hyperliquidUrl = Return resp -> ok resp = true ->
  jsonBody resp = Return d -> hyperliquidSummary d = Return sum ->
  hyperliquidVolume net req w
  = (Return (json (VObj [("success", VBool true);
                         ("data", sum);
                         ("source", VStr "hyperliquid-api");
                         ("timestamp",
                          VStr (toISOString (nowOf (readWorld hyperliquidKey w))))])),
     stored hyperliquidKey
       (VObj [("success", VBool true);
              ("data", sum);
              ("source", VStr "hyperliquid-api");
              ("timestamp", VStr (toISOString (nowOf (readWorld hyperliquidKey w))))])
       (ticked (fetched hyperliquidUrl (readWorld hyperliquidKey w)))).
Proof.
  intros Ht Hn Hok Hj Hsum. rewrite hyperliquidVolume_read, Ht.
  unfold tryCatch, bind, fetchUrl, readJson. fold hyperliquidUrl.
  rewrite Hn, Hok. cbn. rewrite Hj, Hsum. reflexivity.
Qed.

Lemma hyperliquidVolume_miss net req w :
  truthy (readValue hyperliquidKey w) = false ->
  exists o w',
    hyperliquidVolume net req w = (o, w')
    /\ missOutcome hyperliquidKey (readWorld hyperliquidKey w) o w'
    /\ outbound w' = (outbound w ++ [OFetch hyperliquidUrl])%list.
Proof.
  intros Ht. rewrite hyperliquidVolume_read, Ht. unfold missOutcome.
  unfold tryCatch, bind at 1, fetchUrl. fold hyperliquidUrl.
  destruct (net hyperliquidUrl) as [resp|err].
  - destruct (ok resp); cbn [negb].
    + unfold bind at 1, readJson. destruct (jsonBody resp) as [d|e].
      * unfold bind at 1. destruct (hyperliquidSummary d) as [sum|e]; cbn.
        -- eexists _, _. split; [reflexivity|]. cbn. rewrite outbound_readWorld.
           split; [|reflexivity]. split; [reflexivity|]. left. eexists. repeat split.
        -- unfold bind, getProp. destruct (nullish e); cbn;
             (eexists _, _; split; [reflexivity|]; cbn; rewrite outbound_readWorld; auto 10).
      * unfold bind, getProp. destruct (nullish e); cbn;
          (eexists _, _; split; [reflexivity|]; cbn; rewrite outbound_readWorld; auto 10).
    + cbn. eexists _, _. split; [reflexivity|]. cbn. rewrite outbound_readWorld. auto 10.
  - unfold bind, getProp. destruct (nullish err); cbn;
      (eexists _, _; split; [reflexivity|]; cbn; rewrite outbound_readWorld; auto 10).
Qed.

(** *** The USDC flow route *)

Ltac usdcFlow_read req w key Hc Hk Hn s Hq :=
  let Hn' := fresh "Hn" in
  destruct (getCacheKey_inv _ _ _ Hk) as (s & Hq & _ & Hn');
  rewrite Hn' in Hn; injection Hn as <-;
  unfold usdcFlow, checkDuneApiKey, duneClient; rewrite Hc; cbn [negb truthy orb];
  fold (usdcFlowQueryId req); fold (usdcFlowKey req);
  rewrite (tryCatch_bind _ _ _ w key w) by (unfold lift; rewrite Hk; reflexivity);
  rewrite (tryCatch_bind _ _ _ w _ _ (getCachedData_eq key w)).

Lemma usdcFlow_hit sdk req w key :
  configured ->
  usdcFlowKey req = Return key ->
  truthy (readValue key w) = true ->
  usdcFlow sdk req w = (Return (json (readValue key w)), readWorld key w).
Proof.
  intros Hc Hk Ht. unfold usdcFlow, checkDuneApiKey, duneClient. rewrite Hc.
  cbn [negb truthy orb]. fold (usdcFlowQueryId req). fold (usdcFlowKey req).
  rewrite (tryCatch_bind _ _ _ w key w) by (unfold lift; rewrite Hk; reflexivity).
  rewrite (tryCatch_bind _ _ _ w _ _ (getCachedData_eq key w)). rewrite Ht. reflexivity.
Qed.

Lemma usdcFlow_unprintable sdk req w e :
  configured ->
  usdcFlowKey req = Throw e ->
  usdcFlow sdk req w = unprintableAnswer "Failed to fetch USDC flow data" w.
Proof.
  intros Hc Hk. unfold usdcFlow, checkDuneApiKey, duneClient. rewrite Hc.
  cbn [negb truthy orb]. fold (usdcFlowQueryId req). fold (usdcFlowKey req).
  rewrite (tryCatch_bind_throw _ _ _ w e w) by (unfold lift; rewrite Hk; reflexivity).
  unfold usdcFlowKey, getCacheKey in Hk. cbn [toStr] in Hk.
  destruct (toStr (usdcFlowQueryId req)) as [s|e'] eqn:Hq; [discriminate|].
  injection Hk as <-. rewrite (toStr_throws _ _ Hq). reflexivity.
Qed.

Lemma usdcFlow_no_rows sdk req w key n qr :
  configured ->
  usdcFlowKey req = Return key ->
  parseInt (usdcFlowQueryId req) = Return n ->
  truthy (readValue key w) = false ->
  sdk n = Return qr -> nullish qr = false ->
  truthy (optProp (prop qr "result") "rows") = false
  \/ optProp (prop qr "result") "rows" = VArr [] ->
  usdcFlow sdk req w
  = (Return (json (VObj [("success", VBool false);
                         ("error", VStr "No USDC flow data available");
                         ("data", VArr []);
                         ("timestamp", VStr (toISOString (nowOf (readWorld key w))))])),
     ticked (asked n (readWorld key w))).
Proof.
  intros Hc Hk Hn Ht Hs Hnn Hrows. usdcFlow_read req w key Hc Hk Hn s Hq. rewrite Ht.
  rewrite (tryCatch_bind _ _ _ _ tt _ (logTemplate_ok _ s _ Hq)).
  unfold tryCatch, bind at 1.
  rewrite (fetchDuneQuery_spec sdk _ s _ Hc Hq), (settle_resolved _ _ Hs Hnn).
  unfold duneData. cbn -[jsOr optProp prop].
  assert (HR : jsOr (optProp (prop qr "result") "rows") (VArr []) = VArr []).
  { unfold jsOr. destruct Hrows as [-> | ->]; reflexivity. }
  unfold bind, getProp. cbn -[jsOr optProp prop].
  cbn [optProp prop field String.eqb Ascii.eqb Bool.eqb nullish].
  rewrite HR. reflexivity.
Qed.

Lemma usdcFlow_stores sdk req w key n qr x items flow :
  configured ->
  usdcFlowKey req = Return key ->
  parseInt (usdcFlowQueryId req) = Return n ->
  truthy (readValue key w) = false ->
  sdk n = Return qr -> nullish qr = false ->
  optProp (prop qr "result") "rows" = VArr (x :: items) ->
  usdcFlowData (x :: items) = Return flow ->
  usdcFlow sdk req w
  = (Return (json (VObj [("success", VBool true);
                         ("data", VArr flow);
                         ("query_id", usdcFlowQueryId req);
                         ("execution_time", prop qr "execution_time_millis");
                         ("timestamp", VStr (toISOString (nowOf (readWorld key w))));
                         ("total_days", VNum (Z.of_nat (List.length flow)))])),
     stored key
       (VObj [("success", VBool true);
              ("data", VArr flow);
              ("query_id", usdcFlowQueryId req);
              ("execution_time", prop qr "execution_time_millis");
              ("timestamp", VStr (toISOString (nowOf (readWorld key w))));
              ("total_days", VNum (Z.of_nat (List.length flow)))])
       (ticked (asked n (readWorld key w)))).
Proof.
  intros Hc Hk Hn Ht Hs Hnn Hrows Hflow. usdcFlow_read req w key Hc Hk Hn s Hq. rewrite Ht.
  rewrite (tryCatch_bind _ _ _ _ tt _ (logTemplate_ok _ s _ Hq)).
  unfold tryCatch, bind at 1.
  rewrite (fetchDuneQuery_spec sdk _ s _ Hc Hq), (settle_resolved _ _ Hs Hnn).
  unfold duneData. rewrite Hrows. cbn.
  change (Z.of_nat (S (length items)) =? 0)%Z with false. cbn iota.
  unfold bind, ret, getProp. cbn. rewrite Hflow. reflexivity.
Qed.

Lemma usdcFlow_miss sdk req w key n :
  configured ->
  usdcFlowKey req = Return key ->
  parseInt (usdcFlowQueryId req) = Return n ->
  truthy (readValue key w) = false ->
  exists o w',
    usdcFlow sdk req w = (o, w')
    /\ missOutcome key (readWorld key w) o w'
    /\ outbound w' = (outbound w ++ [ODune n])%list.
Proof.
  intros Hc Hk Hn Ht. usdcFlow_read req w key Hc Hk Hn s Hq. rewrite Ht.
  rewrite (tryCatch_bind _ _ _ _ tt _ (logTemplate_ok _ s _ Hq)).
  unfold tryCatch, bind at 1. rewrite (fetchDuneQuery_spec sdk _ s _ Hc Hq).
  unfold missOutcome.
  destruct (settle (sdk (parseIntString s))) as [qr|err] eqn:Hs.
  - unfold duneData.
    assert (HR : truthy (jsOr (optProp (prop qr "result") "rows") (VArr [])) = true)
      by (apply jsOr_truthy; reflexivity).
    destruct (jsOr (optProp (prop qr "result") "rows") (VArr [])) as [| |b|m| |str|items|fs];
      try discriminate HR; cbn in HR.
    + subst b. cbn. eexists _, _. split; [reflexivity|]. cbn.
      rewrite outbound_readWorld. auto 10.
    + cbn. rewrite HR. cbn. eexists _, _. split; [reflexivity|]. cbn.
      rewrite outbound_readWorld. auto 10.
    + cbn. rewrite HR. cbn. destruct (Z.of_nat (String.length str) =? 0)%Z; cbn;
        (eexists _, _; split; [reflexivity|]; cbn; rewrite outbound_readWorld; auto 10).
    + destruct items as [|x items].
      * cbn. eexists _, _. split; [reflexivity|]. cbn. rewrite outbound_readWorld. auto 10.
      * cbn. change (Z.of_nat (S (length items)) =? 0)%Z with false. cbn iota.
        unfold bind, ret, getProp. cbn.
        destruct (usdcFlowData (x :: items)) as [flow|e] eqn:Hf; cbn.
        -- eexists _, _. split; [reflexivity|]. cbn. rewrite outbound_readWorld.
           split; [|reflexivity]. split; [reflexivity|]. left. eexists. repeat split.
        -- destruct (nullish e); cbn;
             (eexists _, _; split; [reflexivity|]; cbn; rewrite outbound_readWorld; auto 10).
    + cbn. destruct (strictEqNum (field "length" fs) 0); cbn;
        (eexists _, _; split; [reflexivity|]; cbn; rewrite outbound_readWorld; auto 10).
  - cbn. unfold getProp. rewrite (settle_not_nullish _ _ Hs). cbn.
    eexists _, _. split; [reflexivity|]. cbn. rewrite outbound_readWorld. auto 10.
Qed.

Lemma usdcFlow_rejected sdk req w key n err :
  configured ->
  usdcFlowKey req = Return key ->
  parseInt (usdcFlowQueryId req) = Return n ->
  truthy (readValue key w) = false ->
  sdk n = Throw err ->
  usdcFlow sdk req w
  = (Return (mkResponse (VNum 500)
               (failureBody "Failed to fetch USDC flow data"
                  (if nullish err then typeError err "message" else err)
                  (nowOf (readWorld key w)))),
     ticked (asked n (readWorld key w))).
Proof.
  intros Hc Hk Hn Ht Hs. usdcFlow_read req w key Hc Hk Hn s Hq. rewrite Ht.
  rewrite (tryCatch_bind _ _ _ _ tt _ (logTemplate_ok _ s _ Hq)).
  unfold tryCatch, bind at 1.
  rewrite (fetchDuneQuery_spec sdk _ s _ Hc Hq), (settle_rejected _ _ Hs).
  unfold bind, getProp. destruct (nullish err) eqn:He; cbn; rewrite ?He; reflexivity.
Qed.

(** *** The history routes *)

Lemma history_tail short mockId name fallback hist sdk (id : string) n key u :
  configured ->
  parseIntString id = n ->
  tryCatch
    (currentResponse <- fetchDuneQuery sdk (VStr id) ;;
     result <- getProp currentResponse "result" ;;
     let current := jsOr (optProp (optIndex0 (optProp result "rows")) name) (VNum fallback) in
     baseDate <- dateNow ;;
     series <- lift (hist current baseDate) ;;
     ts <- newDateISO ;;
     let response := VObj [("success", VBool true);
                           ("data", series);
                           ("query_id", VStr mockId);
                           ("timestamp", ts)] in
     setCachedData key response ;;; ret (json response))
    (fun error =>
       message <- getProp error "message" ;;
       ts <- newDateISO ;;
       ret (mkResponse (VNum 500)
              (VObj [("error", VStr short);
                     ("message", jsOr message (VStr "Unknown error occurred"));
                     ("timestamp", ts)]))) u
  = historyPhase short mockId name fallback hist sdk n key u.
Proof.
  intros Hc <-. unfold tryCatch, bind at 1.
  rewrite (fetchDuneQuery_spec sdk (VStr id) id u Hc eq_refl). unfold historyPhase.
  destruct (settle (sdk (parseIntString id))) as [qr|err] eqn:Hs.
  - unfold duneData, historyBase. cbn -[jsOr optProp prop optIndex0 nowOf].
    change (nowOf (asked (parseIntString id) u)) with (nowOf u).
    cbn [optProp prop field String.eqb Ascii.eqb Bool.eqb nullish].
    destruct (hist _ (nowOf u)) as [series|e]; cbn.
    + reflexivity.
    + unfold getProp. destruct (nullish e); reflexivity.
  - cbn. unfold getProp. rewrite (settle_not_nullish _ _ Hs). reflexivity.
Qed.

Lemma tvlHistory_eq hist sdk req w :
  configured ->
  tvlHistory hist sdk req w =
    if truthy (readValue tvlHistoryKey w)
    then (Return (json (readValue tvlHistoryKey w)), readWorld tvlHistoryKey w)
    else historyPhase "Failed to fetch TVL history" "mock-historical" "TVL" 224 hist sdk
           (VNum 5253928) tvlHistoryKey (readWorld tvlHistoryKey w).
Proof.
  intros Hc. unfold tvlHistory, checkDuneApiKey, duneClient. rewrite Hc.
  cbn [negb truthy orb].
  rewrite (tryCatch_bind _ _ _ w tvlHistoryKey w) by reflexivity.
  rewrite (tryCatch_bind _ _ _ w _ _ (getCachedData_eq tvlHistoryKey w)).
  destruct (truthy (readValue tvlHistoryKey w)); [reflexivity|].
  apply (history_tail _ _ _ _ hist sdk "5253928" _ _ _ Hc). reflexivity.
Qed.

Lemma depositorsHistory_eq hist sdk req w :
  configured ->
  depositorsHistory hist sdk req w =
    if truthy (readValue depositorsHistoryKey w)
    then (Return (json (readValue depositorsHistoryKey w)), readWorld depositorsHistoryKey w)
    else historyPhase "Failed to fetch depositors history" "mock-depositors-historical"
           "Dintinct_Depositors" 64507 hist sdk (VNum 5253927) depositorsHistoryKey
           (readWorld depositorsHistoryKey w).
Proof.
  intros Hc. unfold depositorsHistory, checkDuneApiKey, duneClient. rewrite Hc.
  cbn [negb truthy orb].
  rewrite (tryCatch_bind _ _ _ w depositorsHistoryKey w) by reflexivity.
  rewrite (tryCatch_bind _ _ _ w _ _ (getCachedData_eq depositorsHistoryKey w)).
  destruct (truthy (readValue depositorsHistoryKey w)); [reflexivity|].
  apply (history_tail _ _ _ _ hist sdk "5253927" _ _ _ Hc). reflexivity.
Qed.

Lemma historyPhase_outbound short mockId name fallback hist sdk n key u :
  outbound (snd (historyPhase short mockId name fallback hist sdk n key u))
  = (outbound u ++ [ODune n])%list.
Proof.
  unfold historyPhase. destruct (settle (sdk n)) as [qr|err]; [|reflexivity].
  destruct (hist _ _) as [series|e]; [reflexivity|]. destruct (nullish e); reflexivity.
Qed.

Lemma historyPhase_miss short mockId name fallback hist sdk n key u :
  missOutcome key u (fst (historyPhase short mockId name fallback hist sdk n key u))
    (snd (historyPhase short mockId name fallback hist sdk n key u)).
Proof.
  unfold historyPhase, missOutcome. destruct (settle (sdk n)) as [qr|err].
  - destruct (hist _ _) as [series|e]; cbn.
    + split; [reflexivity|]. left. eexists. repeat split.
    + destruct (nullish e); cbn; (split; [reflexivity|]); right; repeat split.
  - cbn. split; [reflexivity|]. right. repeat split.
Qed.

(** ** The routes without cache *)

Lemma upstreamStatusCatch_eq short err u :
  nullish err = false ->
  upstreamStatusCatch short err u = (upstreamFailure short err (nowOf u), ticked u).
Proof.
  intros Hn. unfold upstreamStatusCatch, bind, getProp. rewrite Hn. cbn.
  unfold upstreamFailure, upstreamStatus, upstreamBody, resStatusJson, lift, jsOr.
  destruct (truthy (optProp (optProp (prop err "response") "data") "error")); cbn;
    rewrite ?Hn; reflexivity.
Qed.

(** The part of a route without cache that follows the identifier check. *)
Lemma uncached_tail short sdk q u :
  configured ->
  tryCatch
    (data <- fetchDuneQuery sdk q ;;
     response <- duneResponse data q ;;
     ret (json response))
    (upstreamStatusCatch short) u
  = uncachedRoute short sdk q u.
Proof.
  intros Hc. unfold uncachedRoute. destruct (toStr q) as [s|e] eqn:Hq.
  - unfold tryCatch, bind at 1. rewrite (fetchDuneQuery_spec sdk q s u Hc Hq).
    unfold uncachedPhase. destruct (settle (sdk (parseIntString s))) as [qr|err] eqn:Hs.
    + cbn. rewrite jsOr_again by reflexivity. reflexivity.
    + rewrite (upstreamStatusCatch_eq short err _ (settle_not_nullish _ _ Hs)). reflexivity.
  - unfold tryCatch, bind at 1. rewrite (fetchDuneQuery_unprintable sdk q e u Hq).
    rewrite (upstreamStatusCatch_eq short noPrimitive u eq_refl). reflexivity.
Qed.

Lemma depositsTimeline_eq sdk req w :
  configured ->
  depositsTimeline sdk req w =
    if truthy (depositsTimelineQueryId req)
    then uncachedRoute "Failed to fetch deposits timeline" sdk (depositsTimelineQueryId req) w
    else (Return (missingIdResponse
                    "Please provide queryId parameter or set DEPOSITS_TIMELINE_QUERY_ID environment variable"),
          w).
Proof.
  intros Hc. unfold depositsTimeline, checkDuneApiKey, duneClient. rewrite Hc.
  cbn [negb truthy orb]. fold (depositsTimelineQueryId req).
  destruct (truthy (depositsTimelineQueryId req)) eqn:Hq; cbn [negb].
  - apply (uncached_tail _ sdk _ w Hc).
  - reflexivity.
Qed.

Lemma query_eq sdk req w :
  configured ->
  query sdk req w =
    if truthy (body_queryId req)
    then uncachedRoute "Failed to execute query" sdk (body_queryId req) w
    else (Return (missingIdResponse "Please provide queryId in request body"), w).
Proof.
  intros Hc. unfold query, checkDuneApiKey, duneClient. rewrite Hc. cbn [negb truthy orb].
  destruct (truthy (body_queryId req)) eqn:Hq; cbn [negb].
  - apply (uncached_tail _ sdk _ w Hc).
  - reflexivity.
Qed.

Lemma uncachedRoute_world short sdk q u :
  cache (snd (uncachedRoute short sdk q u)) = cache u
  /\ mutations (snd (uncachedRoute short sdk q u)) = mutations u
  /\ clock (snd (uncachedRoute short sdk q u)) = clock u.
Proof.
  unfold uncachedRoute, uncachedPhase. destruct (toStr q) as [s|e]; [|auto].
  destruct (settle (sdk (parseIntString s))); auto.
Qed.

Lemma uncachedRoute_outbound short sdk q n u :
  parseInt q = Return n ->
  outbound (snd (uncachedRoute short sdk q u)) = (outbound u ++ [ODune n])%list.
Proof.
  unfold parseInt, uncachedRoute, uncachedPhase. destruct (toStr q) as [s|e]; [|discriminate].
  intros [= <-]. destruct (settle (sdk (parseIntString s))); reflexivity.
Qed.

Lemma uncachedRoute_unprintable short sdk q e u :
  parseInt q = Throw e ->
  uncachedRoute short sdk q u
  = (Return (mkResponse (VNum 500) (upstreamBody short noPrimitive (nowOf u))), ticked u).
Proof.
  unfold parseInt, uncachedRoute. destruct (toStr q) as [s|e']; [discriminate|]. reflexivity.
Qed.

Lemma readWorld_lookup key w k e :
  cache (readWorld key w) !! k = Some e -> cache w !! k = Some e.
Proof.
  rewrite cache_readWorld. destruct (staleAt key w); [|auto].
  destruct (decide (key = k)) as [->|Hne].
  - rewrite lookup_delete_eq. discriminate.
  - rewrite lookup_delete_ne by exact Hne. auto.
Qed.

Lemma readWorld_other key w k :
  k <> key -> cache (readWorld key w) !! k = cache w !! k.
Proof.
  intros Hne. rewrite cache_readWorld. destruct (staleAt key w); [|reflexivity].
  apply lookup_delete_ne. congruence.
Qed.

Lemma readValue_success key w :
  storedSuccess w -> truthy (readValue key w) = true ->
  prop (readValue key w) "success" = VBool true.
Proof.
  intros Hinv. unfold readValue. destruct (cache w !! key) as [e|] eqn:Hk; [|discriminate].
  destruct (nowOf w - timestamp e <? CACHE_TTL)%Z; [|discriminate].
  intros _. apply (Hinv key e Hk).
Qed.

Lemma falsy_read_persists key w w2 :
  truthy (readValue key w) = false ->
  cache w2 !! key = cache (readWorld key w) !! key ->
  truthy (readValue key w2) = false.
Proof.
  intros Ht Hsame. unfold readValue in *. rewrite Hsame, cache_readWorld. unfold staleAt.
  destruct (cache w !! key) as [e0|] eqn:Hk.
  - destruct (nowOf w - timestamp e0 <? CACHE_TTL)%Z; cbn.
    + rewrite Hk. destruct (nowOf w2 - timestamp e0 <? CACHE_TTL)%Z; [exact Ht | reflexivity].
    + rewrite lookup_delete_eq. reflexivity.
  - rewrite Hk. reflexivity.
Qed.

Lemma storedSuccess_same w w' : cache w' = cache w -> storedSuccess w -> storedSuccess w'.
Proof. intros Heq Hinv k e. rewrite Heq. apply Hinv. Qed.

(** ** The seven cached routes, together *)

Lemma readWorld_tick key w : tick w <= tick (readWorld key w).
Proof.
  unfold readWorld. destruct (cache w !! key) as [e|]; [|reflexivity].
  destruct (nowOf w - timestamp e <? CACHE_TTL)%Z; cbn; lia.
Qed.

Lemma success_is_truthy b : prop b "success" = VBool true -> truthy b = true.
Proof. destruct b; try discriminate; reflexivity. Qed.

Lemma cachedRoute_hit R up req w key :
  (gated R = true -> configured) ->
  cachedRouteKey R req = Return key ->
  truthy (readValue key w) = true ->
  cachedRoute R up req w = (Return (json (readValue key w)), readWorld key w).
Proof.
  destruct R; cbn [cachedRoute cachedRouteKey gated]; intros Hc Hk Ht.
  - destruct (getCacheKey_inv _ _ _ Hk) as (s & _ & _ & Hn).
    rewrite (depositors_eq _ req w key _ (Hc eq_refl) Hk Hn), Ht. reflexivity.
  - destruct (getCacheKey_inv _ _ _ Hk) as (s & _ & _ & Hn).
    rewrite (tvl_eq _ req w key _ (Hc eq_refl) Hk Hn), Ht. reflexivity.
  - assert (key = tvlHistoryKey) as -> by (injection Hk as <-; reflexivity).
    rewrite (tvlHistory_eq _ _ req w (Hc eq_refl)), Ht. reflexivity.
  - assert (key = depositorsHistoryKey) as -> by (injection Hk as <-; reflexivity).
    rewrite (depositorsHistory_eq _ _ req w (Hc eq_refl)), Ht. reflexivity.
  - assert (key = lighterVolumeKey) as -> by (injection Hk as <-; reflexivity).
    rewrite (lighterVolume_eq _ req w (Hc eq_refl)), Ht. reflexivity.
  - assert (key = hyperliquidKey) as -> by (injection Hk as <-; reflexivity). apply hyperliquidVolume_hit, Ht.
  - apply (usdcFlow_hit _ req w key (Hc eq_refl) Hk Ht).
Qed.

Lemma cachedRoute_miss R up req w key :
  (gated R = true -> configured) ->
  cachedRouteKey R req = Return key ->
  truthy (readValue key w) = false ->
  exists o w',
    cachedRoute R up req w = (o, w') /\ missOutcome key (readWorld key w) o w'.
Proof.
  destruct R; cbn [cachedRoute cachedRouteKey gated]; intros Hc Hk Ht.
  - destruct (getCacheKey_inv _ _ _ Hk) as (s & _ & _ & Hn).
    rewrite (depositors_eq _ req w key _ (Hc eq_refl) Hk Hn), Ht.
    eexists _, _. split; [reflexivity|]. apply fetchPhase_miss.
  - destruct (getCacheKey_inv _ _ _ Hk) as (s & _ & _ & Hn).
    rewrite (tvl_eq _ req w key _ (Hc eq_refl) Hk Hn), Ht.
    eexists _, _. split; [reflexivity|]. apply fetchPhase_miss.
  - assert (key = tvlHistoryKey) as -> by (injection Hk as <-; reflexivity).
    rewrite (tvlHistory_eq _ _ req w (Hc eq_refl)), Ht.
    eexists _, _. split; [apply surjective_pairing|]. apply historyPhase_miss.
  - assert (key = depositorsHistoryKey) as -> by (injection Hk as <-; reflexivity).
    rewrite (depositorsHistory_eq _ _ req w (Hc eq_refl)), Ht.
    eexists _, _. split; [apply surjective_pairing|]. apply historyPhase_miss.
  - assert (key = lighterVolumeKey) as -> by (injection Hk as <-; reflexivity).
    rewrite (lighterVolume_eq _ req w (Hc eq_refl)), Ht.
    eexists _, _. split; [reflexivity|]. unfold missOutcome. cbn.
    split; [reflexivity|]. left. eexists. repeat split.
  - assert (key = hyperliquidKey) as -> by (injection Hk as <-; reflexivity).
    destruct (hyperliquidVolume_miss (web up) req w Ht) as (o & w' & Hrun & Hm & _).
    eauto.
  - destruct (getCacheKey_inv _ _ _ Hk) as (s & _ & _ & Hn).
    destruct (usdcFlow_miss (dune up) req w key _ (Hc eq_refl) Hk Hn Ht)
      as (o & w' & Hrun & Hm & _).
    eauto.
Qed.

Lemma cachedRoute_no_key R up req w e :
  (gated R = true -> configured) ->
  cachedRouteKey R req = Throw e ->
  exists short,
    cachedRoute R up req w = unprintableAnswer short w.
Proof.
  destruct R; cbn [cachedRoute cachedRouteKey gated]; intros Hc Hk; try discriminate Hk.
  - eexists. apply (depositors_unprintable _ req w e (Hc eq_refl) Hk).
  - eexists. apply (tvl_unprintable _ req w e (Hc eq_refl) Hk).
  - eexists. apply (usdcFlow_unprintable _ req w e (Hc eq_refl) Hk).
Qed.

Lemma cachedRoute_unconfigured R up req w :
  gated R = true ->
  truthy (envVal (DUNE_API_KEY env)) = false ->
  cachedRoute R up req w = (Return configErrorResponse, w).
Proof.
  intros Hg Hu. destruct R; try discriminate Hg; cbn [cachedRoute];
    unfold depositors, tvl, tvlHistory, depositorsHistory, lighterVolume, usdcFlow;
    apply (unconfigured _ w Hu).
Qed.

Lemma missOutcome_stored key u r w' :
  missOutcome key u (Return r) w' ->
  statusCode r = VNum 200 ->
  prop (body r) "success" = VBool true ->
  r = json (body r)
  /\ cache w' !! key = Some (mkEntry (body r) (clock u (pred (tick w'))))
  /\ mutations w' = (mutations u ++ [MSet key])%list.
Proof.
  intros [_ [(b & [= ->] & _ & Hcache & Hmut) | (Hs & _)]] H200 Hsucc.
  - cbn. rewrite Hcache, lookup_insert_eq. auto.
  - cbn in Hs. rewrite H200, Hsucc in Hs. discriminate Hs.
Qed.

Lemma missOutcome_mutations key u o w' :
  missOutcome key u o w' ->
  mutations w' = (mutations u ++ (if succeeded o then [MSet key] else []))%list.
Proof.
  intros [_ [(b & -> & Hb & _ & Hmut) | (-> & _ & ->)]].
  - cbn. rewrite Hb. exact Hmut.
  - symmetry. apply app_nil_r.
Qed.

Lemma missOutcome_storedSuccess key w o w' :
  storedSuccess w -> missOutcome key (readWorld key w) o w' -> storedSuccess w'.
Proof.
  intros Hinv [_ [(b & _ & Hb & Hcache & _) | (_ & Hcache & _)]] k e; rewrite Hcache.
  - destruct (decide (key = k)) as [->|Hne].
    + rewrite lookup_insert_eq. intros [= <-]. exact Hb.
    + rewrite lookup_insert_ne by exact Hne. intros Hk.
      apply (Hinv k e). apply (readWorld_lookup key w k e Hk).
  - intros Hk. apply (Hinv k e). apply (readWorld_lookup key w k e Hk).
Qed.

Lemma missOutcome_other_keys key u o w' k :
  missOutcome key u o w' -> k <> key -> cache w' !! k = cache u !! k.
Proof.
  intros [_ [(b & _ & _ & Hcache & _) | (_ & Hcache & _)]] Hne; rewrite Hcache.
  - apply lookup_insert_ne. congruence.
  - reflexivity.
Qed.

(** ** The freshness of a stored answer *)

(** (C1, as the code has it) On each of the seven routes that use the
    cache: when a call that the cache could not answer ends with status 200
    and [success: true], it has stored its payload under the key of the
    request, stamped with the last clock reading it took; any later call
    for the same request that still finds this entry and reads a time less
    than [CACHE_TTL] after the stamp answers with the stored payload, makes
    no outbound call and leaves the store as it is. *)
Theorem fresh_hit_skips_producer
    (R : CachedRoute) (up up' : Upstream) (req : Request) (key : string)
    (w w1 w2 : World) (v : value) (r1 : Response) :
  (gated R = true -> configured) ->
  cachedRouteKey R req = Return key ->
  fst (getCachedData key w) = Return v ->
  truthy v = false ->
  cachedRoute R up req w = (Return r1, w1) ->
  statusCode r1 = VNum 200 ->
  prop (body r1) "success" = VBool true ->
  cache w2 !! key = cache w1 !! key ->
  (nowOf w2 - clock w (pred (tick w1)) < CACHE_TTL)%Z ->
  cache w1 !! key = Some (mkEntry (body r1) (clock w (pred (tick w1))))
  /\ fst (cachedRoute R up' req w2) = Return (json (body r1))
  /\ outbound (snd (cachedRoute R up' req w2)) = outbound w2
  /\ mutations (snd (cachedRoute R up' req w2)) = mutations w2
  /\ cache (snd (cachedRoute R up' req w2)) = cache w2.
Proof.
  intros Hc Hk Hv Ht Hrun H200 Hsucc Hsame Hlt. apply read_value in Hv. subst v.
  destruct (cachedRoute_miss R up req w key Hc Hk Ht) as (o & w' & Hrun' & Hmiss).
  rewrite Hrun in Hrun'. injection Hrun' as <- <-.
  destruct (missOutcome_stored _ _ _ _ Hmiss H200 Hsucc) as (_ & Hentry & _).
  rewrite clock_readWorld in Hentry. split; [exact Hentry|].
  rewrite Hentry in Hsame.
  destruct (readValue_fresh _ _ _ Hsame Hlt) as [Hrv Hrw]. cbn [data] in Hrv.
  assert (Ht2 : truthy (readValue key w2) = true)
    by (rewrite Hrv; apply success_is_truthy, Hsucc).
  rewrite (cachedRoute_hit R up' req w2 key Hc Hk Ht2), Hrv, Hrw. cbn. auto.
Qed.




Lemma succeeded_fetchPhase short sdk n q key u :
  succeeded (Return (fst (fetchPhase short sdk n q key u)))
  = match settle (sdk n) with Return _ => true | Throw _ => false end.
Proof. unfold fetchPhase. destruct (settle (sdk n)); reflexivity. Qed.

Lemma cachedRoute_rejected R up req w key q n err :
  (gated R = true -> configured) ->
  cachedRouteKey R req = Return key ->
  cachedRouteQuery R req = Some q ->
  parseInt q = Return n ->
  truthy (readValue key w) = false ->
  dune up n = Throw err ->
  exists r w',
    cachedRoute R up req w = (Return r, w')
    /\ statusCode r = VNum 500
    /\ outbound w' = (outbound w ++ [ODune n])%list.
Proof.
  destruct R; cbn [cachedRoute cachedRouteKey cachedRouteQuery gated];
    intros Hc Hk [= <-] Hn Ht Hs.
  - rewrite (depositors_eq _ req w key n (Hc eq_refl) Hk Hn), Ht. unfold fetchPhase.
    rewrite (settle_rejected _ _ Hs). eexists _, _. split; [reflexivity|]. cbn.
    rewrite outbound_readWorld. auto.
  - rewrite (tvl_eq _ req w key n (Hc eq_refl) Hk Hn), Ht. unfold fetchPhase.
    rewrite (settle_rejected _ _ Hs). eexists _, _. split; [reflexivity|]. cbn.
    rewrite outbound_readWorld. auto.
  - assert (key = tvlHistoryKey) as -> by (injection Hk as <-; reflexivity).
    assert (n = VNum 5253928) as -> by (injection Hn as <-; reflexivity).
    rewrite (tvlHistory_eq _ _ req w (Hc eq_refl)), Ht. unfold historyPhase.
    rewrite (settle_rejected _ _ Hs). eexists _, _. split; [reflexivity|]. cbn.
    rewrite outbound_readWorld. auto.
  - assert (key = depositorsHistoryKey) as -> by (injection Hk as <-; reflexivity).
    assert (n = VNum 5253927) as -> by (injection Hn as <-; reflexivity).
    rewrite (depositorsHistory_eq _ _ req w (Hc eq_refl)), Ht. unfold historyPhase.
    rewrite (settle_rejected _ _ Hs). eexists _, _. split; [reflexivity|]. cbn.
    rewrite outbound_readWorld. auto.
  - rewrite (usdcFlow_rejected _ req w key n err (Hc eq_refl) Hk Hn Ht Hs).
    eexists _, _. split; [reflexivity|]. cbn. rewrite outbound_readWorld. auto.
Qed.

(** (C4, as the code has it) On each of the seven routes that use the
    cache, and counting every [cache.set] and [cache.delete]: the cache
    read performs one [cache.delete] exactly when it finds a stale entry
    under the key, and then the call performs one [cache.set] exactly when
    the cache did not answer and the call ends with status 200 and
    [success: true].  A producer that rejects leads to an answer 500 and no
    [cache.set]; on [/depositors] and [/tvl] a result of the producer
    always leads to the [cache.set]; on [/usdc-flow] a result without rows
    leads to none. *)
Theorem cached_route_store_mutations
    (R : CachedRoute) (up : Upstream) (req : Request) (key : string) (w : World)
    (v : value) :
  (gated R = true -> configured) ->
  cachedRouteKey R req = Return key ->
  fst (getCachedData key w) = Return v ->
  exists o w',
    cachedRoute R up req w = (o, w')
    /\ mutations w'
       = (mutations w ++ (if staleAt key w then [MDelete key] else [])
                      ++ (if negb (truthy v) && succeeded o then [MSet key] else []))%list
    /\ (forall q n err,
          truthy v = false ->
          cachedRouteQuery R req = Some q -> parseInt q = Return n ->
          dune up n = Throw err ->
          succeeded o = false
          /\ exists r, o = Return r /\ statusCode r = VNum 500)
    /\ (forall q n qr,
          truthy v = false ->
          R = Depositors \/ R = Tvl ->
          cachedRouteQuery R req = Some q -> parseInt q = Return n ->
          dune up n = Return qr -> nullish qr = false ->
          succeeded o = true)
    /\ (forall q n qr,
          truthy v = false ->
          R = UsdcFlow ->
          cachedRouteQuery R req = Some q -> parseInt q = Return n ->
          dune up n = Return qr -> nullish qr = false ->
          truthy (optProp (prop qr "result") "rows") = false
          \/ optProp (prop qr "result") "rows" = VArr [] ->
          succeeded o = false
          /\ exists r, o = Return r /\ statusCode r = VNum 200).
Proof.
  intros Hc Hk Hv. apply read_value in Hv. subst v.
  destruct (truthy (readValue key w)) eqn:Ht.
  - rewrite (cachedRoute_hit R up req w key Hc Hk Ht).
    eexists _, _. split; [reflexivity|]. cbn [negb andb].
    rewrite mutations_readWorld, app_nil_r.
    split; [reflexivity|]. repeat split; discriminate.
  - destruct (cachedRoute_miss R up req w key Hc Hk Ht) as (o & w' & Hrun & Hmiss).
    exists o, w'. split; [exact Hrun|]. cbn [negb andb].
    split; [rewrite (missOutcome_mutations _ _ _ _ Hmiss), mutations_readWorld,
              <- app_assoc; reflexivity|].
    split; [|split].
    + intros q n err _ Hq Hn Hs.
      destruct (cachedRoute_rejected R up req w key q n err Hc Hk Hq Hn Ht Hs)
        as (r & w'' & Hrun' & H500 & _).
      rewrite Hrun in Hrun'. injection Hrun' as -> ->.
      split; [cbn; rewrite H500; reflexivity | eauto].
    + intros q n qr _ [-> | ->] [= <-] Hn Hs Hnn; cbn [cachedRoute cachedRouteKey gated] in *.
      * rewrite (depositors_eq _ req w key n (Hc eq_refl) Hk Hn), Ht in Hrun.
        injection Hrun as <- _. rewrite succeeded_fetchPhase, (settle_resolved _ _ Hs Hnn).
        reflexivity.
      * rewrite (tvl_eq _ req w key n (Hc eq_refl) Hk Hn), Ht in Hrun.
        injection Hrun as <- _. rewrite succeeded_fetchPhase, (settle_resolved _ _ Hs Hnn).
        reflexivity.
    + intros q n qr _ -> [= <-] Hn Hs Hnn Hrows. cbn [cachedRoute cachedRouteKey gated] in *.
      rewrite (usdcFlow_no_rows _ req w key n qr (Hc eq_refl) Hk Hn Ht Hs Hnn Hrows) in Hrun.
      injection Hrun as <- _. split; [reflexivity | eauto].
Qed.

(** ** The Lighter routes *)

Lemma isHexDigit_spec c : isHexDigit c = existsb (Ascii.eqb c) hexChars.
Proof. destruct c as [[] [] [] [] [] [] [] []]; reflexivity. Qed.

Lemma forallb_isHexDigit l :
  forallb isHexDigit l = forallb (fun c => existsb (Ascii.eqb c) hexChars) l.
Proof.
  induction l as [|c l IH]; [reflexivity|]. cbn [forallb].
  rewrite IH, isHexDigit_spec. reflexivity.
Qed.

Lemma testAddress_spec address :
  testAddress address = true <->
  exists rest, address = "0x" +:+ rest
               /\ String.length rest = 40%nat
               /\ forallb (fun c => existsb (Ascii.eqb c) hexChars)
                    (list_ascii_of_string rest) = true.
Proof.
  split.
  - intros H. destruct address as [|a [|b rest]]; try discriminate H.
    unfold testAddress in H.
    apply andb_prop in H as [H Hhex]. apply andb_prop in H as [H Hlen].
    apply andb_prop in H as [Ha Hb].
    apply Ascii.eqb_eq in Ha, Hb. subst a b. exists rest.
    split; [reflexivity|]. split; [apply Nat.eqb_eq, Hlen|].
    rewrite <- Hhex. symmetry. apply forallb_isHexDigit.
  - intros (rest & -> & Hlen & Hhex). change ("0x" +:+ rest) with (String "0" (String "x" rest)).
    unfold testAddress. rewrite Hlen, !Ascii.eqb_refl. cbn [Nat.eqb andb].
    rewrite <- Hhex. apply forallb_isHexDigit.
Qed.

Lemma lighterExchangeStats_rejected net req w err :
  net exchangeStatsUrl = Throw err -> nullish err = false ->
  lighterExchangeStats net req w
  = (Return (lighterFailure "Failed to fetch exchange statistics" (prop err "message")),
     fetched exchangeStatsUrl w).
Proof.
  intros Hn Herr. unfold lighterExchangeStats, tryCatch, bind, fetchUrl.
  fold exchangeStatsUrl. rewrite Hn. unfold getProp. rewrite Herr. reflexivity.
Qed.

Lemma lighterExchangeStats_not_ok net req w resp :
  net exchangeStatsUrl = Return resp -> ok resp = false ->
  lighterExchangeStats net req w
  = (Return (lighterFailure "Failed to fetch exchange statistics"
               (VStr ("Lighter API error: " +:+ numberToString (status resp) +:+ " "
                        +:+ statusText resp))),
     fetched exchangeStatsUrl w).
Proof.
  intros Hn Hok. unfold lighterExchangeStats, tryCatch, bind, fetchUrl.
  fold exchangeStatsUrl. rewrite Hn, Hok. reflexivity.
Qed.

Lemma lighterAccount_invalid net req w :
  testAddress (params_address req) = false ->
  lighterAccount net req w = (Return invalidAddressResponse, w).
Proof.
  intros Ht. unfold lighterAccount, tryCatch. rewrite Ht. reflexivity.
Qed.

Lemma lighterAccount_not_found net req w resp errorData :
  testAddress (params_address req) = true ->
  net (accountUrl (params_address req)) = Return resp ->
  status resp = 400%Z ->
  jsonBody resp = Return errorData ->
  strictEqNum (prop errorData "code") 21100 = true ->
  lighterAccount net req w
  = (Return accountNotFoundResponse, fetched (accountUrl (params_address req)) w).
Proof.
  intros Ht Hn Hs Hj Hcode. unfold lighterAccount, tryCatch at 1, bind at 1. rewrite Ht.
  cbn [negb]. unfold bind at 1, fetchUrl. fold (accountUrl (params_address req)).
  rewrite Hn. destruct resp as [st txt jb]. cbn in Hs, Hj. subst st jb.
  assert (Hnn : nullish errorData = false) by (destruct errorData; try reflexivity; discriminate Hcode).
  unfold ok, bind, tryCatch, readJson, getProp. cbn -[strictEqNum prop nullish].
  rewrite Hnn. cbn -[strictEqNum prop]. rewrite Hcode. reflexivity.
Qed.

(** ** Which routes use the cache *)

Lemma fetchPhase_stores short sdk n q key u qr :
  sdk n = Return qr -> nullish qr = false ->
  statusCode (fst (fetchPhase short sdk n q key u)) = VNum 200
  /\ cache (snd (fetchPhase short sdk n q key u)) !! key
     = Some (mkEntry (body (fst (fetchPhase short sdk n q key u))) (clock u (S (tick u)))).
Proof.
  intros Hs Hn. unfold fetchPhase. rewrite (settle_resolved _ _ Hs Hn). cbn.
  split; [reflexivity|]. apply lookup_insert_eq.
Qed.

(** (C7, as the code has it) With the Dune key configured: [/depositors]
    and [/tvl] take the query identifier from the request, else from the
    environment, else from a literal; they read the cache under the key of
    the endpoint name and that identifier, answer from it without an
    outbound call when the read gives a truthy payload, and otherwise ask
    the producer and, on a result, store the answer under that key.
    [/deposits-timeline] and [/query] never touch the store; on a request
    that carries an identifier they ask the producer, for the number the
    identifier parses to, unless the identifier does not convert to a
    string: then they answer 500 and ask nobody. *)
Theorem cached_and_uncached_routes
    (sdk : value -> Outcome value) (req : Request) (w : World) :
  configured ->
  (forall key v,
     depositorsKey req = Return key ->
     fst (getCachedData key w) = Return v -> truthy v = true ->
     fst (depositors sdk req w) = Return (json v)
     /\ outbound (snd (depositors sdk req w)) = outbound w)
  /\ (forall key n v qr,
        depositorsKey req = Return key ->
        parseInt (depositorsQueryId req) = Return n ->
        fst (getCachedData key w) = Return v -> truthy v = false ->
        sdk n = Return qr -> nullish qr = false ->
        exists r t,
          fst (depositors sdk req w) = Return r /\ statusCode r = VNum 200
          /\ outbound (snd (depositors sdk req w)) = (outbound w ++ [ODune n])%list
          /\ cache (snd (depositors sdk req w)) !! key = Some (mkEntry (body r) t))
  /\ (forall key v,
        tvlKey req = Return key ->
        fst (getCachedData key w) = Return v -> truthy v = true ->
        fst (tvl sdk req w) = Return (json v)
        /\ outbound (snd (tvl sdk req w)) = outbound w)
  /\ (forall key n v qr,
        tvlKey req = Return key ->
        parseInt (tvlQueryId req) = Return n ->
        fst (getCachedData key w) = Return v -> truthy v = false ->
        sdk n = Return qr -> nullish qr = false ->
        exists r t,
          fst (tvl sdk req w) = Return r /\ statusCode r = VNum 200
          /\ outbound (snd (tvl sdk req w)) = (outbound w ++ [ODune n])%list
          /\ cache (snd (tvl sdk req w)) !! key = Some (mkEntry (body r) t))
  /\ (cache (snd (depositsTimeline sdk req w)) = cache w
      /\ mutations (snd (depositsTimeline sdk req w)) = mutations w
      /\ (forall n,
            truthy (depositsTimelineQueryId req) = true ->
            parseInt (depositsTimelineQueryId req) = Return n ->
            outbound (snd (depositsTimeline sdk req w)) = (outbound w ++ [ODune n])%list)
      /\ (forall e,
            truthy (depositsTimelineQueryId req) = true ->
            parseInt (depositsTimelineQueryId req) = Throw e ->
            outbound (snd (depositsTimeline sdk req w)) = outbound w
            /\ exists r, fst (depositsTimeline sdk req w) = Return r
                         /\ statusCode r = VNum 500))
  /\ (cache (snd (query sdk req w)) = cache w
      /\ mutations (snd (query sdk req w)) = mutations w
      /\ (forall n,
            truthy (body_queryId req) = true ->
            parseInt (body_queryId req) = Return n ->
            outbound (snd (query sdk req w)) = (outbound w ++ [ODune n])%list)
      /\ (forall e,
            truthy (body_queryId req) = true ->
            parseInt (body_queryId req) = Throw e ->
            outbound (snd (query sdk req w)) = outbound w
            /\ exists r, fst (query sdk req w) = Return r /\ statusCode r = VNum 500)).
Proof.
  intros Hc. repeat apply conj.
  - intros key v Hk Hv Ht. apply read_value in Hv. subst v.
    destruct (getCacheKey_inv _ _ _ Hk) as (s & _ & _ & Hn).
    rewrite (depositors_eq sdk req w key _ Hc Hk Hn), Ht. cbn.
    split; [reflexivity|apply outbound_readWorld].
  - intros key n v qr Hk Hn Hv Ht Hs Hnn. apply read_value in Hv. subst v.
    rewrite (depositors_eq sdk req w key n Hc Hk Hn), Ht. cbn [fst snd].
    destruct (fetchPhase_stores "Failed to fetch depositors data" sdk n (depositorsQueryId req)
                key (readWorld key w) qr Hs Hnn) as [H200 Hst].
    eexists _, _. split; [reflexivity|]. split; [exact H200|]. split; [|exact Hst].
    rewrite fetchPhase_outbound, outbound_readWorld. reflexivity.
  - intros key v Hk Hv Ht. apply read_value in Hv. subst v.
    destruct (getCacheKey_inv _ _ _ Hk) as (s & _ & _ & Hn).
    rewrite (tvl_eq sdk req w key _ Hc Hk Hn), Ht. cbn.
    split; [reflexivity|apply outbound_readWorld].
  - intros key n v qr Hk Hn Hv Ht Hs Hnn. apply read_value in Hv. subst v.
    rewrite (tvl_eq sdk req w key n Hc Hk Hn), Ht. cbn [fst snd].
    destruct (fetchPhase_stores "Failed to fetch TVL data" sdk n (tvlQueryId req)
                key (readWorld key w) qr Hs Hnn) as [H200 Hst].
    eexists _, _. split; [reflexivity|]. split; [exact H200|]. split; [|exact Hst].
    rewrite fetchPhase_outbound, outbound_readWorld. reflexivity.
  - rewrite (depositsTimeline_eq sdk req w Hc).
    destruct (truthy (depositsTimelineQueryId req)); [apply uncachedRoute_world | reflexivity].
  - rewrite (depositsTimeline_eq sdk req w Hc).
    destruct (truthy (depositsTimelineQueryId req)); [apply uncachedRoute_world | reflexivity].
  - intros n Hq Hn. rewrite (depositsTimeline_eq sdk req w Hc), Hq.
    apply uncachedRoute_outbound, Hn.
  - intros e Hq Hn. rewrite (depositsTimeline_eq sdk req w Hc), Hq.
    rewrite (uncachedRoute_unprintable _ sdk _ e w Hn). cbn. eauto.
  - rewrite (query_eq sdk req w Hc).
    destruct (truthy (body_queryId req)); [apply uncachedRoute_world | reflexivity].
  - rewrite (query_eq sdk req w Hc).
    destruct (truthy (body_queryId req)); [apply uncachedRoute_world | reflexivity].
  - intros n Hq Hn. rewrite (query_eq sdk req w Hc), Hq. apply uncachedRoute_outbound, Hn.
  - intros e Hq Hn. rewrite (query_eq sdk req w Hc), Hq.
    rewrite (uncachedRoute_unprintable _ sdk _ e w Hn). cbn. eauto.
Qed.

(** ** Failure answers *)

Lemma fetchPhase_fails short sdk n q key u err :
  sdk n = Throw err ->
  fst (fetchPhase short sdk n q key u)
  = mkResponse (VNum 500)
      (failureBody short (if nullish err then typeError err "message" else err) (nowOf u)).
Proof.
  intros Hs. unfold fetchPhase. rewrite (settle_rejected _ _ Hs). reflexivity.
Qed.

Lemma sendStatus_valid code b :
  validStatus code = true -> sendStatus code b = Return (mkResponse code b).
Proof.
  unfold validStatus, sendStatus. destruct code; try discriminate. intros ->. reflexivity.
Qed.

Lemma sendStatus_refused n b :
  validStatus (VNum n) = false -> sendStatus (VNum n) b = Throw (statusError (VNum n)).
Proof. unfold validStatus, sendStatus. intros ->. reflexivity. Qed.

Lemma uncachedRoute_fails short sdk q n u err :
  parseInt q = Return n ->
  sdk n = Throw err -> nullish err = false ->
  fst (uncachedRoute short sdk q u)
  = sendStatus (upstreamStatus err) (upstreamBody short err (nowOf u)).
Proof.
  unfold parseInt, uncachedRoute, uncachedPhase. destruct (toStr q) as [s|e]; [|discriminate].
  intros [= <-] Hs Hn. rewrite (settle_rejected _ _ Hs), Hn. reflexivity.
Qed.

(** (C8, as the code has it) The failure answers, route by route.  Without
    the Dune key the four Dune routes answer 500 with [{error, message}]
    before any cache access or outbound call.  [/deposits-timeline] and
    [/query] answer 400 with [{error, message}] to a request without a query
    identifier, before any outbound call.  When the producer rejects,
    [/depositors] and [/tvl] answer 500 with [{error, message, timestamp}];
    [/deposits-timeline] and [/query] answer with [error.response.status],
    or 500 when the error carries none, and [{error, message, timestamp}],
    provided that status is a number from 100 to 999; a number outside
    that range is refused and the request gets no answer from the handler.
    [/lighter-exchange-stats] answers 500 with [{error, details}] when the
    fetch rejects or the answer is not ok.  [/lighter-account] answers 404
    with [{error, message, code}] to an upstream 400 whose body has code
    21100. *)
Theorem failure_answers_by_route
    (sdk : value -> Outcome value) (net : string -> Outcome FetchResponse)
    (req : Request) (w : World) :
  (truthy (envVal (DUNE_API_KEY env)) = false ->
     depositors sdk req w = (Return configErrorResponse, w)
     /\ tvl sdk req w = (Return configErrorResponse, w)
     /\ depositsTimeline sdk req w = (Return configErrorResponse, w)
     /\ query sdk req w = (Return configErrorResponse, w)
     /\ statusCode configErrorResponse = VNum 500
     /\ keys (body configErrorResponse) = ["error"; "message"])
  /\ (configured -> truthy (depositsTimelineQueryId req) = false ->
      exists r, depositsTimeline sdk req w = (Return r, w)
                /\ statusCode r = VNum 400 /\ keys (body r) = ["error"; "message"])
  /\ (configured -> truthy (body_queryId req) = false ->
      exists r, query sdk req w = (Return r, w)
                /\ statusCode r = VNum 400 /\ keys (body r) = ["error"; "message"])
  /\ (forall key n v err,
        configured ->
        depositorsKey req = Return key ->
        parseInt (depositorsQueryId req) = Return n ->
        fst (getCachedData key w) = Return v -> truthy v = false ->
        sdk n = Throw err ->
        exists r, fst (depositors sdk req w) = Return r
                  /\ statusCode r = VNum 500
                  /\ keys (body r) = ["error"; "message"; "timestamp"])
  /\ (forall key n v err,
        configured ->
        tvlKey req = Return key ->
        parseInt (tvlQueryId req) = Return n ->
        fst (getCachedData key w) = Return v -> truthy v = false ->
        sdk n = Throw err ->
        exists r, fst (tvl sdk req w) = Return r
                  /\ statusCode r = VNum 500
                  /\ keys (body r) = ["error"; "message"; "timestamp"])
  /\ (forall n err,
        configured -> truthy (depositsTimelineQueryId req) = true ->
        parseInt (depositsTimelineQueryId req) = Return n ->
        sdk n = Throw err -> nullish err = false ->
        (validStatus (upstreamStatus err) = true ->
         exists r, fst (depositsTimeline sdk req w) = Return r
                   /\ statusCode r = upstreamStatus err
                   /\ keys (body r) = ["error"; "message"; "timestamp"])
        /\ (forall code, upstreamStatus err = VNum code ->
                         validStatus (VNum code) = false ->
                         fst (depositsTimeline sdk req w) = Throw (statusError (VNum code))))
  /\ (forall n err,
        configured -> truthy (body_queryId req) = true ->
        parseInt (body_queryId req) = Return n ->
        sdk n = Throw err -> nullish err = false ->
        (validStatus (upstreamStatus err) = true ->
         exists r, fst (query sdk req w) = Return r
                   /\ statusCode r = upstreamStatus err
                   /\ keys (body r) = ["error"; "message"; "timestamp"])
        /\ (forall code, upstreamStatus err = VNum code ->
                         validStatus (VNum code) = false ->
                         fst (query sdk req w) = Throw (statusError (VNum code))))
  /\ (forall err,
        net exchangeStatsUrl = Throw err -> nullish err = false ->
        exists r, fst (lighterExchangeStats net req w) = Return r
                  /\ statusCode r = VNum 500 /\ keys (body r) = ["error"; "details"])
  /\ (forall resp,
        net exchangeStatsUrl = Return resp -> ok resp = false ->
        exists r, fst (lighterExchangeStats net req w) = Return r
                  /\ statusCode r = VNum 500 /\ keys (body r) = ["error"; "details"])
  /\ (forall resp errorData,
        testAddress (params_address req) = true ->
        net (accountUrl (params_address req)) = Return resp ->
        status resp = 400%Z ->
        jsonBody resp = Return errorData ->
        strictEqNum (prop errorData "code") 21100 = true ->
        exists r, fst (lighterAccount net req w) = Return r
                  /\ statusCode r = VNum 404
                  /\ keys (body r) = ["error"; "message"; "code"]).
Proof.
  repeat apply conj.
  - intros Hu. unfold depositors, tvl, depositsTimeline, query.
    rewrite !(unconfigured _ w Hu). repeat split.
  - intros Hc Hq. rewrite (depositsTimeline_eq sdk req w Hc), Hq.
    eexists. split; [reflexivity|]. split; reflexivity.
  - intros Hc Hq. rewrite (query_eq sdk req w Hc), Hq.
    eexists. split; [reflexivity|]. split; reflexivity.
  - intros key n v err Hc Hk Hn Hv Ht Hs. apply read_value in Hv. subst v.
    rewrite (depositors_eq sdk req w key n Hc Hk Hn), Ht. cbn [fst].
    rewrite (fetchPhase_fails _ _ _ _ _ _ _ Hs).
    eexists. split; [reflexivity|]. split; reflexivity.
  - intros key n v err Hc Hk Hn Hv Ht Hs. apply read_value in Hv. subst v.
    rewrite (tvl_eq sdk req w key n Hc Hk Hn), Ht. cbn [fst].
    rewrite (fetchPhase_fails _ _ _ _ _ _ _ Hs).
    eexists. split; [reflexivity|]. split; reflexivity.
  - intros n err Hc Hq Hn Hs Hnn. rewrite (depositsTimeline_eq sdk req w Hc), Hq.
    rewrite (uncachedRoute_fails _ sdk _ n w err Hn Hs Hnn). split.
    + intros Hvalid. rewrite (sendStatus_valid _ _ Hvalid).
      eexists. split; [reflexivity|]. split; reflexivity.
    + intros code Hcode Hbad. rewrite Hcode. apply sendStatus_refused, Hbad.
  - intros n err Hc Hq Hn Hs Hnn. rewrite (query_eq sdk req w Hc), Hq.
    rewrite (uncachedRoute_fails _ sdk _ n w err Hn Hs Hnn). split.
    + intros Hvalid. rewrite (sendStatus_valid _ _ Hvalid).
      eexists. split; [reflexivity|]. split; reflexivity.
    + intros code Hcode Hbad. rewrite Hcode. apply sendStatus_refused, Hbad.
  - intros err Hn Herr. rewrite (lighterExchangeStats_rejected net req w err Hn Herr).
    eexists. split; [reflexivity|]. split; reflexivity.
  - intros resp Hn Hok. rewrite (lighterExchangeStats_not_ok net req w resp Hn Hok).
    eexists. split; [reflexivity|]. split; reflexivity.
  - intros resp errorData Ht Hn Hs Hj Hcode.
    rewrite (lighterAccount_not_found net req w resp errorData Ht Hn Hs Hj Hcode).
    eexists. split; [reflexivity|]. split; reflexivity.
Qed.

(** (C9) [/lighter-account/:address] accepts exactly the addresses made of
    [0x] and 40 characters of [[a-fA-F0-9]]; to any other address it answers
    400 with the error [Invalid Ethereum address format] and makes no
    outbound call; an upstream answer with status 400 whose body has the
    code 21100 becomes a 404. *)
Theorem lighterAccount_checks_address
    (net : string -> Outcome FetchResponse) (req : Request) (w : World) :
  (testAddress (params_address req) = true <->
   exists rest, params_address req = "0x" +:+ rest
                /\ String.length rest = 40%nat
                /\ forallb (fun c => existsb (Ascii.eqb c) hexChars)
                     (list_ascii_of_string rest) = true)
  /\ (testAddress (params_address req) = false ->
      lighterAccount net req w
      = (Return (mkResponse (VNum 400)
                   (VObj [("error", VStr "Invalid Ethereum address format")])), w))
  /\ (forall resp errorData,
        testAddress (params_address req) = true ->
        net (accountUrl (params_address req)) = Return resp ->
        status resp = 400%Z ->
        jsonBody resp = Return errorData ->
        strictEqNum (prop errorData "code") 21100 = true ->
        exists body404,
          fst (lighterAccount net req w) = Return (mkResponse (VNum 404) body404)
          /\ outbound (snd (lighterAccount net req w))
             = (outbound w ++ [OFetch (accountUrl (params_address req))])%list).
Proof.
  split; [apply testAddress_spec|]. split.
  - apply lighterAccount_invalid.
  - intros resp errorData Ht Hn Hs Hj Hcode.
    rewrite (lighterAccount_not_found net req w resp errorData Ht Hn Hs Hj Hcode).
    eexists. split; reflexivity.
Qed.

(** ** Further properties of the cache layer *)

Lemma append_underscore_split (e1 e2 s1 s2 : string) :
  noUnderscore e1 = true -> noUnderscore e2 = true ->
  e1 +:+ "_" +:+ s1 = e2 +:+ "_" +:+ s2 ->
  e1 = e2 /\ s1 = s2.
Proof.
  revert e2. induction e1 as [|c1 e1 IH]; intros [|c2 e2] H1 H2 Heq;
    cbn in H1, H2; cbv beta iota delta [String.append] in Heq; fold String.append in Heq.
  - injection Heq as Hq. subst s2. auto.
  - injection Heq as Hc _. subst c2. discriminate H2.
  - injection Heq as Hc _. subst c1. discriminate H1.
  - injection Heq as Hc Heq. subst c2.
    apply andb_prop in H1 as [_ H1]. apply andb_prop in H2 as [_ H2].
    destruct (IH e2 H1 H2 Heq) as [He Hq]. subst. auto.
Qed.

(** (X1) An identifier whose conversion to a string throws has no key:
    [getCacheKey] throws the [TypeError] of the conversion.  For
    identifiers that convert, of whatever type, two keys built from endpoint
    names without underscore are equal exactly when the endpoint names are
    equal and the two identifiers have the same string form. *)
Theorem cache_keys_collide_exactly (e1 e2 : string) (q1 q2 : value) :
  noUnderscore e1 = true ->
  noUnderscore e2 = true ->
  (forall s1 s2,
     toStr q1 = Return s1 -> toStr q2 = Return s2 ->
     (getCacheKey (VStr e1) q1 = getCacheKey (VStr e2) q2 <-> e1 = e2 /\ s1 = s2))
  /\ (forall err, toStr q1 = Throw err -> getCacheKey (VStr e1) q1 = Throw noPrimitive)
  /\ (forall k, getCacheKey (VStr e1) q1 = Return k ->
                exists s, toStr q1 = Return s /\ k = e1 +:+ "_" +:+ s).
Proof.
  intros H1 H2. split; [|split].
  - intros s1 s2 Hq1 Hq2.
    rewrite (getCacheKey_str e1 q1 s1 Hq1), (getCacheKey_str e2 q2 s2 Hq2). split.
    + intros [= Heq]. apply (append_underscore_split e1 e2 s1 s2 H1 H2 Heq).
    + intros [-> ->]. reflexivity.
  - intros err Hq. rewrite (getCacheKey_throws e1 q1 err Hq), (toStr_throws q1 err Hq).
    reflexivity.
  - intros k Hk. destruct (getCacheKey_text e1 q1 k Hk) as (s & Hq & ->). eauto.
Qed.

(** (X2) A payload stored under a key comes back from a read of that key while
    the clock reads less than [CACHE_TTL] past the reading the write took,
    and the read leaves the store alone; from [CACHE_TTL] on the read
    returns [null] and the entry is gone. *)
Theorem setCachedData_then_getCachedData (key : string) (d : value) (w w2 : World) :
  cache w2 !! key = cache (snd (setCachedData key d w)) !! key ->
  fst (getCachedData key w2)
  = Return (if (nowOf w2 - nowOf w <? CACHE_TTL)%Z then d else VNull)
  /\ ((nowOf w2 - nowOf w < CACHE_TTL)%Z -> cache (snd (getCachedData key w2)) = cache w2)
  /\ ((CACHE_TTL <= nowOf w2 - nowOf w)%Z -> cache (snd (getCachedData key w2)) !! key = None).
Proof.
  intros Hk. cbn in Hk. rewrite lookup_insert_eq in Hk.
  rewrite getCachedData_eq. unfold readValue, readWorld. rewrite Hk. cbn.
  split; [reflexivity|]. split.
  - intros Hlt. apply Z.ltb_lt in Hlt. rewrite Hlt. reflexivity.
  - intros Hge. apply Z.ltb_ge in Hge. rewrite Hge. cbn. apply lookup_delete_eq.
Qed.

(** (X3) A read adds no entry and changes none, leaves every key but its own as
    it was, makes no outbound call and performs no [cache.set]. *)
Theorem getCachedData_frame (key : string) (w : World) :
  (forall k e, cache (snd (getCachedData key w)) !! k = Some e -> cache w !! k = Some e)
  /\ (forall k, k <> key -> cache (snd (getCachedData key w)) !! k = cache w !! k)
  /\ outbound (snd (getCachedData key w)) = outbound w
  /\ clock (snd (getCachedData key w)) = clock w
  /\ (forall k, In (MSet k) (mutations (snd (getCachedData key w))) ->
                 In (MSet k) (mutations w)).
Proof.
  rewrite read_world, cache_readWorld, outbound_readWorld, clock_readWorld,
    mutations_readWorld.
  split; [|split; [|split; [reflexivity | split; [reflexivity|]]]].
  - intros k e. destruct (staleAt key w); [|auto].
    destruct (decide (key = k)) as [->|Hne].
    + rewrite lookup_delete_eq. discriminate.
    + rewrite lookup_delete_ne by exact Hne. auto.
  - intros k Hne. destruct (staleAt key w); [|reflexivity].
    apply lookup_delete_ne. congruence.
  - intros k Hin. apply in_app_or in Hin as [Hin|Hin]; [exact Hin|].
    destruct (staleAt key w); cbn in Hin; [destruct Hin as [H|[]]; discriminate H | destruct Hin].
Qed.

(** (X4) A second write under a key replaces the first: the store is the one a
    single write of the second payload at the second reading gives, and
    every other key keeps its entry. *)
Theorem setCachedData_overwrites (key : string) (d1 d2 : value) (w : World) :
  cache (snd (setCachedData key d2 (snd (setCachedData key d1 w))))
  = <[key := mkEntry d2 (clock w (S (tick w)))]> (cache w)
  /\ (forall k, k <> key ->
        cache (snd (setCachedData key d2 (snd (setCachedData key d1 w)))) !! k = cache w !! k)
  /\ mutations (snd (setCachedData key d2 (snd (setCachedData key d1 w))))
     = (mutations w ++ [MSet key; MSet key])%list.
Proof.
  cbn. split; [apply insert_insert_eq|]. split.
  - intros k Hne. rewrite !lookup_insert_ne by congruence. reflexivity.
  - rewrite <- app_assoc. reflexivity.
Qed.

(** ** [fetchDuneQuery] *)

(** (X5) With the client configured and an identifier that parses to the
    number [n], a result of the service for [n] comes back as
    [{result: {rows}, execution_time, query_id}] whose [rows] is never
    falsy: the rows of the service when they are truthy and the empty array
    otherwise; [query_id] is the identifier as it was given; one outbound
    call is made and nothing else changes. *)
Theorem fetchDuneQuery_rows_never_falsy
    (sdk : value -> Outcome value) (q n qr : value) (w : World) :
  configured ->
  parseInt q = Return n ->
  sdk n = Return qr ->
  nullish qr = false ->
  exists data,
    fetchDuneQuery sdk q w = (Return data, asked n w)
    /\ keys data = ["result"; "execution_time"; "query_id"]
    /\ truthy (prop (prop data "result") "rows") = true
    /\ (truthy (optProp (prop qr "result") "rows") = true ->
        prop (prop data "result") "rows" = optProp (prop qr "result") "rows")
    /\ (truthy (optProp (prop qr "result") "rows") = false ->
        prop (prop data "result") "rows" = VArr [])
    /\ prop data "execution_time" = prop qr "execution_time_millis"
    /\ prop data "query_id" = q.
Proof.
  intros Hc Hn Hs Hnn. unfold parseInt in Hn.
  destruct (toStr q) as [s|e] eqn:Hq; [|discriminate]. injection Hn as <-.
  rewrite (fetchDuneQuery_spec sdk q s w Hc Hq), (settle_resolved _ _ Hs Hnn).
  eexists. split; [reflexivity|]. cbn. split; [reflexivity|].
  split; [apply jsOr_truthy; reflexivity|]. unfold jsOr.
  split; [intros ->; reflexivity|]. split; [intros ->; reflexivity|]. auto.
Qed.

(** (X6) An error of the service passes through [fetchDuneQuery] unchanged, after
    one outbound call and with the store untouched; an error that is
    [null] or [undefined] becomes the [TypeError] of reading its message;
    without the client no call is made at all; and for an identifier that
    does not convert to a string the [TypeError] of the conversion is
    thrown before any call. *)
Theorem fetchDuneQuery_rethrows
    (sdk : value -> Outcome value) (q : value) (w : World) :
  (forall n err,
     parseInt q = Return n ->
     sdk n = Throw err ->
     (configured ->
      fetchDuneQuery sdk q w
      = (Throw (if nullish err then typeError err "message" else err), asked n w))
     /\ (truthy (envVal (DUNE_API_KEY env)) = false ->
         fetchDuneQuery sdk q w = (Throw (typeError VNull "getLatestResult"), w)))
  /\ (forall e, parseInt q = Throw e -> fetchDuneQuery sdk q w = (Throw noPrimitive, w)).
Proof.
  split.
  - intros n err Hn Hs. unfold parseInt in Hn.
    destruct (toStr q) as [s|e] eqn:Hq; [|discriminate]. injection Hn as <-. split.
    + intros Hc. rewrite (fetchDuneQuery_spec sdk q s w Hc Hq), (settle_rejected _ _ Hs).
      reflexivity.
    + intros Hu. unfold fetchDuneQuery, getLatestResult, duneClient, logTemplate.
      rewrite Hq, Hu. reflexivity.
  - intros e Hn. unfold parseInt in Hn.
    destruct (toStr q) as [s|e'] eqn:Hq; [discriminate|].
    apply (fetchDuneQuery_unprintable sdk q e' w Hq).
Qed.

(** ** Further properties of the Dune routes *)

Lemma fetchPhase_status short sdk n q key u :
  statusCode (fst (fetchPhase short sdk n q key u)) = VNum 200
  /\ prop (body (fst (fetchPhase short sdk n q key u))) "success" = VBool true
  \/ statusCode (fst (fetchPhase short sdk n q key u)) = VNum 500.
Proof.
  unfold fetchPhase. destruct (settle (sdk n)); cbn; auto.
Qed.

Lemma depositors_answers sdk req w :
  configured ->
  exists r w',
    depositors sdk req w = (Return r, w')
    /\ ((exists key, depositorsKey req = Return key
                     /\ truthy (readValue key w) = true /\ r = json (readValue key w))
        \/ statusCode r = VNum 200 /\ prop (body r) "success" = VBool true
        \/ statusCode r = VNum 500).
Proof.
  intros Hc. destruct (depositorsKey req) as [key|e] eqn:Hk.
  - destruct (getCacheKey_inv _ _ _ Hk) as (s & _ & _ & Hn).
    rewrite (depositors_eq sdk req w key _ Hc Hk Hn).
    destruct (truthy (readValue key w)) eqn:Ht.
    + eexists _, _. split; [reflexivity|]. left. eauto.
    + eexists _, _. split; [reflexivity|]. right. apply fetchPhase_status.
  - rewrite (depositors_unprintable sdk req w e Hc Hk).
    eexists _, _. split; [reflexivity|]. right. right. reflexivity.
Qed.

Lemma tvl_answers sdk req w :
  configured ->
  exists r w',
    tvl sdk req w = (Return r, w')
    /\ ((exists key, tvlKey req = Return key
                     /\ truthy (readValue key w) = true /\ r = json (readValue key w))
        \/ statusCode r = VNum 200 /\ prop (body r) "success" = VBool true
        \/ statusCode r = VNum 500).
Proof.
  intros Hc. destruct (tvlKey req) as [key|e] eqn:Hk.
  - destruct (getCacheKey_inv _ _ _ Hk) as (s & _ & _ & Hn).
    rewrite (tvl_eq sdk req w key _ Hc Hk Hn).
    destruct (truthy (readValue key w)) eqn:Ht.
    + eexists _, _. split; [reflexivity|]. left. eauto.
    + eexists _, _. split; [reflexivity|]. right. apply fetchPhase_status.
  - rewrite (tvl_unprintable sdk req w e Hc Hk).
    eexists _, _. split; [reflexivity|]. right. right. reflexivity.
Qed.

(** (X7) [/depositors] and [/tvl] answer every request, whatever the service
    does, and only with status 200 or 500; [/tvl] never reaches its answer
    400, since its identifier falls back to a literal. *)
Theorem cached_routes_answer_200_or_500
    (sdk : value -> Outcome value) (req : Request) (w : World) :
  (exists r w', depositors sdk req w = (Return r, w')
                /\ (statusCode r = VNum 200 \/ statusCode r = VNum 500))
  /\ (exists r w', tvl sdk req w = (Return r, w')
                   /\ (statusCode r = VNum 200 \/ statusCode r = VNum 500)).
Proof.
  destruct (truthy (envVal (DUNE_API_KEY env))) eqn:Hc.
  - split.
    + destruct (depositors_answers sdk req w Hc)
        as (r & w' & -> & [(key & _ & _ & ->) | [[H _] | H]]); eauto.
    + destruct (tvl_answers sdk req w Hc)
        as (r & w' & -> & [(key & _ & _ & ->) | [[H _] | H]]); eauto.
  - unfold depositors, tvl. rewrite !(unconfigured _ w Hc).
    split; eexists _, _; (split; [reflexivity|]); right; reflexivity.
Qed.

Lemma sendStatus_throws code b e :
  sendStatus code b = Throw e -> validStatus code = false.
Proof.
  intros H. destruct (validStatus code) eqn:Hv; [|reflexivity].
  rewrite (sendStatus_valid code b Hv) in H. discriminate H.
Qed.

Lemma uncachedRoute_throws short sdk q u e :
  fst (uncachedRoute short sdk q u) = Throw e ->
  exists n err,
    parseInt q = Return n /\ settle (sdk n) = Throw err
    /\ validStatus (upstreamStatus err) = false.
Proof.
  unfold uncachedRoute, uncachedPhase, parseInt. destruct (toStr q) as [s|e0]; [|discriminate].
  destruct (settle (sdk (parseIntString s))) as [qr|err] eqn:Hs; [discriminate|].
  cbn [fst]. unfold upstreamFailure. intros H. apply sendStatus_throws in H. eauto.
Qed.

(** (X8) [/deposits-timeline] and [/query] leave the store as it was on
    every path.  They answer every request but one kind: when the handler
    ends without an answer, the service had rejected and the status of its
    error, [error.response.status], is not a number from 100 to 999. *)
Theorem uncached_routes_answer_unless_status_refused
    (sdk : value -> Outcome value) (req : Request) (w : World) :
  (exists o w',
     depositsTimeline sdk req w = (o, w')
     /\ cache w' = cache w
     /\ mutations w' = mutations w
     /\ (forall e, o = Throw e ->
           exists n err,
             parseInt (depositsTimelineQueryId req) = Return n
             /\ settle (sdk n) = Throw err
             /\ validStatus (upstreamStatus err) = false))
  /\ (exists o w',
        query sdk req w = (o, w')
        /\ cache w' = cache w
        /\ mutations w' = mutations w
        /\ (forall e, o = Throw e ->
              exists n err,
                parseInt (body_queryId req) = Return n
                /\ settle (sdk n) = Throw err
                /\ validStatus (upstreamStatus err) = false)).
Proof.
  destruct (truthy (envVal (DUNE_API_KEY env))) eqn:Hc.
  - split.
    + rewrite (depositsTimeline_eq sdk req w Hc).
      destruct (truthy (depositsTimelineQueryId req)).
      * eexists _, _. split; [apply surjective_pairing|].
        destruct (uncachedRoute_world "Failed to fetch deposits timeline" sdk
                    (depositsTimelineQueryId req) w) as (H1 & H2 & _).
        split; [exact H1|]. split; [exact H2|]. intros e. apply uncachedRoute_throws.
      * eexists _, _. split; [reflexivity|]. repeat split. discriminate.
    + rewrite (query_eq sdk req w Hc). destruct (truthy (body_queryId req)).
      * eexists _, _. split; [apply surjective_pairing|].
        destruct (uncachedRoute_world "Failed to execute query" sdk (body_queryId req) w)
          as (H1 & H2 & _).
        split; [exact H1|]. split; [exact H2|]. intros e. apply uncachedRoute_throws.
      * eexists _, _. split; [reflexivity|]. repeat split. discriminate.
  - unfold depositsTimeline, query. rewrite !(unconfigured _ w Hc).
    split; eexists _, _; (split; [reflexivity|]); repeat split; discriminate.
Qed.

Lemma depositors_other_keys sdk req w k :
  depositorsKey req <> Return k ->
  cache (snd (depositors sdk req w)) !! k = cache w !! k.
Proof.
  intros Hne. destruct (truthy (envVal (DUNE_API_KEY env))) eqn:Hc.
  - destruct (depositorsKey req) as [key|e] eqn:Hk.
    + assert (Hkey : k <> key) by congruence.
      destruct (getCacheKey_inv _ _ _ Hk) as (s & _ & _ & Hn).
      rewrite (depositors_eq sdk req w key _ Hc Hk Hn).
      destruct (truthy (readValue key w)); cbn [snd].
      * apply readWorld_other, Hkey.
      * rewrite (missOutcome_other_keys _ _ _ _ k (fetchPhase_miss _ _ _ _ _ _) Hkey).
        apply readWorld_other, Hkey.
    + rewrite (depositors_unprintable sdk req w e Hc Hk). reflexivity.
  - unfold depositors. rewrite (unconfigured _ w Hc). reflexivity.
Qed.

Lemma tvl_other_keys sdk req w k :
  tvlKey req <> Return k ->
  cache (snd (tvl sdk req w)) !! k = cache w !! k.
Proof.
  intros Hne. destruct (truthy (envVal (DUNE_API_KEY env))) eqn:Hc.
  - destruct (tvlKey req) as [key|e] eqn:Hk.
    + assert (Hkey : k <> key) by congruence.
      destruct (getCacheKey_inv _ _ _ Hk) as (s & _ & _ & Hn).
      rewrite (tvl_eq sdk req w key _ Hc Hk Hn).
      destruct (truthy (readValue key w)); cbn [snd].
      * apply readWorld_other, Hkey.
      * rewrite (missOutcome_other_keys _ _ _ _ k (fetchPhase_miss _ _ _ _ _ _) Hkey).
        apply readWorld_other, Hkey.
    + rewrite (tvl_unprintable sdk req w e Hc Hk). reflexivity.
  - unfold tvl. rewrite (unconfigured _ w Hc). reflexivity.
Qed.

(** (X9) A call to [/depositors] or [/tvl] leaves every entry of the store as it
    was except the one under its own key. *)
Theorem cached_routes_touch_their_key_only
    (sdk : value -> Outcome value) (req : Request) (w : World) (k : string) :
  (depositorsKey req <> Return k ->
   cache (snd (depositors sdk req w)) !! k = cache w !! k)
  /\ (tvlKey req <> Return k -> cache (snd (tvl sdk req w)) !! k = cache w !! k).
Proof.
  split; [apply depositors_other_keys | apply tvl_other_keys].
Qed.

Lemma depositors_tvl_keys_differ req req' k :
  depositorsKey req = Return k -> tvlKey req' <> Return k.
Proof.
  intros Hd Ht. destruct (getCacheKey_text _ _ _ Hd) as (s & _ & ->).
  destruct (getCacheKey_text _ _ _ Ht) as (s' & _ & Heq).
  cbv beta iota delta [String.append] in Heq. fold String.append in Heq. discriminate Heq.
Qed.

(** (X10) No request to [/tvl] shares a key with a request to [/depositors],
    whatever the identifiers: a call to one route leaves the entries of the
    other as they were. *)
Theorem depositors_and_tvl_do_not_share_entries
    (sdk : value -> Outcome value) (req req' : Request) (w : World) (k : string) :
  (depositorsKey req = Return k -> tvlKey req' <> Return k)
  /\ (depositorsKey req = Return k ->
      cache (snd (tvl sdk req' w)) !! k = cache w !! k)
  /\ (tvlKey req' = Return k ->
      cache (snd (depositors sdk req w)) !! k = cache w !! k).
Proof.
  split; [apply depositors_tvl_keys_differ|]. split.
  - intros Hd. apply tvl_other_keys. apply (depositors_tvl_keys_differ req req' k Hd).
  - intros Ht. apply depositors_other_keys.
    intros Hd. apply (depositors_tvl_keys_differ req req' k Hd Ht).
Qed.

(** ** The mock volume route *)

(** (X14) [/lighter-volume] makes no outbound call on any path, yet it stands
    behind the Dune key check: without the key it answers the configuration
    error and does nothing, with the key it always answers 200. *)
Theorem lighterVolume_is_gated_but_never_outbound
    (mock : value) (req : Request) (w : World) :
  exists r w',
    lighterVolume mock req w = (Return r, w')
    /\ outbound w' = outbound w
    /\ (truthy (envVal (DUNE_API_KEY env)) = false -> r = configErrorResponse /\ w' = w)
    /\ (configured -> statusCode r = VNum 200).
Proof.
  destruct (truthy (envVal (DUNE_API_KEY env))) eqn:Hc.
  - rewrite (lighterVolume_eq mock req w Hc).
    destruct (truthy (readValue lighterVolumeKey w)); eexists _, _;
      (split; [reflexivity|]); cbn; rewrite outbound_readWorld;
      (split; [reflexivity|]); (split; [discriminate|]); reflexivity.
  - unfold lighterVolume. rewrite (unconfigured _ w Hc).
    eexists _, _. split; [reflexivity|]. split; [reflexivity|].
    split; [auto|]. unfold configured. congruence.
Qed.

(** (X15) The mock of [/lighter-volume] is frozen: once a call has generated and
    stored one, every call that still finds that entry and reads the clock
    less than [CACHE_TTL] after its stamp answers with the same body,
    whatever its own random draws would have given. *)
Theorem lighterVolume_mock_is_frozen
    (mock mock' : value) (req req' : Request) (w w2 : World) (v : value) :
  configured ->
  fst (getCachedData lighterVolumeKey w) = Return v ->
  truthy v = false ->
  exists b t0,
    fst (lighterVolume mock req w) = Return (json b)
    /\ prop b "data" = mock
    /\ cache (snd (lighterVolume mock req w)) !! lighterVolumeKey = Some (mkEntry b t0)
    /\ (cache w2 !! lighterVolumeKey = Some (mkEntry b t0) ->
        (nowOf w2 - t0 < CACHE_TTL)%Z ->
        fst (lighterVolume mock' req' w2) = Return (json b)
        /\ mutations (snd (lighterVolume mock' req' w2)) = mutations w2).
Proof.
  intros Hc Hv Ht. apply read_value in Hv. subst v.
  rewrite (lighterVolume_eq mock req w Hc), Ht. cbn [fst snd].
  eexists _, _. split; [reflexivity|]. split; [reflexivity|].
  split; [cbn; apply lookup_insert_eq|].
  intros Hk Hlt. destruct (readValue_fresh _ _ _ Hk Hlt) as [Hrv Hrw]. cbn in Hrv.
  rewrite (lighterVolume_eq mock' req' w2 Hc), Hrv, Hrw. cbn. auto.
Qed.

(** ** The Hyperliquid route *)

(** (X16) [/hyperliquid-volume] answers from the cache without a fetch when its
    one key holds a fresh payload; an answer of the upstream that is not ok
    becomes a 500 that names the status and stores nothing; an ok answer
    that parses and summarises is stored under that key and sent with
    status 200. *)
Theorem hyperliquidVolume_caches_success_only
    (net : string -> Outcome FetchResponse) (req : Request) (w : World) (v : value) :
  fst (getCachedData hyperliquidKey w) = Return v ->
  (truthy v = true ->
   fst (hyperliquidVolume net req w) = Return (json v)
   /\ outbound (snd (hyperliquidVolume net req w)) = outbound w)
  /\ (forall resp,
        truthy v = false -> net hyperliquidUrl = Return resp -> ok resp = false ->
        exists r,
          fst (hyperliquidVolume net req w) = Return r
          /\ statusCode r = VNum 500
          /\ prop (body r) "message"
             = VStr ("Hyperliquid API error: " +:+ numberToString (status resp))
          /\ cache (snd (hyperliquidVolume net req w))
             = cache (snd (getCachedData hyperliquidKey w))
          /\ outbound (snd (hyperliquidVolume net req w))
             = (outbound w ++ [OFetch hyperliquidUrl])%list)
  /\ (forall resp d sum,
        truthy v = false -> net hyperliquidUrl = Return resp -> ok resp = true ->
        jsonBody resp = Return d -> hyperliquidSummary d = Return sum ->
        exists r t,
          fst (hyperliquidVolume net req w) = Return r
          /\ statusCode r = VNum 200
          /\ prop (body r) "success" = VBool true
          /\ prop (body r) "data" = sum
          /\ cache (snd (hyperliquidVolume net req w)) !! hyperliquidKey
             = Some (mkEntry (body r) t)).
Proof.
  intros Hv. apply read_value in Hv. subst v. split; [|split].
  - intros Ht. rewrite (hyperliquidVolume_hit net req w Ht). cbn.
    split; [reflexivity | apply outbound_readWorld].
  - intros resp Ht Hn Hok. rewrite (hyperliquidVolume_not_ok net req w resp Ht Hn Hok).
    eexists. split; [reflexivity|]. rewrite read_world. cbn.
    rewrite outbound_readWorld. auto.
  - intros resp d sum Ht Hn Hok Hj Hsum.
    rewrite (hyperliquidVolume_stores net req w resp d sum Ht Hn Hok Hj Hsum).
    eexists _, _. split; [reflexivity|]. cbn. repeat split. apply lookup_insert_eq.
Qed.

(** ** The USDC flow route *)

(** (X17) When the service gives [/usdc-flow] no rows (none at all, or an empty
    array), the route answers 200 with [success: false] and an empty
    [data], and stores nothing: a later call that finds the key as this one
    left it asks the service again. *)
Theorem usdcFlow_empty_result_not_cached
    (sdk : value -> Outcome value) (req : Request) (key : string) (w : World)
    (n qr v : value) :
  configured ->
  usdcFlowKey req = Return key ->
  parseInt (usdcFlowQueryId req) = Return n ->
  fst (getCachedData key w) = Return v ->
  truthy v = false ->
  sdk n = Return qr ->
  nullish qr = false ->
  truthy (optProp (prop qr "result") "rows") = false
  \/ optProp (prop qr "result") "rows" = VArr [] ->
  exists r w',
    usdcFlow sdk req w = (Return r, w')
    /\ statusCode r = VNum 200
    /\ prop (body r) "success" = VBool false
    /\ prop (body r) "data" = VArr []
    /\ outbound w' = (outbound w ++ [ODune n])%list
    /\ cache w' = cache (snd (getCachedData key w))
    /\ mutations w' = mutations (snd (getCachedData key w))
    /\ (forall sdk2 w2,
          cache w2 !! key = cache w' !! key ->
          outbound (snd (usdcFlow sdk2 req w2)) = (outbound w2 ++ [ODune n])%list).
Proof.
  intros Hc Hk Hn Hv Ht Hs Hnn Hrows. apply read_value in Hv. subst v. rewrite read_world.
  rewrite (usdcFlow_no_rows sdk req w key n qr Hc Hk Hn Ht Hs Hnn Hrows).
  eexists _, _. split; [reflexivity|]. cbn. rewrite outbound_readWorld.
  repeat split.
  intros sdk2 w2 Hsame.
  destruct (usdcFlow_miss sdk2 req w2 key n Hc Hk Hn (falsy_read_persists _ w w2 Ht Hsame))
    as (o & w' & Hrun & _ & Hout).
  rewrite Hrun. exact Hout.
Qed.

(** (X18) When the service gives [/usdc-flow] a non-empty array of rows and their
    processing succeeds, the answer carries the processed rows, the
    identifier the route resolved and, as [total_days], the number of
    processed rows; it is stored under the route's key. *)
Theorem usdcFlow_total_days_counts_rows
    (sdk : value -> Outcome value) (req : Request) (key : string) (w : World)
    (n qr v x : value) (items flow : list value) :
  configured ->
  usdcFlowKey req = Return key ->
  parseInt (usdcFlowQueryId req) = Return n ->
  fst (getCachedData key w) = Return v ->
  truthy v = false ->
  sdk n = Return qr ->
  nullish qr = false ->
  optProp (prop qr "result") "rows" = VArr (x :: items) ->
  usdcFlowData (x :: items) = Return flow ->
  exists r t,
    fst (usdcFlow sdk req w) = Return r
    /\ statusCode r = VNum 200
    /\ prop (body r) "success" = VBool true
    /\ prop (body r) "data" = VArr flow
    /\ prop (body r) "total_days" = VNum (Z.of_nat (List.length flow))
    /\ prop (body r) "query_id" = usdcFlowQueryId req
    /\ cache (snd (usdcFlow sdk req w)) !! key = Some (mkEntry (body r) t).
Proof.
  intros Hc Hk Hn Hv Ht Hs Hnn Hrows Hflow. apply read_value in Hv. subst v.
  rewrite (usdcFlow_stores sdk req w key n qr x items flow Hc Hk Hn Ht Hs Hnn Hrows Hflow).
  eexists _, _. split; [reflexivity|]. cbn. repeat split. apply lookup_insert_eq.
Qed.

(** ** The health check *)

(** (X13) The flag [duneApiConfigured] of [/health] tells what the key check of
    the Dune routes does: when it is [true] the check hands every request
    on, when it is [false] the check answers the configuration error
    itself; it is [false] for an unset key and for an empty one. *)
Theorem health_reports_the_key_check (req : Request) (w : World) :
  exists r,
    fst (health req w) = Return r
    /\ statusCode r = VNum 200
    /\ keys (body r) = ["status"; "timestamp"; "service"; "duneApiConfigured"]
    /\ (prop (body r) "duneApiConfigured" = VBool true
        \/ prop (body r) "duneApiConfigured" = VBool false)
    /\ (prop (body r) "duneApiConfigured" = VBool true ->
        forall next w0, checkDuneApiKey next w0 = next w0)
    /\ (prop (body r) "duneApiConfigured" = VBool false ->
        forall next w0, checkDuneApiKey next w0 = (Return configErrorResponse, w0))
    /\ (DUNE_API_KEY env = None \/ DUNE_API_KEY env = Some "" ->
        prop (body r) "duneApiConfigured" = VBool false).
Proof.
  eexists. split; [reflexivity|]. cbn -[truthy envVal].
  split; [reflexivity|]. split; [reflexivity|].
  destruct (truthy (envVal (DUNE_API_KEY env))) eqn:Hc.
  - split; [auto|]. split; [|split; [discriminate|]].
    + intros _ next w0. unfold checkDuneApiKey, duneClient. rewrite Hc. reflexivity.
    + intros [H|H]; rewrite H in Hc; discriminate Hc.
  - split; [auto|]. split; [discriminate|]. split; [|auto].
    intros _ next w0. apply unconfigured, Hc.
Qed.

(** ** Further properties of the Lighter routes *)

Lemma lighterExchangeStats_paths net req w :
  exists o w',
    lighterExchangeStats net req w = (o, w')
    /\ cache w' = cache w
    /\ mutations w' = mutations w
    /\ outbound w' = (outbound w ++ [OFetch exchangeStatsUrl])%list.
Proof.
  unfold lighterExchangeStats, tryCatch, bind at 1, fetchUrl. fold exchangeStatsUrl.
  destruct (net exchangeStatsUrl) as [resp|err].
  - destruct (ok resp); cbn [negb].
    + unfold bind at 1, readJson. destruct (jsonBody resp) as [d|e].
      * unfold bind, getProp. destruct (nullish d); cbn.
        -- eexists _, _. split; [reflexivity|]. auto.
        -- destruct (topVolumeMarket (prop d "order_book_stats")) as [top|e]; cbn.
           ++ eexists _, _. split; [reflexivity|]. auto.
           ++ destruct (nullish e); cbn; eexists _, _; (split; [reflexivity|]); auto.
      * unfold bind, getProp. destruct (nullish e); cbn;
          eexists _, _; (split; [reflexivity|]); auto.
    + cbn. eexists _, _. split; [reflexivity|]. auto.
  - unfold bind, getProp. destruct (nullish err); cbn;
      eexists _, _; (split; [reflexivity|]); auto.
Qed.

Lemma lighterAccount_paths net req w :
  exists o w',
    lighterAccount net req w = (o, w')
    /\ cache w' = cache w
    /\ mutations w' = mutations w
    /\ outbound w'
       = (outbound w ++ (if testAddress (params_address req)
                         then [OFetch (accountUrl (params_address req))] else []))%list.
Proof.
  unfold lighterAccount, tryCatch at 1.
  destruct (testAddress (params_address req)); cbn [negb].
  - unfold bind at 1, fetchUrl. fold (accountUrl (params_address req)).
    destruct (net (accountUrl (params_address req))) as [resp|err].
    + destruct (ok resp); cbn [negb].
      * unfold bind, readJson. destruct (jsonBody resp) as [d|e]; cbn.
        -- eexists _, _. split; [reflexivity|]. auto.
        -- unfold getProp. destruct (nullish e); cbn;
             eexists _, _; (split; [reflexivity|]); auto.
      * unfold bind at 1, tryCatch, readJson.
        destruct (jsonBody resp) as [d|e]; unfold bind, getProp, lift.
        -- destruct (status resp =? 400)%Z; destruct (nullish d) eqn:Hd; cbn;
             try rewrite Hd; cbn;
             try (destruct (strictEqNum (prop d "code") 21100); cbn);
             try rewrite Hd; cbn;
             try (destruct (toStr (jsOr (prop d "message") (VStr "Unknown error")))
                    as [t|e0] eqn:Hts; [|rewrite (toStr_throws _ _ Hts)]; cbn);
             eexists _, _; (split; [reflexivity|]); auto.
        -- destruct (status resp =? 400)%Z; cbn;
             eexists _, _; (split; [reflexivity|]); auto.
    + unfold bind, getProp. destruct (nullish err); cbn;
        eexists _, _; (split; [reflexivity|]); auto.
  - eexists _, _. split; [reflexivity|]. cbn. rewrite app_nil_r. auto.
Qed.

(** (X19) The two Lighter routes never read or write the cache.
    [/lighter-exchange-stats] makes exactly one fetch, of its fixed URL, on
    every request; [/lighter-account] makes one fetch when the address is
    well formed and none otherwise. *)
Theorem lighter_routes_leave_the_store_alone
    (net : string -> Outcome FetchResponse) (req : Request) (w : World) :
  cache (snd (lighterExchangeStats net req w)) = cache w
  /\ mutations (snd (lighterExchangeStats net req w)) = mutations w
  /\ outbound (snd (lighterExchangeStats net req w))
     = (outbound w ++ [OFetch exchangeStatsUrl])%list
  /\ cache (snd (lighterAccount net req w)) = cache w
  /\ mutations (snd (lighterAccount net req w)) = mutations w
  /\ outbound (snd (lighterAccount net req w))
     = (outbound w ++ (if testAddress (params_address req)
                       then [OFetch (accountUrl (params_address req))] else []))%list.
Proof.
  destruct (lighterExchangeStats_paths net req w) as (o & w' & -> & H1 & H2 & H3).
  destruct (lighterAccount_paths net req w) as (o2 & w2 & -> & H4 & H5 & H6).
  cbn. auto 10.
Qed.

(** (X20) Every URL [/lighter-account] fetches is the account URL followed by
    [0x] and exactly 40 characters of [[a-fA-F0-9]]: nothing else from the
    request reaches the upstream. *)
Theorem lighterAccount_fetches_only_checked_addresses
    (net : string -> Outcome FetchResponse) (req : Request) (w : World) (o : Outbound) :
  In o (outbound (snd (lighterAccount net req w))) ->
  In o (outbound w)
  \/ exists rest,
       o = OFetch ("https://mainnet.zklighter.elliot.ai/api/v1/account?by=l1_address&value="
                     +:+ "0x" +:+ rest)
       /\ String.length rest = 40%nat
       /\ forallb (fun c => existsb (Ascii.eqb c) hexChars) (list_ascii_of_string rest) = true.
Proof.
  destruct (lighterAccount_paths net req w) as (o2 & w2 & -> & _ & _ & Hout).
  cbn [snd]. rewrite Hout. intros Hin. apply in_app_or in Hin as [Hin|Hin]; [auto|].
  destruct (testAddress (params_address req)) eqn:Ht; [|destruct Hin].
  destruct Hin as [<-|[]]. right.
  apply testAddress_spec in Ht as (rest & Haddr & Hlen & Hhex).
  exists rest. unfold accountUrl. rewrite Haddr. auto.
Qed.

(** (X21) An ok answer of the upstream to [/lighter-account] is sent on as it is:
    status 200 and the parsed body, unchanged. *)
Theorem lighterAccount_forwards_upstream_json
    (net : string -> Outcome FetchResponse) (req : Request) (w : World)
    (resp : FetchResponse) (d : value) :
  testAddress (params_address req) = true ->
  net (accountUrl (params_address req)) = Return resp ->
  ok resp = true ->
  jsonBody resp = Return d ->
  lighterAccount net req w
  = (Return (mkResponse (VNum 200) d), fetched (accountUrl (params_address req)) w).
Proof.
  intros Ht Hn Hok Hj. unfold lighterAccount, tryCatch, bind, fetchUrl, readJson.
  fold (accountUrl (params_address req)). rewrite Ht, Hn, Hok, Hj. reflexivity.
Qed.

(** (X22) An upstream answer to [/lighter-account] that is not ok and whose body
    does not parse becomes a 500 whose details name the status and
    [Unknown error], also when the status is 400; one whose body parses to
    an object that is not the 400/21100 pair becomes a 500 whose details
    carry the string form of the body's message, and the [TypeError] of the
    conversion when the message has none. *)
Theorem lighterAccount_upstream_errors_become_500
    (net : string -> Outcome FetchResponse) (req : Request) (w : World)
    (resp : FetchResponse) :
  testAddress (params_address req) = true ->
  net (accountUrl (params_address req)) = Return resp ->
  ok resp = false ->
  (forall e, jsonBody resp = Throw e ->
     fst (lighterAccount net req w)
     = Return (lighterFailure "Failed to fetch account data"
                 (VStr ("Lighter API error: " +:+ numberToString (status resp) +:+ " "
                          +:+ statusText resp +:+ " - Unknown error"))))
  /\ (forall errorData text,
        jsonBody resp = Return errorData ->
        nullish errorData = false ->
        (status resp =? 400)%Z && strictEqNum (prop errorData "code") 21100 = false ->
        toStr (jsOr (prop errorData "message") (VStr "Unknown error")) = Return text ->
        fst (lighterAccount net req w)
        = Return (lighterFailure "Failed to fetch account data"
                    (VStr ("Lighter API error: " +:+ numberToString (status resp) +:+ " "
                             +:+ statusText resp +:+ " - " +:+ text))))
  /\ (forall errorData e,
        jsonBody resp = Return errorData ->
        nullish errorData = false ->
        (status resp =? 400)%Z && strictEqNum (prop errorData "code") 21100 = false ->
        toStr (jsOr (prop errorData "message") (VStr "Unknown error")) = Throw e ->
        fst (lighterAccount net req w)
        = Return (lighterFailure "Failed to fetch account data"
                    (VStr "Cannot convert object to primitive value"))).
Proof.
  intros Ht Hn Hok. split; [|split].
  - intros e Hj. unfold lighterAccount, tryCatch, bind, fetchUrl, readJson.
    fold (accountUrl (params_address req)). rewrite Ht, Hn, Hok, Hj. cbn.
    destruct (status resp =? 400)%Z; reflexivity.
  - intros errorData text Hj Hd Hpair Htext.
    unfold lighterAccount, tryCatch, bind, fetchUrl, readJson, getProp, lift.
    fold (accountUrl (params_address req)). rewrite Ht, Hn, Hok, Hj.
    cbn -[nullish prop strictEqNum toStr jsOr Z.eqb numberToString String.append].
    destruct (status resp =? 400)%Z;
      cbn -[nullish prop strictEqNum toStr jsOr Z.eqb numberToString String.append];
      rewrite ?Hd; cbn -[nullish prop strictEqNum toStr jsOr Z.eqb numberToString String.append].
    + cbn in Hpair. rewrite Hpair, Htext. reflexivity.
    + rewrite Htext. reflexivity.
  - intros errorData e Hj Hd Hpair Htext.
    unfold lighterAccount, tryCatch, bind, fetchUrl, readJson, getProp, lift.
    fold (accountUrl (params_address req)). rewrite Ht, Hn, Hok, Hj.
    rewrite (toStr_throws _ _ Htext) in Htext.
    cbn -[nullish prop strictEqNum toStr jsOr Z.eqb numberToString String.append].
    destruct (status resp =? 400)%Z;
      cbn -[nullish prop strictEqNum toStr jsOr Z.eqb numberToString String.append];
      rewrite ?Hd; cbn -[nullish prop strictEqNum toStr jsOr Z.eqb numberToString String.append].
    + cbn in Hpair. rewrite Hpair, Htext. reflexivity.
    + rewrite Htext. reflexivity.
Qed.

(** (X23) An ok answer of the upstream to [/lighter-exchange-stats] that parses
    to an object is reshaped into six fields, with 0 for a missing or falsy
    volume, trade count and total, and the empty array for missing
    markets. *)
Theorem lighterExchangeStats_fills_defaults
    (net : string -> Outcome FetchResponse) (req : Request) (w : World)
    (resp : FetchResponse) (d top : value) :
  net exchangeStatsUrl = Return resp ->
  ok resp = true ->
  jsonBody resp = Return d ->
  nullish d = false ->
  topVolumeMarket (prop d "order_book_stats") = Return top ->
  exists r,
    fst (lighterExchangeStats net req w) = Return r
    /\ statusCode r = VNum 200
    /\ keys (body r) = ["daily_usd_volume"; "daily_trades_count"; "total_markets";
                        "markets"; "last_updated"; "top_volume_market"]
    /\ prop (body r) "daily_usd_volume" = jsOr (prop d "daily_usd_volume") (VNum 0)
    /\ prop (body r) "daily_trades_count" = jsOr (prop d "daily_trades_count") (VNum 0)
    /\ prop (body r) "total_markets" = jsOr (prop d "total") (VNum 0)
    /\ prop (body r) "markets" = jsOr (prop d "order_book_stats") (VArr [])
    /\ prop (body r) "top_volume_market" = top
    /\ (d = VObj [] ->
        prop (body r) "daily_usd_volume" = VNum 0
        /\ prop (body r) "daily_trades_count" = VNum 0
        /\ prop (body r) "total_markets" = VNum 0
        /\ prop (body r) "markets" = VArr []).
Proof.
  intros Hn Hok Hj Hd Htop.
  unfold lighterExchangeStats, tryCatch, bind, fetchUrl, readJson, getProp.
  fold exchangeStatsUrl. rewrite Hn, Hok, Hj. cbn -[prop jsOr]. rewrite Hd.
  cbn -[prop jsOr]. rewrite Htop. cbn -[prop jsOr].
  eexists. split; [reflexivity|]. cbn -[jsOr].
  repeat (split; [reflexivity|]). intros ->. repeat split.
Qed.

(** ** The user route *)

Lemma rowMatches_judgeable address row w :
  judgeable row = true ->
  rowMatches address row w = (Return (keptRow address row), w).
Proof.
  unfold judgeable, rowMatches, keptRow, bind, getProp. intros H.
  apply andb_prop in H as [Hrow Haddr]. apply negb_true_iff in Hrow. rewrite Hrow. cbn.
  destruct (prop row "toAddress"); try discriminate Haddr; reflexivity.
Qed.

Lemma filterRows_judgeable address rows w :
  forallb judgeable rows = true ->
  filterRows address rows w = (Return (List.filter (keptRow address) rows), w).
Proof.
  induction rows as [|row rest IH]; [reflexivity|]. cbn [forallb filterRows].
  intros H. apply andb_prop in H as [Hrow Hrest].
  unfold bind at 1. rewrite (rowMatches_judgeable address row w Hrow).
  unfold bind at 1. rewrite (IH Hrest). cbn [List.filter]. unfold ret.
  destruct (keptRow address row); reflexivity.
Qed.

Ltac user_read req Hc Hq Hn s Hs :=
  unfold parseInt in Hn;
  destruct (toStr (userQueryId req)) as [s|] eqn:Hs; [|discriminate Hn];
  injection Hn as <-;
  unfold user, checkDuneApiKey, duneClient; rewrite Hc; cbn [negb truthy orb];
  fold (userQueryId req); rewrite Hq; cbn [negb].

(** (X24) When the service gives [/user/:address] an array of rows each of
    which has a string or no [toAddress], the route answers 200 with exactly
    those rows, in order, whose [toAddress] equals the address of the
    request after lower-casing both; it echoes the address and the
    identifier, asks the service once and never touches the cache. *)
Theorem user_returns_the_rows_of_the_address
    (sdk : value -> Outcome value) (req : Request) (w : World)
    (n qr : value) (items : list value) :
  configured ->
  truthy (userQueryId req) = true ->
  parseInt (userQueryId req) = Return n ->
  sdk n = Return qr ->
  nullish qr = false ->
  optProp (prop qr "result") "rows" = VArr items ->
  forallb judgeable items = true ->
  exists r w',
    user sdk req w = (Return r, w')
    /\ statusCode r = VNum 200
    /\ prop (body r) "data"
       = VArr (List.filter (keptRow (params_address req)) items)
    /\ prop (body r) "user_address" = VStr (params_address req)
    /\ prop (body r) "query_id" = userQueryId req
    /\ outbound w' = (outbound w ++ [ODune n])%list
    /\ cache w' = cache w
    /\ mutations w' = mutations w.
Proof.
  intros Hc Hq Hn Hs Hnn Hrows Hj. user_read req Hc Hq Hn s Hstr.
  unfold tryCatch, bind at 1.
  rewrite (fetchDuneQuery_spec sdk _ s _ Hc Hstr), (settle_resolved _ _ Hs Hnn).
  unfold duneData. rewrite Hrows. cbn -[filterRows].
  unfold bind at 1. unfold bind at 1.
  rewrite (filterRows_judgeable (params_address req) items _ Hj). cbn.
  eexists _, _. split; [reflexivity|]. cbn. auto 10.
Qed.

(** (X25) [/user/:address] answers 400 with [{error, message}] to a request
    that has no query identifier when [USER_STATS_QUERY_ID] is unset or
    empty, without an outbound call; and when the service has no rows it
    answers 200 with an empty [data]. *)
Theorem user_without_identifier_or_rows
    (sdk : value -> Outcome value) (req : Request) (w : World) :
  configured ->
  (truthy (userQueryId req) = false ->
   exists r, user sdk req w = (Return r, w)
             /\ statusCode r = VNum 400 /\ keys (body r) = ["error"; "message"])
  /\ (forall n qr,
        truthy (userQueryId req) = true ->
        parseInt (userQueryId req) = Return n ->
        sdk n = Return qr -> nullish qr = false ->
        truthy (optProp (prop qr "result") "rows") = false ->
        exists r, fst (user sdk req w) = Return r
                  /\ statusCode r = VNum 200 /\ prop (body r) "data" = VArr []).
Proof.
  intros Hc. split.
  - intros Hq. unfold user, checkDuneApiKey, duneClient. rewrite Hc.
    cbn [negb truthy orb]. fold (userQueryId req). unfold tryCatch. rewrite Hq. cbn.
    eexists. split; [reflexivity|]. auto.
  - intros n qr Hq Hn Hs Hnn Hrows. user_read req Hc Hq Hn s Hstr.
    unfold tryCatch, bind at 1.
    rewrite (fetchDuneQuery_spec sdk _ s _ Hc Hstr), (settle_resolved _ _ Hs Hnn).
    unfold duneData, jsOr at 1. rewrite Hrows. cbn.
    eexists. split; [reflexivity|]. auto.
Qed.

Lemma rowMatches_world address row w :
  exists o, rowMatches address row w = (o, w)
            /\ forall e, o = Throw e -> exists msg, e = newError msg.
Proof.
  unfold rowMatches, bind, getProp. destruct (nullish row); cbn.
  - eexists. split; [reflexivity|]. intros e [= <-]. eexists. reflexivity.
  - destruct (nullish (prop row "toAddress")); cbn.
    + eexists. split; [reflexivity|]. discriminate.
    + destruct (prop row "toAddress"); cbn;
        (eexists; split; [reflexivity|]; intros e H; inversion H; eexists; reflexivity).
Qed.

Lemma filterRows_world address rows w :
  exists o, filterRows address rows w = (o, w)
            /\ forall e, o = Throw e -> exists msg, e = newError msg.
Proof.
  induction rows as [|row rest IH]; cbn [filterRows].
  - unfold ret. eexists. split; [reflexivity|]. discriminate.
  - unfold bind at 1. destruct (rowMatches_world address row w) as (o & -> & Ho).
    destruct o as [keep|e].
    + unfold bind at 1. destruct IH as (o2 & -> & Ho2). destruct o2 as [kept|e]; unfold ret.
      * eexists. split; [reflexivity|]. discriminate.
      * eexists. split; [reflexivity|]. exact Ho2.
    + eexists. split; [reflexivity|]. intros e0 [= <-]. apply (Ho e eq_refl).
Qed.

Lemma upstreamStatusCatch_newError short msg u :
  exists r, upstreamStatusCatch short (newError msg) u = (Return r, ticked u)
            /\ statusCode r = VNum 500.
Proof.
  rewrite (upstreamStatusCatch_eq short (newError msg) u eq_refl).
  eexists. split; reflexivity.
Qed.

Lemma user_paths sdk req w :
  exists o w',
    user sdk req w = (o, w')
    /\ cache w' = cache w
    /\ mutations w' = mutations w
    /\ (outbound w' = outbound w
        \/ exists n, parseInt (userQueryId req) = Return n
                     /\ outbound w' = (outbound w ++ [ODune n])%list)
    /\ (forall e, o = Throw e ->
          exists n err,
            parseInt (userQueryId req) = Return n
            /\ settle (sdk n) = Throw err
            /\ validStatus (upstreamStatus err) = false).
Proof.
  destruct (truthy (envVal (DUNE_API_KEY env))) eqn:Hc.
  - unfold user, checkDuneApiKey, duneClient. rewrite Hc. cbn [negb truthy orb].
    fold (userQueryId req). destruct (truthy (userQueryId req)) eqn:Hq; cbn [negb].
    + unfold tryCatch, bind at 1. unfold parseInt.
      destruct (toStr (userQueryId req)) as [s|e0] eqn:Hstr.
      * rewrite (fetchDuneQuery_spec sdk _ s _ Hc Hstr).
        destruct (settle (sdk (parseIntString s))) as [qr|err] eqn:Hs.
        -- unfold duneData.
           assert (HR : truthy (jsOr (optProp (prop qr "result") "rows") (VArr [])) = true)
             by (apply jsOr_truthy; reflexivity).
           destruct (jsOr (optProp (prop qr "result") "rows") (VArr []))
             as [| |b|m| |str|items|fs];
             try discriminate HR; cbn -[filterRows upstreamStatusCatch];
             try (destruct (upstreamStatusCatch_newError "Failed to fetch user data"
                             "data.result?.rows?.filter is not a function"
                             (asked (parseIntString s) w)) as (r & -> & _);
                  eexists _, _; split; [reflexivity|]; cbn;
                  split; [reflexivity|]; split; [reflexivity|];
                  split; [right; eauto | discriminate]).
           unfold bind at 1. unfold bind at 1.
           destruct (filterRows_world (params_address req) items (asked (parseIntString s) w))
             as (o & -> & Ho).
           destruct o as [kept|e]; cbn -[upstreamStatusCatch].
           ++ eexists _, _. split; [reflexivity|]. cbn.
              split; [reflexivity|]. split; [reflexivity|].
              split; [right; eauto | discriminate].
           ++ destruct (Ho e eq_refl) as (msg & ->).
              destruct (upstreamStatusCatch_newError "Failed to fetch user data" msg
                          (asked (parseIntString s) w)) as (r & -> & _).
              eexists _, _. split; [reflexivity|]. cbn.
              split; [reflexivity|]. split; [reflexivity|].
              split; [right; eauto | discriminate].
        -- rewrite (upstreamStatusCatch_eq _ err _ (settle_not_nullish _ _ Hs)).
           eexists _, _. split; [reflexivity|]. cbn.
           split; [reflexivity|]. split; [reflexivity|]. split; [right; eauto|].
           unfold upstreamFailure. intros e He. apply sendStatus_throws in He. eauto.
      * rewrite (fetchDuneQuery_unprintable sdk _ e0 w Hstr).
        destruct (upstreamStatusCatch_newError "Failed to fetch user data"
                    "Cannot convert object to primitive value" w) as (r & Hr & _).
        unfold noPrimitive. rewrite Hr.
        eexists _, _. split; [reflexivity|]. cbn.
        split; [reflexivity|]. split; [reflexivity|]. split; [auto | discriminate].
    + unfold tryCatch. cbn. eexists _, _. split; [reflexivity|].
      split; [reflexivity|]. split; [reflexivity|]. split; [auto | discriminate].
  - unfold user. rewrite (unconfigured _ w Hc). eexists _, _. split; [reflexivity|].
    split; [reflexivity|]. split; [reflexivity|]. split; [auto | discriminate].
Qed.

(** (X26) [/user/:address] never reads or writes the cache: on every path
    the store is as it was, and the route makes at most one outbound call,
    for the number its identifier parses to.  It answers every request but
    one kind: when the handler ends without an answer, the service had
    rejected and the status of its error is not a number from 100 to
    999. *)
Theorem user_leaves_the_store_alone
    (sdk : value -> Outcome value) (req : Request) (w : World) :
  exists o w',
    user sdk req w = (o, w')
    /\ cache w' = cache w
    /\ mutations w' = mutations w
    /\ (outbound w' = outbound w
        \/ exists n, parseInt (userQueryId req) = Return n
                     /\ outbound w' = (outbound w ++ [ODune n])%list)
    /\ (forall e, o = Throw e ->
          exists n err,
            parseInt (userQueryId req) = Return n
            /\ settle (sdk n) = Throw err
            /\ validStatus (upstreamStatus err) = false).
Proof.
  destruct (user_paths sdk req w) as (o & w' & Hrun & Hcache & Hmut & Hout & Hthrow).
  exists o, w'. split; [exact Hrun|]. split; [exact Hcache|]. split; [exact Hmut|].
  split; [exact Hout | exact Hthrow].
Qed.

(** ** What the store holds *)

Lemma cachedRoute_storedSuccess R up req w :
  storedSuccess w -> storedSuccess (snd (cachedRoute R up req w)).
Proof.
  intros Hinv.
  assert (Hcases : (gated R = true -> configured)
                   \/ (gated R = true /\ truthy (envVal (DUNE_API_KEY env)) = false)).
  { unfold configured. destruct (truthy (envVal (DUNE_API_KEY env))); [auto|].
    destruct (gated R); [auto|]. left. discriminate. }
  destruct Hcases as [Hc | [Hg Hu]].
  - destruct (cachedRouteKey R req) as [key|e] eqn:Hk.
    + destruct (truthy (readValue key w)) eqn:Ht.
      * rewrite (cachedRoute_hit R up req w key Hc Hk Ht). cbn [snd].
        intros k e Hke. apply (Hinv k e), (readWorld_lookup key w k e Hke).
      * destruct (cachedRoute_miss R up req w key Hc Hk Ht) as (o & w' & -> & Hmiss).
        apply (missOutcome_storedSuccess key w o w' Hinv Hmiss).
    + destruct (cachedRoute_no_key R up req w e Hc Hk) as (short & ->). exact Hinv.
  - rewrite (cachedRoute_unconfigured R up req w Hg Hu). exact Hinv.
Qed.

Lemma uncached_storedSuccess short sdk q w :
  storedSuccess w -> storedSuccess (snd (uncachedRoute short sdk q w)).
Proof.
  intros Hinv. apply (storedSuccess_same w); [|exact Hinv].
  apply uncachedRoute_world.
Qed.

(** (X12) Once every payload in the store reports [success: true], it stays so
    through any call to any of the routes: no route stores a failure answer
    or the empty-result answer.  Then [/depositors] and [/tvl] report
    [success: true] in every answer with status 200, from the cache or
    not. *)
Theorem stored_payloads_report_success
    (sdk : value -> Outcome value) (net : string -> Outcome FetchResponse)
    (mock : value) (hist : value -> Z -> Outcome value) (req : Request) (w : World) :
  storedSuccess w ->
  storedSuccess (snd (depositors sdk req w))
  /\ storedSuccess (snd (tvl sdk req w))
  /\ storedSuccess (snd (depositsTimeline sdk req w))
  /\ storedSuccess (snd (query sdk req w))
  /\ storedSuccess (snd (usdcFlow sdk req w))
  /\ storedSuccess (snd (lighterVolume mock req w))
  /\ storedSuccess (snd (hyperliquidVolume net req w))
  /\ storedSuccess (snd (lighterExchangeStats net req w))
  /\ storedSuccess (snd (lighterAccount net req w))
  /\ storedSuccess (snd (tvlHistory hist sdk req w))
  /\ storedSuccess (snd (depositorsHistory hist sdk req w))
  /\ storedSuccess (snd (user sdk req w))
  /\ storedSuccess (snd (health req w))
  /\ (forall r, fst (depositors sdk req w) = Return r -> statusCode r = VNum 200 ->
                prop (body r) "success" = VBool true)
  /\ (forall r, fst (tvl sdk req w) = Return r -> statusCode r = VNum 200 ->
                prop (body r) "success" = VBool true).
Proof.
  intros Hinv.
  pose (up := mkUpstream sdk net mock hist hist).
  assert (Hcached : forall R, storedSuccess (snd (cachedRoute R up req w)))
    by (intros R; apply cachedRoute_storedSuccess, Hinv).
  assert (Hlighter : storedSuccess (snd (lighterExchangeStats net req w))
                     /\ storedSuccess (snd (lighterAccount net req w))).
  { destruct (lighterExchangeStats_paths net req w) as (o & w' & -> & H1 & _).
    destruct (lighterAccount_paths net req w) as (o2 & w2 & -> & H2 & _).
    split; [apply (storedSuccess_same w w' H1 Hinv) | apply (storedSuccess_same w w2 H2 Hinv)]. }
  destruct Hlighter as [Hstats Haccount].
  assert (Huser : storedSuccess (snd (user sdk req w))).
  { destruct (user_paths sdk req w) as (o & w' & -> & H1 & _).
    apply (storedSuccess_same w w' H1 Hinv). }
  assert (Huncached : storedSuccess (snd (depositsTimeline sdk req w))
                      /\ storedSuccess (snd (query sdk req w))).
  { destruct (truthy (envVal (DUNE_API_KEY env))) eqn:Hc.
    - rewrite (depositsTimeline_eq sdk req w Hc), (query_eq sdk req w Hc).
      destruct (truthy (depositsTimelineQueryId req)), (truthy (body_queryId req));
        split; try exact Hinv; apply uncached_storedSuccess, Hinv.
    - unfold depositsTimeline, query. rewrite !(unconfigured _ w Hc). split; exact Hinv. }
  destruct Huncached as [Htimeline Hquery].
  split; [exact (Hcached Depositors)|]. split; [exact (Hcached Tvl)|].
  split; [exact Htimeline|]. split; [exact Hquery|].
  split; [exact (Hcached UsdcFlow)|]. split; [exact (Hcached LighterVolume)|].
  split; [exact (Hcached HyperliquidVolume)|]. split; [exact Hstats|].
  split; [exact Haccount|]. split; [exact (Hcached TvlHistory)|].
  split; [exact (Hcached DepositorsHistory)|]. split; [exact Huser|].
  split; [exact Hinv|].
  destruct (truthy (envVal (DUNE_API_KEY env))) eqn:Hc.
  - split.
    + intros r. destruct (depositors_answers sdk req w Hc)
        as (r0 & w' & -> & [(key & _ & Ht & ->) | [[_ H] | H]]); cbn [fst].
      * intros [= <-] _. apply (readValue_success _ w Hinv Ht).
      * intros [= <-] _. exact H.
      * intros [= <-] H200. rewrite H in H200. discriminate H200.
    + intros r. destruct (tvl_answers sdk req w Hc)
        as (r0 & w' & -> & [(key & _ & Ht & ->) | [[_ H] | H]]); cbn [fst].
      * intros [= <-] _. apply (readValue_success _ w Hinv Ht).
      * intros [= <-] _. exact H.
      * intros [= <-] H200. rewrite H in H200. discriminate H200.
  - unfold depositors, tvl. rewrite !(unconfigured _ w Hc). cbn [fst].
    split; intros r [= <-] H; discriminate H.
Qed.


(** ** The history routes: what they ask and what they start from *)

Lemma history_other_keys short mockId name fallback hist sdk n key u k :
  k <> key ->
  cache (snd (historyPhase short mockId name fallback hist sdk n key u)) !! k = cache u !! k.
Proof.
  intros Hne. apply (missOutcome_other_keys key u _ _ k (historyPhase_miss _ _ _ _ _ _ _ _ _) Hne).
Qed.

(** (X27) The history routes ask the service for a fixed query, whatever
    the request and the environment say: on a request the cache cannot
    answer, [/tvl-history] asks for 5253928 and [/depositors-history] for
    5253927, and each route leaves every cache entry but its own alone. *)
Theorem history_routes_ask_fixed_queries
    (hist : value -> Z -> Outcome value) (sdk : value -> Outcome value)
    (req : Request) (w : World) :
  configured ->
  (truthy (readValue tvlHistoryKey w) = false ->
   outbound (snd (tvlHistory hist sdk req w)) = (outbound w ++ [ODune (VNum 5253928)])%list)
  /\ (truthy (readValue depositorsHistoryKey w) = false ->
      outbound (snd (depositorsHistory hist sdk req w))
      = (outbound w ++ [ODune (VNum 5253927)])%list)
  /\ (forall k, k <> tvlHistoryKey ->
                cache (snd (tvlHistory hist sdk req w)) !! k = cache w !! k)
  /\ (forall k, k <> depositorsHistoryKey ->
                cache (snd (depositorsHistory hist sdk req w)) !! k = cache w !! k).
Proof.
  intros Hc. repeat apply conj.
  - intros Ht. rewrite (tvlHistory_eq hist sdk req w Hc), Ht.
    rewrite historyPhase_outbound, outbound_readWorld. reflexivity.
  - intros Ht. rewrite (depositorsHistory_eq hist sdk req w Hc), Ht.
    rewrite historyPhase_outbound, outbound_readWorld. reflexivity.
  - intros k Hne. rewrite (tvlHistory_eq hist sdk req w Hc).
    destruct (truthy (readValue tvlHistoryKey w)); cbn [snd].
    + apply readWorld_other, Hne.
    + rewrite (history_other_keys _ _ _ _ _ _ _ _ _ k Hne). apply readWorld_other, Hne.
  - intros k Hne. rewrite (depositorsHistory_eq hist sdk req w Hc).
    destruct (truthy (readValue depositorsHistoryKey w)); cbn [snd].
    + apply readWorld_other, Hne.
    + rewrite (history_other_keys _ _ _ _ _ _ _ _ _ k Hne). apply readWorld_other, Hne.
Qed.

Lemma historyBase_first name fallback qr row rest :
  optProp (prop qr "result") "rows" = VArr (row :: rest) ->
  historyBase name fallback qr = jsOr (optProp row name) (VNum fallback).
Proof. intros Hrows. unfold historyBase. rewrite Hrows. reflexivity. Qed.

(** (X28) What the history routes start from, on a request the cache
    cannot answer and a result of the service with a first row.
    [/tvl-history] runs its loop on the [TVL] of the first row when that is
    truthy and on 224 otherwise.  [/depositors-history] reads the field
    [Dintinct_Depositors] of the first row: a first row that has the count
    under any other name, [Distinct_Depositors] included, is not used and
    the loop runs on 64507.  The base date is the clock reading taken after
    the cache read.  When the loop gives a series the answer is 200 with
    that series; when its arithmetic throws an error the answer is 500 with
    the message of the error, and nothing is stored. *)
Theorem history_routes_starting_value
    (hist : value -> Z -> Outcome value) (sdk : value -> Outcome value)
    (req : Request) (w : World) (qr row : value) (rest : list value) :
  configured ->
  nullish qr = false ->
  optProp (prop qr "result") "rows" = VArr (row :: rest) ->
  (truthy (readValue tvlHistoryKey w) = false ->
   sdk (VNum 5253928) = Return qr ->
   (forall series,
      hist (jsOr (optProp row "TVL") (VNum 224)) (nowOf (readWorld tvlHistoryKey w))
      = Return series ->
      exists r,
        fst (tvlHistory hist sdk req w) = Return r
        /\ statusCode r = VNum 200
        /\ prop (body r) "data" = series)
   /\ (forall e,
         hist (jsOr (optProp row "TVL") (VNum 224)) (nowOf (readWorld tvlHistoryKey w))
         = Throw e ->
         nullish e = false ->
         exists r,
           fst (tvlHistory hist sdk req w) = Return r
           /\ statusCode r = VNum 500
           /\ prop (body r) "message" = jsOr (prop e "message") (VStr "Unknown error occurred")
           /\ cache (snd (tvlHistory hist sdk req w)) = cache (readWorld tvlHistoryKey w)))
  /\ (truthy (readValue depositorsHistoryKey w) = false ->
      sdk (VNum 5253927) = Return qr ->
      truthy (optProp row "Dintinct_Depositors") = false ->
      forall series,
        hist (VNum 64507) (nowOf (readWorld depositorsHistoryKey w)) = Return series ->
        exists r,
          fst (depositorsHistory hist sdk req w) = Return r
          /\ statusCode r = VNum 200
          /\ prop (body r) "data" = series).
Proof.
  intros Hc Hn Hrows. split.
  - intros Ht Hs. split.
    + intros series Hseries. rewrite (tvlHistory_eq hist sdk req w Hc), Ht.
      unfold historyPhase. rewrite (settle_resolved _ _ Hs Hn).
      rewrite (historyBase_first _ _ _ _ _ Hrows), Hseries.
      eexists. split; [reflexivity|]. split; reflexivity.
    + intros e He Hne. rewrite (tvlHistory_eq hist sdk req w Hc), Ht.
      unfold historyPhase. rewrite (settle_resolved _ _ Hs Hn).
      rewrite (historyBase_first _ _ _ _ _ Hrows), He, Hne.
      eexists. split; [reflexivity|]. split; [reflexivity|]. split; reflexivity.
  - intros Ht Hs Hfield series Hseries.
    rewrite (depositorsHistory_eq hist sdk req w Hc), Ht.
    unfold historyPhase. rewrite (settle_resolved _ _ Hs Hn).
    rewrite (historyBase_first _ _ _ _ _ Hrows). unfold jsOr at 1. rewrite Hfield, Hseries.
    eexists. split; [reflexivity|]. split; reflexivity.
Qed.

(** ** Cache keys *)

(** (C6, as the code has it) Two different pairs of an endpoint name and a
    query identifier, both strings, with no underscore in the endpoint
    names, get different cache keys, and storing under the key of one leaves
    what the store holds under the key of the other; every endpoint name the
    router uses is free of underscores. *)
Theorem distinct_queries_distinct_keys
    (e1 e2 q1 q2 : string) (d : value) (w : World) :
  noUnderscore e1 = true ->
  noUnderscore e2 = true ->
  (e1, q1) <> (e2, q2) ->
  getCacheKey (VStr e1) (VStr q1) <> getCacheKey (VStr e2) (VStr q2)
  /\ (exists k1 k2,
        getCacheKey (VStr e1) (VStr q1) = Return k1
        /\ getCacheKey (VStr e2) (VStr q2) = Return k2
        /\ k1 <> k2
        /\ cache (snd (setCachedData k1 d w)) !! k2 = cache w !! k2)
  /\ forallb noUnderscore endpointNames = true.
Proof.
  intros H1 H2 Hne.
  assert (Hk : e1 +:+ "_" +:+ q1 <> e2 +:+ "_" +:+ q2).
  { intros Heq. destruct (append_underscore_split e1 e2 q1 q2 H1 H2 Heq) as [-> ->].
    apply Hne. reflexivity. }
  split; [|split; [|reflexivity]].
  - unfold getCacheKey. cbn [toStr]. intros [= Heq]. exact (Hk Heq).
  - exists (e1 +:+ "_" +:+ q1), (e2 +:+ "_" +:+ q2).
    split; [reflexivity|]. split; [reflexivity|]. split; [exact Hk|].
    cbn. apply lookup_insert_ne. exact Hk.
Qed.

End Router.

(** ** The freshness window *)

(** (C5, as the code has it) The freshness check of every cache read uses
    the one constant [CACHE_TTL], 21600000 milliseconds (six hours),
    whatever the key: a read of a key that holds an entry returns the
    payload when the clock reads less than 21600000 past the stamp and
    [null] otherwise. *)
Theorem freshness_window_is_one_constant (key : string) (w : World) (e : Entry) :
  cache w !! key = Some e ->
  CACHE_TTL = 21600000%Z
  /\ fst (getCachedData key w)
     = Return (if (nowOf w - timestamp e <? 21600000)%Z then data e else VNull).
Proof.
  intros Hk. split; [reflexivity|].
  rewrite getCachedData_eq. unfold readValue. rewrite Hk. reflexivity.
Qed.

(** ** The statements on sample worlds *)

(** A call to [/usdc-flow] that succeeds with status 200 and a second call
    one second later that asks the producer again; and a call to
    [/depositors] that finds the payload of a successful call seven hours
    old, inside a window of eight hours, and asks the producer again. *)
Lemma successful_call_not_replayed :
  fst (usdcFlow stubLarge stubParse stubISO sampleEnv None stubFlow sdkNoRows sampleRequest
         emptyWorld)
  = Return (mkResponse (VNum 200)
              (VObj [("success", VBool false);
                     ("error", VStr "No USDC flow data available");
                     ("data", VArr []);
                     ("timestamp", VStr "t1700000000000")]))
  /\ (nowOf (snd (usdcFlow stubLarge stubParse stubISO sampleEnv None stubFlow sdkNoRows
                    sampleRequest emptyWorld))
      - nowOf emptyWorld)%Z = 1000%Z
  /\ outbound (snd (usdcFlow stubLarge stubParse stubISO sampleEnv None stubFlow sdkNoRows
                      sampleRequest emptyWorld))
     = [ODune (VNum 5253905)]
  /\ outbound (snd (usdcFlow stubLarge stubParse stubISO sampleEnv None stubFlow sdkNoRows
                      sampleRequest
                      (snd (usdcFlow stubLarge stubParse stubISO sampleEnv None stubFlow
                              sdkNoRows sampleRequest emptyWorld))))
     = [ODune (VNum 5253905); ODune (VNum 5253905)]
  /\ fst (depositors stubLarge stubParse stubISO sampleEnv sdkRows sampleRequest emptyWorld)
     = Return (mkResponse (VNum 200)
                 (VObj [("success", VBool true);
                        ("data", VArr [VObj [("count", VNum 70000)]]);
                        ("query_id", VStr "5253927");
                        ("execution_time", VNum 12);
                        ("timestamp", VStr "t1700000000000")]))
  /\ cache (snd (depositors stubLarge stubParse stubISO sampleEnv sdkRows sampleRequest
                   emptyWorld))
       !! "depositors_5253927"
     = Some (mkEntry (VObj [("success", VBool true);
                            ("data", VArr [VObj [("count", VNum 70000)]]);
                            ("query_id", VStr "5253927");
                            ("execution_time", VNum 12);
                            ("timestamp", VStr "t1700000000000")])
               1700000001000)
  /\ (laterClock 0 - 1700000001000 <? 8 * 60 * 60 * 1000)%Z = true
  /\ outbound
       (snd (depositors stubLarge stubParse stubISO sampleEnv sdkRows sampleRequest
               (mkWorld
                  (cache (snd (depositors stubLarge stubParse stubISO sampleEnv sdkRows
                                 sampleRequest emptyWorld)))
                  laterClock 0 [] [])))
     = [ODune (VNum 5253927)].
Proof. vm_compute. repeat split. Qed.

Lemma fresh_hit_witness :
  fst (tvlHistory stubLarge stubParse stubISO sampleEnv stubHistory sdkDown sampleRequest
         (snd (tvlHistory stubLarge stubParse stubISO sampleEnv stubHistory sdkRows
                 sampleRequest emptyWorld)))
  = Return (json (VObj [("success", VBool true);
                        ("data", VArr [VNum 224; VNum 1700000000000]);
                        ("query_id", VStr "mock-historical");
                        ("timestamp", VStr "t1700000001000")]))
  /\ outbound (snd (tvlHistory stubLarge stubParse stubISO sampleEnv stubHistory sdkDown
                      sampleRequest
                      (snd (tvlHistory stubLarge stubParse stubISO sampleEnv stubHistory
                              sdkRows sampleRequest emptyWorld))))
     = [ODune (VNum 5253928)].
Proof.
  destruct (fresh_hit_skips_producer stubLarge stubParse stubISO sampleEnv None stubFlow
              stubSummary TvlHistory sampleUpstream downUpstream sampleRequest
              "tvl-history_5253928" emptyWorld
              (snd (tvlHistory stubLarge stubParse stubISO sampleEnv stubHistory sdkRows
                      sampleRequest emptyWorld))
              (snd (tvlHistory stubLarge stubParse stubISO sampleEnv stubHistory sdkRows
                      sampleRequest emptyWorld))
              VNull
              (json (VObj [("success", VBool true);
                           ("data", VArr [VNum 224; VNum 1700000000000]);
                           ("query_id", VStr "mock-historical");
                           ("timestamp", VStr "t1700000001000")])))
    as (_ & Hfst & Hout & _).
  - intros _. reflexivity.
  - reflexivity.
  - reflexivity.
  - reflexivity.
  - vm_compute. reflexivity.
  - reflexivity.
  - reflexivity.
  - reflexivity.
  - apply Z.ltb_lt. vm_compute. reflexivity.
  - split; [exact Hfst | exact Hout].
Defined.




(** A call that finds a stale entry mutates the store twice when the
    producer gives a result and once when it rejects; and a call to
    [/usdc-flow] whose producer gives a result without rows does not mutate
    the store at all. *)
Lemma stale_entry_costs_a_delete :
  (CACHE_TTL <=? nowOf staleWorld - 1699974800000)%Z = true
  /\ cache staleWorld !! "depositors_5253927" = Some (mkEntry oldPayload 1699974800000)
  /\ mutations staleWorld = []
  /\ mutations (snd (depositors stubLarge stubParse stubISO sampleEnv sdkRows sampleRequest
                       staleWorld))
     = [MDelete "depositors_5253927"; MSet "depositors_5253927"]
  /\ mutations (snd (depositors stubLarge stubParse stubISO sampleEnv sdkDown sampleRequest
                       staleWorld))
     = [MDelete "depositors_5253927"]
  /\ sdkNoRows (VNum 5253905)
     = Return (VObj [("result", VObj [("rows", VArr [])]); ("execution_time_millis", VNum 3)])
  /\ mutations (snd (usdcFlow stubLarge stubParse stubISO sampleEnv None stubFlow sdkNoRows
                       sampleRequest emptyWorld))
     = [].
Proof. vm_compute. repeat split. Qed.

Lemma store_mutations_witness :
  exists o w',
    cachedRoute stubLarge stubParse stubISO sampleEnv None stubFlow stubSummary
      Depositors sampleUpstream sampleRequest staleWorld = (o, w')
    /\ mutations w' = [MDelete "depositors_5253927"; MSet "depositors_5253927"].
Proof.
  destruct (cached_route_store_mutations stubLarge stubParse stubISO sampleEnv None stubFlow
              stubSummary Depositors sampleUpstream sampleRequest "depositors_5253927"
              staleWorld VNull)
    as (o & w' & Hrun & Hmut & _ & Hset & _).
  - intros _. reflexivity.
  - reflexivity.
  - vm_compute. reflexivity.
  - exists o, w'. split; [exact Hrun|]. rewrite Hmut.
    rewrite (Hset (VStr "5253927") (VNum 5253927)
               (VObj [("result", VObj [("rows", VArr [VObj [("count", VNum 70000)]])]);
                      ("execution_time_millis", VNum 12)])
               eq_refl (or_introl eq_refl) eq_refl eq_refl eq_refl eq_refl).
    reflexivity.
Defined.

(** No two reads can apply different freshness windows: faced with the same
    entry at the same clock reading, reads of any two keys return the same. *)
Lemma no_read_has_its_own_window :
  ~ exists (key1 key2 : string) (w1 w2 : World) (e : Entry),
      cache w1 !! key1 = Some e
      /\ cache w2 !! key2 = Some e
      /\ nowOf w1 = nowOf w2
      /\ fst (getCachedData key1 w1) <> fst (getCachedData key2 w2).
Proof.
  intros (key1 & key2 & w1 & w2 & e & H1 & H2 & Hnow & Hne). apply Hne.
  rewrite !getCachedData_eq. cbn. unfold readValue. rewrite H1, H2, Hnow. reflexivity.
Qed.

Lemma freshness_window_witness :
  CACHE_TTL = 21600000%Z
  /\ fst (getCachedData "depositors_5253927" staleWorld) = Return VNull.
Proof.
  apply (freshness_window_is_one_constant "depositors_5253927" staleWorld
           (mkEntry oldPayload 1699974800000)).
  vm_compute. reflexivity.
Defined.

(** Two different pairs with one key, and a payload stored for one pair
    that a read for the other returns; then the same for an identifier given
    once as a string and once as an array. *)
Lemma underscore_keys_collide :
  (VStr "tvl_a", VStr "b") <> (VStr "tvl", VStr "a_b")
  /\ getCacheKey stubLarge (VStr "tvl_a") (VStr "b") = Return "tvl_a_b"
  /\ getCacheKey stubLarge (VStr "tvl") (VStr "a_b") = Return "tvl_a_b"
  /\ fst (getCachedData "tvl_a_b" (snd (setCachedData "tvl_a_b" oldPayload emptyWorld)))
     = Return oldPayload
  /\ (VStr "tvl", VStr "1,2") <> (VStr "tvl", VArr [VStr "1"; VStr "2"])
  /\ getCacheKey stubLarge (VStr "tvl") (VStr "1,2") = Return "tvl_1,2"
  /\ getCacheKey stubLarge (VStr "tvl") (VArr [VStr "1"; VStr "2"]) = Return "tvl_1,2".
Proof.
  split; [intros H; discriminate H|]. split; [vm_compute; reflexivity|].
  split; [vm_compute; reflexivity|]. split; [vm_compute; reflexivity|].
  split; [intros H; discriminate H|]. split; vm_compute; reflexivity.
Qed.

Lemma distinct_keys_witness :
  getCacheKey stubLarge (VStr "depositors") (VStr "5253927")
  <> getCacheKey stubLarge (VStr "tvl") (VStr "5253927")
  /\ cache (snd (setCachedData "depositors_5253927" oldPayload emptyWorld)) !! "tvl_5253927"
     = cache emptyWorld !! "tvl_5253927".
Proof.
  destruct (distinct_queries_distinct_keys stubLarge "depositors" "tvl" "5253927" "5253927"
              oldPayload emptyWorld) as (Hne & (k1 & k2 & Hk1 & Hk2 & _ & Hsame) & _).
  - reflexivity.
  - reflexivity.
  - intros H. discriminate H.
  - split; [exact Hne|].
    assert (k1 = "depositors_5253927") as <- by (injection Hk1 as <-; reflexivity).
    assert (k2 = "tvl_5253927") as <- by (injection Hk2 as <-; reflexivity).
    exact Hsame.
Defined.

(** Two calls to [/deposits-timeline] one second apart, in a process with
    the key configured: the producer is asked both times and the store is
    neither read nor written; and [/query] ignores the environment. *)
Lemma deposits_timeline_bypasses_cache :
  let timeline := depositsTimeline stubLarge stubParse stubStatusError stubOtherStatus
                    stubISO sampleEnv sdkRows idRequest in
  let w1 := snd (timeline emptyWorld) in
  let w2 := snd (timeline w1) in
  outbound w1 = [ODune (VNum 42)]
  /\ mutations w1 = [] /\ cache w1 = ∅
  /\ (nowOf w1 - nowOf emptyWorld)%Z = 1000%Z
  /\ outbound w2 = [ODune (VNum 42); ODune (VNum 42)]
  /\ mutations w2 = [] /\ cache w2 = ∅
  /\ fst (query stubLarge stubParse stubStatusError stubOtherStatus stubISO
            (mkEnv (Some "dune-key") (Some "1") (Some "2") (Some "3"))
            sdkRows sampleRequest emptyWorld)
     = Return (mkResponse (VNum 400)
                 (VObj [("error", VStr "Missing query ID");
                        ("message", VStr "Please provide queryId in request body")])).
Proof. vm_compute. repeat split. Qed.

Lemma cached_and_uncached_witness :
  (exists r t,
     fst (depositors stubLarge stubParse stubISO sampleEnv sdkRows sampleRequest staleWorld)
     = Return r
     /\ statusCode r = VNum 200
     /\ cache (snd (depositors stubLarge stubParse stubISO sampleEnv sdkRows sampleRequest
                      staleWorld))
          !! "depositors_5253927" = Some (mkEntry (body r) t))
  /\ (exists r t,
        fst (tvl stubLarge stubParse stubISO sampleEnv sdkRows sampleRequest staleWorld)
        = Return r
        /\ statusCode r = VNum 200
        /\ cache (snd (tvl stubLarge stubParse stubISO sampleEnv sdkRows sampleRequest
                         staleWorld))
             !! "tvl_5253928" = Some (mkEntry (body r) t))
  /\ outbound (snd (depositsTimeline stubLarge stubParse stubStatusError stubOtherStatus
                      stubISO sampleEnv sdkRows idRequest staleWorld))
     = [ODune (VNum 42)]
  /\ outbound (snd (query stubLarge stubParse stubStatusError stubOtherStatus stubISO
                      sampleEnv sdkRows idRequest staleWorld))
     = [ODune (VNum 42)]
  /\ outbound (snd (query stubLarge stubParse stubStatusError stubOtherStatus stubISO
                      sampleEnv sdkRows oddRequest staleWorld))
     = [].
Proof.
  assert (Hc : configured sampleEnv) by reflexivity.
  destruct (cached_and_uncached_routes stubLarge stubParse stubStatusError stubOtherStatus
              stubISO sampleEnv sdkRows sampleRequest staleWorld Hc)
    as (_ & Hdep & _ & Htvl & _).
  destruct (cached_and_uncached_routes stubLarge stubParse stubStatusError stubOtherStatus
              stubISO sampleEnv sdkRows idRequest staleWorld Hc)
    as (_ & _ & _ & _ & (_ & _ & Htl & _) & (_ & _ & Hq & _)).
  destruct (cached_and_uncached_routes stubLarge stubParse stubStatusError stubOtherStatus
              stubISO sampleEnv sdkRows oddRequest staleWorld Hc)
    as (_ & _ & _ & _ & _ & (_ & _ & _ & Hodd)).
  split; [|split; [|split; [|split]]].
  - destruct (Hdep "depositors_5253927" (VNum 5253927) VNull
                (VObj [("result", VObj [("rows", VArr [VObj [("count", VNum 70000)]])]);
                       ("execution_time_millis", VNum 12)])
                eq_refl eq_refl eq_refl eq_refl eq_refl eq_refl)
      as (r & t & H1 & H2 & _ & H4).
    exists r, t. split; [exact H1|]. split; [exact H2 | exact H4].
  - destruct (Htvl "tvl_5253928" (VNum 5253928) VNull
                (VObj [("result", VObj [("rows", VArr [VObj [("count", VNum 70000)]])]);
                       ("execution_time_millis", VNum 12)])
                eq_refl eq_refl eq_refl eq_refl eq_refl eq_refl)
      as (r & t & H1 & H2 & _ & H4).
    exists r, t. split; [exact H1|]. split; [exact H2 | exact H4].
  - apply (Htl (VNum 42)); reflexivity.
  - apply (Hq (VNum 42)); reflexivity.
  - apply (Hodd noPrimitive); reflexivity.
Defined.

(** Failure answers that are not [{error, message, timestamp}] with status
    500, 400 or 404: a Lighter route, a Dune route without the key, and a
    Dune route whose upstream error carries status 402. *)
Lemma failure_shapes_differ :
  fst (lighterExchangeStats stubLarge stubISO stubTop netDown sampleRequest emptyWorld)
  = Return (mkResponse (VNum 500)
              (VObj [("error", VStr "Failed to fetch exchange statistics");
                     ("details", VStr "socket hang up")]))
  /\ fst (depositors stubLarge stubParse stubISO bareEnv sdkRows sampleRequest emptyWorld)
     = Return (mkResponse (VNum 500)
                 (VObj [("error", VStr "Dune API key not configured");
                        ("message",
                         VStr "Please set DUNE_API_KEY in your environment variables")]))
  /\ fst (depositsTimeline stubLarge stubParse stubStatusError stubOtherStatus stubISO
            sampleEnv sdkPaymentRequired idRequest emptyWorld)
     = Return (mkResponse (VNum 402)
                 (VObj [("error", VStr "Failed to fetch deposits timeline");
                        ("message", VStr "Payment Required");
                        ("timestamp", VStr "t1700000000000")])).
Proof. vm_compute. repeat split. Qed.

Lemma failure_answers_witness :
  depositors stubLarge stubParse stubISO bareEnv sdkRows sampleRequest emptyWorld
  = (Return configErrorResponse, emptyWorld)
  /\ (exists r, depositsTimeline stubLarge stubParse stubStatusError stubOtherStatus stubISO
                  sampleEnv sdkRows sampleRequest emptyWorld
                = (Return r, emptyWorld)
                /\ statusCode r = VNum 400 /\ keys (body r) = ["error"; "message"])
  /\ (exists r, query stubLarge stubParse stubStatusError stubOtherStatus stubISO
                  sampleEnv sdkRows sampleRequest emptyWorld
                = (Return r, emptyWorld)
                /\ statusCode r = VNum 400 /\ keys (body r) = ["error"; "message"])
  /\ (exists r, fst (depositors stubLarge stubParse stubISO sampleEnv sdkDown sampleRequest
                       emptyWorld) = Return r
                /\ statusCode r = VNum 500
                /\ keys (body r) = ["error"; "message"; "timestamp"])
  /\ (exists r, fst (tvl stubLarge stubParse stubISO sampleEnv sdkDown sampleRequest
                       emptyWorld) = Return r
                /\ statusCode r = VNum 500
                /\ keys (body r) = ["error"; "message"; "timestamp"])
  /\ (exists r, fst (depositsTimeline stubLarge stubParse stubStatusError stubOtherStatus
                       stubISO sampleEnv sdkPaymentRequired idRequest emptyWorld)
                = Return r
                /\ statusCode r = VNum 402
                /\ keys (body r) = ["error"; "message"; "timestamp"])
  /\ fst (depositsTimeline stubLarge stubParse stubStatusError stubOtherStatus stubISO
            sampleEnv sdkOddStatus idRequest emptyWorld)
     = Throw (newError "Invalid status code")
  /\ (exists r, fst (query stubLarge stubParse stubStatusError stubOtherStatus stubISO
                       sampleEnv sdkDown idRequest emptyWorld) = Return r
                /\ statusCode r = VNum 500
                /\ keys (body r) = ["error"; "message"; "timestamp"])
  /\ fst (query stubLarge stubParse stubStatusError stubOtherStatus stubISO
            sampleEnv sdkOddStatus idRequest emptyWorld)
     = Throw (newError "Invalid status code")
  /\ (exists r, fst (lighterExchangeStats stubLarge stubISO stubTop netDown sampleRequest
                       emptyWorld)
                = Return r
                /\ statusCode r = VNum 500 /\ keys (body r) = ["error"; "details"])
  /\ (exists r, fst (lighterExchangeStats stubLarge stubISO stubTop netUnavailable
                       sampleRequest emptyWorld)
                = Return r
                /\ statusCode r = VNum 500 /\ keys (body r) = ["error"; "details"])
  /\ (exists r, fst (lighterAccount stubLarge netNoAccount sampleRequest emptyWorld) = Return r
                /\ statusCode r = VNum 404
                /\ keys (body r) = ["error"; "message"; "code"]).
Proof.
  assert (Hc : configured sampleEnv) by reflexivity.
  split.
  { apply (failure_answers_by_route stubLarge stubParse stubStatusError stubOtherStatus
             stubISO bareEnv stubTop sdkRows netDown sampleRequest emptyWorld). reflexivity. }
  split.
  { apply (failure_answers_by_route stubLarge stubParse stubStatusError stubOtherStatus
             stubISO sampleEnv stubTop sdkRows netDown sampleRequest emptyWorld);
      [exact Hc | reflexivity]. }
  split.
  { apply (failure_answers_by_route stubLarge stubParse stubStatusError stubOtherStatus
             stubISO sampleEnv stubTop sdkRows netDown sampleRequest emptyWorld);
      [exact Hc | reflexivity]. }
  split.
  { apply (proj1 (proj2 (proj2 (proj2
             (failure_answers_by_route stubLarge stubParse stubStatusError stubOtherStatus
                stubISO sampleEnv stubTop sdkDown netDown sampleRequest emptyWorld))))
             "depositors_5253927" (VNum 5253927) VNull (newError "Request timed out")
             Hc eq_refl eq_refl eq_refl eq_refl eq_refl). }
  split.
  { apply (proj1 (proj2 (proj2 (proj2 (proj2
             (failure_answers_by_route stubLarge stubParse stubStatusError stubOtherStatus
                stubISO sampleEnv stubTop sdkDown netDown sampleRequest emptyWorld)))))
             "tvl_5253928" (VNum 5253928) VNull (newError "Request timed out")
             Hc eq_refl eq_refl eq_refl eq_refl eq_refl). }
  split.
  { apply (proj1 (proj2 (proj2 (proj2 (proj2 (proj2
             (failure_answers_by_route stubLarge stubParse stubStatusError stubOtherStatus
                stubISO sampleEnv stubTop sdkPaymentRequired netDown idRequest
                emptyWorld))))))
             (VNum 42)
             (VObj [("message", VStr "Payment Required");
                    ("response", VObj [("status", VNum 402)])])
             Hc eq_refl eq_refl eq_refl eq_refl). reflexivity. }
  split.
  { apply (proj2 (proj1 (proj2 (proj2 (proj2 (proj2 (proj2
             (failure_answers_by_route stubLarge stubParse stubStatusError stubOtherStatus
                stubISO sampleEnv stubTop sdkOddStatus netDown idRequest emptyWorld))))))
             (VNum 42)
             (VObj [("message", VStr "odd"); ("response", VObj [("status", VNum 1000)])])
             Hc eq_refl eq_refl eq_refl eq_refl) 1000%Z eq_refl eq_refl). }
  split.
  { apply (proj1 (proj2 (proj2 (proj2 (proj2 (proj2 (proj2
             (failure_answers_by_route stubLarge stubParse stubStatusError stubOtherStatus
                stubISO sampleEnv stubTop sdkDown netDown idRequest emptyWorld)))))))
             (VNum 42) (newError "Request timed out") Hc eq_refl eq_refl eq_refl eq_refl).
    reflexivity. }
  split.
  { apply (proj2 (proj1 (proj2 (proj2 (proj2 (proj2 (proj2 (proj2
             (failure_answers_by_route stubLarge stubParse stubStatusError stubOtherStatus
                stubISO sampleEnv stubTop sdkOddStatus netDown idRequest emptyWorld)))))))
             (VNum 42)
             (VObj [("message", VStr "odd"); ("response", VObj [("status", VNum 1000)])])
             Hc eq_refl eq_refl eq_refl eq_refl) 1000%Z eq_refl eq_refl). }
  split.
  { apply (proj1 (proj2 (proj2 (proj2 (proj2 (proj2 (proj2 (proj2
             (failure_answers_by_route stubLarge stubParse stubStatusError stubOtherStatus
                stubISO sampleEnv stubTop sdkDown netDown sampleRequest emptyWorld))))))))
             (newError "socket hang up") eq_refl eq_refl). }
  split.
  { apply (proj1 (proj2 (proj2 (proj2 (proj2 (proj2 (proj2 (proj2 (proj2
             (failure_answers_by_route stubLarge stubParse stubStatusError stubOtherStatus
                stubISO sampleEnv stubTop sdkDown netUnavailable sampleRequest
                emptyWorld)))))))))
             (mkFetchResponse 503 "Service Unavailable" (Throw (newError "Unexpected token <")))
             eq_refl eq_refl). }
  apply (proj2 (proj2 (proj2 (proj2 (proj2 (proj2 (proj2 (proj2 (proj2
           (failure_answers_by_route stubLarge stubParse stubStatusError stubOtherStatus
              stubISO sampleEnv stubTop sdkDown netNoAccount sampleRequest
              emptyWorld)))))))))
           (mkFetchResponse 400 "Bad Request"
              (Return (VObj [("code", VNum 21100); ("message", VStr "account not found")])))
           (VObj [("code", VNum 21100); ("message", VStr "account not found")])
           eq_refl eq_refl eq_refl eq_refl eq_refl).
Defined.

Lemma lighterAccount_address_witness :
  lighterAccount stubLarge netNoAccount idRequest emptyWorld
  = (Return (mkResponse (VNum 400)
               (VObj [("error", VStr "Invalid Ethereum address format")])), emptyWorld)
  /\ (exists body404,
        fst (lighterAccount stubLarge netNoAccount sampleRequest emptyWorld)
        = Return (mkResponse (VNum 404) body404)
        /\ outbound (snd (lighterAccount stubLarge netNoAccount sampleRequest emptyWorld))
           = [OFetch "https://mainnet.zklighter.elliot.ai/api/v1/account?by=l1_address&value=0x52908400098527886E0F7030069857D2E4169EE7"]).
Proof.
  split.
  - apply (lighterAccount_checks_address stubLarge netNoAccount idRequest emptyWorld).
    reflexivity.
  - apply (proj2 (proj2 (lighterAccount_checks_address stubLarge netNoAccount sampleRequest
                           emptyWorld))
             (mkFetchResponse 400 "Bad Request"
                (Return (VObj [("code", VNum 21100); ("message", VStr "account not found")])))
             (VObj [("code", VNum 21100); ("message", VStr "account not found")])
             eq_refl eq_refl eq_refl eq_refl eq_refl).
Defined.

(** ** The further properties on sample worlds *)

Lemma cache_keys_collide_witness :
  getCacheKey stubLarge (VStr "tvl") (VStr "1,2")
  = getCacheKey stubLarge (VStr "tvl") (VArr [VStr "1"; VStr "2"])
  /\ (getCacheKey stubLarge (VStr "tvl") (VNum 7)
      = getCacheKey stubLarge (VStr "depositors") (VNum 7) ->
      "tvl" = "depositors" /\ "7" = "7")
  /\ getCacheKey stubLarge (VStr "tvl") (VObj [("toString", VNum 1)]) = Throw noPrimitive.
Proof.
  split; [|split].
  - apply (proj1 (cache_keys_collide_exactly stubLarge "tvl" "tvl" (VStr "1,2")
                    (VArr [VStr "1"; VStr "2"]) eq_refl eq_refl) "1,2" "1,2" eq_refl eq_refl).
    split; reflexivity.
  - apply (proj1 (cache_keys_collide_exactly stubLarge "tvl" "depositors" (VNum 7) (VNum 7)
                    eq_refl eq_refl) "7" "7" eq_refl eq_refl).
  - apply (proj1 (proj2 (cache_keys_collide_exactly stubLarge "tvl" "tvl"
                           (VObj [("toString", VNum 1)]) (VNum 7) eq_refl eq_refl))
             noPrimitive eq_refl).
Defined.

Lemma set_then_get_witness :
  fst (getCachedData "tvl_1" (snd (setCachedData "tvl_1" oldPayload emptyWorld)))
  = Return oldPayload.
Proof.
  apply (setCachedData_then_getCachedData "tvl_1" oldPayload emptyWorld
           (snd (setCachedData "tvl_1" oldPayload emptyWorld)) eq_refl).
Defined.

Lemma getCachedData_frame_witness :
  cache (snd (getCachedData "depositors_5253927" staleWorld)) !! "tvl_5253928"
  = cache staleWorld !! "tvl_5253928".
Proof.
  apply (getCachedData_frame "depositors_5253927" staleWorld). intros H. discriminate H.
Defined.

Lemma setCachedData_overwrites_witness :
  cache (snd (setCachedData "tvl_1" mockB (snd (setCachedData "tvl_1" mockA staleWorld))))
    !! "depositors_5253927"
  = cache staleWorld !! "depositors_5253927".
Proof.
  apply (setCachedData_overwrites "tvl_1" mockA mockB staleWorld). intros H. discriminate H.
Defined.

Lemma fetchDuneQuery_rows_witness :
  exists data,
    fetchDuneQuery stubLarge stubParse sampleEnv sdkNoRows (VStr "42") emptyWorld
    = (Return data, asked (VNum 42) emptyWorld)
    /\ prop (prop data "result") "rows" = VArr [].
Proof.
  destruct (fetchDuneQuery_rows_never_falsy stubLarge stubParse sampleEnv sdkNoRows
              (VStr "42") (VNum 42)
              (VObj [("result", VObj [("rows", VArr [])]); ("execution_time_millis", VNum 3)])
              emptyWorld eq_refl eq_refl eq_refl eq_refl)
    as (data & Hrun & _ & Htruthy & Hkeep & _).
  exists data. split; [exact Hrun|]. apply Hkeep. reflexivity.
Defined.

Lemma fetchDuneQuery_rethrows_witness :
  fetchDuneQuery stubLarge stubParse sampleEnv sdkDown (VStr "42") emptyWorld
  = (Throw (newError "Request timed out"), asked (VNum 42) emptyWorld)
  /\ fetchDuneQuery stubLarge stubParse bareEnv sdkDown (VStr "42") emptyWorld
     = (Throw (typeError VNull "getLatestResult"), emptyWorld)
  /\ fetchDuneQuery stubLarge stubParse sampleEnv sdkDown (VObj [("toString", VNum 1)])
       emptyWorld
     = (Throw noPrimitive, emptyWorld).
Proof.
  destruct (proj1 (fetchDuneQuery_rethrows stubLarge stubParse sampleEnv sdkDown (VStr "42")
                     emptyWorld)
              (VNum 42) (newError "Request timed out") eq_refl eq_refl) as [H1 _].
  destruct (proj1 (fetchDuneQuery_rethrows stubLarge stubParse bareEnv sdkDown (VStr "42")
                     emptyWorld)
              (VNum 42) (newError "Request timed out") eq_refl eq_refl) as [_ H2].
  split; [apply H1; reflexivity|]. split; [apply H2; reflexivity|].
  apply (proj2 (fetchDuneQuery_rethrows stubLarge stubParse sampleEnv sdkDown
                  (VObj [("toString", VNum 1)]) emptyWorld) noPrimitive eq_refl).
Defined.

Lemma uncached_routes_witness :
  fst (query stubLarge stubParse stubStatusError stubOtherStatus stubISO sampleEnv
         sdkOddStatus idRequest emptyWorld)
  = Throw (newError "Invalid status code")
  /\ exists n err,
       parseInt stubLarge stubParse (VStr "42") = Return n
       /\ settle (sdkOddStatus n) = Throw err
       /\ validStatus (upstreamStatus err) = false.
Proof.
  assert (Hthrow : fst (query stubLarge stubParse stubStatusError stubOtherStatus stubISO
                          sampleEnv sdkOddStatus idRequest emptyWorld)
                   = Throw (newError "Invalid status code")) by reflexivity.
  split; [exact Hthrow|].
  destruct (uncached_routes_answer_unless_status_refused stubLarge stubParse stubStatusError
              stubOtherStatus stubISO sampleEnv sdkOddStatus idRequest emptyWorld)
    as (_ & o & w' & Hrun & _ & _ & Hrefused).
  apply (Hrefused (newError "Invalid status code")).
  rewrite Hrun in Hthrow. exact Hthrow.
Defined.

Lemma cached_routes_key_witness :
  cache (snd (tvl stubLarge stubParse stubISO sampleEnv sdkRows sampleRequest staleWorld))
    !! "depositors_5253927"
  = cache staleWorld !! "depositors_5253927".
Proof.
  apply (cached_routes_touch_their_key_only stubLarge stubParse stubISO sampleEnv sdkRows
           sampleRequest staleWorld "depositors_5253927").
  intros H. discriminate H.
Defined.

Lemma separate_entries_witness :
  tvlKey stubLarge sampleEnv idRequest <> Return "depositors_5253927"
  /\ cache (snd (tvl stubLarge stubParse stubISO sampleEnv sdkRows idRequest staleWorld))
       !! "depositors_5253927"
     = cache staleWorld !! "depositors_5253927".
Proof.
  destruct (depositors_and_tvl_do_not_share_entries stubLarge stubParse stubISO sampleEnv
              sdkRows sampleRequest idRequest staleWorld "depositors_5253927")
    as (Hne & Hsame & _).
  split; [exact (Hne eq_refl) | exact (Hsame eq_refl)].
Defined.

Lemma lighterVolume_gate_witness :
  exists r w',
    lighterVolume stubLarge stubISO bareEnv mockA sampleRequest emptyWorld = (Return r, w')
    /\ r = configErrorResponse /\ w' = emptyWorld.
Proof.
  destruct (lighterVolume_is_gated_but_never_outbound stubLarge stubISO bareEnv mockA
              sampleRequest emptyWorld) as (r & w' & Hrun & _ & Hgate & _).
  exists r, w'. split; [exact Hrun|]. apply Hgate. reflexivity.
Defined.

Lemma lighterVolume_frozen_witness :
  fst (lighterVolume stubLarge stubISO sampleEnv mockB idRequest
         (snd (lighterVolume stubLarge stubISO sampleEnv mockA sampleRequest emptyWorld)))
  = fst (lighterVolume stubLarge stubISO sampleEnv mockA sampleRequest emptyWorld).
Proof.
  destruct (lighterVolume_mock_is_frozen stubLarge stubISO sampleEnv mockA mockB sampleRequest
              idRequest emptyWorld
              (snd (lighterVolume stubLarge stubISO sampleEnv mockA sampleRequest emptyWorld))
              VNull eq_refl eq_refl eq_refl)
    as (b & t0 & Hfirst & _ & Hstored & Hagain).
  destruct (Hagain Hstored) as [H _].
  - cbn in Hstored. injection Hstored as _ <-. apply Z.ltb_lt. reflexivity.
  - rewrite Hfirst. exact H.
Defined.

Lemma hyperliquidVolume_witness :
  (exists r,
     fst (hyperliquidVolume stubLarge stubISO stubSummary netUnavailable sampleRequest
            emptyWorld)
     = Return r
     /\ statusCode r = VNum 500
     /\ prop (body r) "message" = VStr "Hyperliquid API error: 503")
  /\ (exists r t,
        fst (hyperliquidVolume stubLarge stubISO stubSummary netOk sampleRequest emptyWorld)
        = Return r
        /\ statusCode r = VNum 200
        /\ cache (snd (hyperliquidVolume stubLarge stubISO stubSummary netOk sampleRequest
                         emptyWorld))
             !! "hyperliquid-volume_api" = Some (mkEntry (body r) t)).
Proof.
  split.
  - destruct (hyperliquidVolume_caches_success_only stubLarge stubISO stubSummary
                netUnavailable sampleRequest emptyWorld VNull eq_refl) as (_ & Hbad & _).
    destruct (Hbad (mkFetchResponse 503 "Service Unavailable"
                      (Throw (newError "Unexpected token <"))) eq_refl eq_refl eq_refl)
      as (r & H1 & H2 & H3 & _).
    exists r. split; [exact H1|]. split; [exact H2 | exact H3].
  - destruct (hyperliquidVolume_caches_success_only stubLarge stubISO stubSummary netOk
                sampleRequest emptyWorld VNull eq_refl) as (_ & _ & Hgood).
    destruct (Hgood (mkFetchResponse 200 "OK" (Return (VObj [("total", VNum 7)])))
                (VObj [("total", VNum 7)]) (VObj [("markets", VNum 2)])
                eq_refl eq_refl eq_refl eq_refl eq_refl)
      as (r & t & H1 & H2 & _ & _ & H5).
    exists r, t. split; [exact H1|]. split; [exact H2 | exact H5].
Defined.

Lemma usdcFlow_empty_witness :
  exists r w',
    usdcFlow stubLarge stubParse stubISO sampleEnv None stubFlow sdkNoRows sampleRequest
      emptyWorld = (Return r, w')
    /\ prop (body r) "success" = VBool false
    /\ mutations w' = []
    /\ outbound (snd (usdcFlow stubLarge stubParse stubISO sampleEnv None stubFlow sdkNoRows
                        sampleRequest w'))
       = (outbound w' ++ [ODune (VNum 5253905)])%list.
Proof.
  destruct (usdcFlow_empty_result_not_cached stubLarge stubParse stubISO sampleEnv None
              stubFlow sdkNoRows sampleRequest "usdc-flow_5253905" emptyWorld (VNum 5253905)
              (VObj [("result", VObj [("rows", VArr [])]); ("execution_time_millis", VNum 3)])
              VNull eq_refl eq_refl eq_refl eq_refl eq_refl eq_refl eq_refl
              (or_intror eq_refl))
    as (r & w' & Hrun & _ & Hfalse & _ & _ & _ & Hmut & Hretry).
  exists r, w'. split; [exact Hrun|]. split; [exact Hfalse|]. split; [exact Hmut|].
  apply (Hretry sdkNoRows w'). reflexivity.
Defined.

Lemma usdcFlow_total_days_witness :
  exists r t,
    fst (usdcFlow stubLarge stubParse stubISO sampleEnv None stubFlow sdkRows sampleRequest
           emptyWorld) = Return r
    /\ prop (body r) "total_days" = VNum 1
    /\ cache (snd (usdcFlow stubLarge stubParse stubISO sampleEnv None stubFlow sdkRows
                     sampleRequest emptyWorld))
         !! "usdc-flow_5253905" = Some (mkEntry (body r) t).
Proof.
  destruct (usdcFlow_total_days_counts_rows stubLarge stubParse stubISO sampleEnv None
              stubFlow sdkRows sampleRequest "usdc-flow_5253905" emptyWorld (VNum 5253905)
              (VObj [("result", VObj [("rows", VArr [VObj [("count", VNum 70000)]])]);
                     ("execution_time_millis", VNum 12)])
              VNull (VObj [("count", VNum 70000)]) [] [VObj [("count", VNum 70000)]]
              eq_refl eq_refl eq_refl eq_refl eq_refl eq_refl eq_refl eq_refl eq_refl)
    as (r & t & H1 & _ & _ & _ & H5 & _ & H7).
  exists r, t. split; [exact H1|]. split; [exact H5 | exact H7].
Defined.

Lemma health_witness :
  (exists r, fst (health stubISO sampleEnv sampleRequest emptyWorld) = Return r
             /\ prop (body r) "duneApiConfigured" = VBool true)
  /\ (exists r, fst (health stubISO bareEnv sampleRequest emptyWorld) = Return r
                /\ prop (body r) "duneApiConfigured" = VBool false).
Proof.
  split.
  - destruct (health_reports_the_key_check stubISO sampleEnv sampleRequest emptyWorld)
      as (r & Hrun & _).
    exists r. split; [exact Hrun|]. cbn in Hrun. injection Hrun as <-. reflexivity.
  - destruct (health_reports_the_key_check stubISO bareEnv sampleRequest emptyWorld)
      as (r & Hrun & _ & _ & _ & _ & _ & Hunset).
    exists r. split; [exact Hrun|]. apply Hunset. left. reflexivity.
Defined.

Lemma lighterAccount_url_witness :
  exists rest,
    OFetch (accountUrl "0x52908400098527886E0F7030069857D2E4169EE7")
    = OFetch ("https://mainnet.zklighter.elliot.ai/api/v1/account?by=l1_address&value="
                +:+ "0x" +:+ rest)
    /\ String.length rest = 40%nat.
Proof.
  destruct (lighterAccount_fetches_only_checked_addresses stubLarge netNoAccount sampleRequest
              emptyWorld
              (OFetch (accountUrl "0x52908400098527886E0F7030069857D2E4169EE7")))
    as [Hin | (rest & Hurl & Hlen & _)].
  - left. reflexivity.
  - destruct Hin.
  - exists rest. split; [exact Hurl | exact Hlen].
Defined.

Lemma lighterAccount_forward_witness :
  fst (lighterAccount stubLarge netOk sampleRequest emptyWorld)
  = Return (mkResponse (VNum 200) (VObj [("total", VNum 7)])).
Proof.
  apply (f_equal fst
           (lighterAccount_forwards_upstream_json stubLarge netOk sampleRequest emptyWorld
              (mkFetchResponse 200 "OK" (Return (VObj [("total", VNum 7)])))
              (VObj [("total", VNum 7)]) eq_refl eq_refl eq_refl eq_refl)).
Defined.

Lemma lighterAccount_500_witness :
  fst (lighterAccount stubLarge netUnavailable sampleRequest emptyWorld)
  = Return (lighterFailure "Failed to fetch account data"
              (VStr "Lighter API error: 503 Service Unavailable - Unknown error"))
  /\ fst (lighterAccount stubLarge
            (fun _ => Return (mkFetchResponse 500 "Internal Server Error"
                                (Return (VObj [("message", VObj [("toString", VNum 1)])]))))
            sampleRequest emptyWorld)
     = Return (lighterFailure "Failed to fetch account data"
                 (VStr "Cannot convert object to primitive value")).
Proof.
  split.
  - apply (proj1 (lighterAccount_upstream_errors_become_500 stubLarge netUnavailable
                    sampleRequest emptyWorld
                    (mkFetchResponse 503 "Service Unavailable"
                       (Throw (newError "Unexpected token <")))
                    eq_refl eq_refl eq_refl)
             (newError "Unexpected token <") eq_refl).
  - apply (proj2 (proj2 (lighterAccount_upstream_errors_become_500 stubLarge
                    (fun _ => Return (mkFetchResponse 500 "Internal Server Error"
                                (Return (VObj [("message", VObj [("toString", VNum 1)])]))))
                    sampleRequest emptyWorld
                    (mkFetchResponse 500 "Internal Server Error"
                       (Return (VObj [("message", VObj [("toString", VNum 1)])])))
                    eq_refl eq_refl eq_refl))
             (VObj [("message", VObj [("toString", VNum 1)])]) noPrimitive
             eq_refl eq_refl eq_refl eq_refl).
Defined.

Lemma lighterExchangeStats_defaults_witness :
  exists r,
    fst (lighterExchangeStats stubLarge stubISO stubTop netOk sampleRequest emptyWorld)
    = Return r
    /\ prop (body r) "total_markets" = VNum 7
    /\ prop (body r) "daily_usd_volume" = VNum 0
    /\ prop (body r) "markets" = VArr [].
Proof.
  destruct (lighterExchangeStats_fills_defaults stubLarge stubISO stubTop netOk sampleRequest
              emptyWorld
              (mkFetchResponse 200 "OK" (Return (VObj [("total", VNum 7)])))
              (VObj [("total", VNum 7)]) VNull eq_refl eq_refl eq_refl eq_refl eq_refl)
    as (r & H1 & _ & _ & H4 & _ & H6 & H7 & _).
  exists r. split; [exact H1|]. split; [exact H6|]. split; [exact H4 | exact H7].
Defined.

Lemma stored_payloads_witness :
  storedSuccess (snd (depositors stubLarge stubParse stubISO sampleEnv sdkRows sampleRequest
                        emptyWorld))
  /\ storedSuccess (snd (usdcFlow stubLarge stubParse stubISO sampleEnv None stubFlow
                           sdkNoRows sampleRequest emptyWorld))
  /\ storedSuccess (snd (tvlHistory stubLarge stubParse stubISO sampleEnv stubHistory sdkRows
                           sampleRequest emptyWorld)).
Proof.
  assert (Hempty : storedSuccess emptyWorld).
  { intros k e Hk. cbn in Hk. rewrite lookup_empty in Hk. discriminate Hk. }
  destruct (stored_payloads_report_success stubLarge stubParse stubStatusError stubOtherStatus
              stubISO sampleEnv stubTop None stubFlow stubSummary None asciiLower
              sdkRows netOk mockA stubHistory sampleRequest emptyWorld Hempty)
    as (H1 & _ & _ & _ & _ & _ & _ & _ & _ & H10 & _).
  destruct (stored_payloads_report_success stubLarge stubParse stubStatusError stubOtherStatus
              stubISO sampleEnv stubTop None stubFlow stubSummary None asciiLower
              sdkNoRows netOk mockA stubHistory sampleRequest emptyWorld Hempty)
    as (_ & _ & _ & _ & H5 & _).
  split; [exact H1|]. split; [exact H5 | exact H10].
Defined.


Lemma user_rows_witness :
  exists r w',
    user stubLarge stubParse stubStatusError stubOtherStatus stubISO sampleEnv None asciiLower
      sdkTransfers userRequest emptyWorld = (Return r, w')
    /\ prop (body r) "data" = VArr [VObj [("toAddress", VStr "0xABC"); ("amount", VNum 1)]]
    /\ prop (body r) "user_address" = VStr "0xAbC".
Proof.
  destruct (user_returns_the_rows_of_the_address stubLarge stubParse stubStatusError
              stubOtherStatus stubISO sampleEnv None asciiLower sdkTransfers
              userRequest emptyWorld (VNum 77)
              (VObj [("result",
                      VObj [("rows",
                             VArr [VObj [("toAddress", VStr "0xABC"); ("amount", VNum 1)];
                                   VObj [("toAddress", VStr "0xdef"); ("amount", VNum 2)];
                                   VObj [("amount", VNum 5)]])])])
              [VObj [("toAddress", VStr "0xABC"); ("amount", VNum 1)];
               VObj [("toAddress", VStr "0xdef"); ("amount", VNum 2)];
               VObj [("amount", VNum 5)]]
              eq_refl eq_refl eq_refl eq_refl eq_refl eq_refl eq_refl)
    as (r & w' & Hrun & _ & Hdata & Haddr & _).
  exists r, w'. split; [exact Hrun|]. split; [exact Hdata | exact Haddr].
Defined.

Lemma user_without_identifier_witness :
  (exists r, user stubLarge stubParse stubStatusError stubOtherStatus stubISO sampleEnv None
               asciiLower sdkTransfers sampleRequest emptyWorld
             = (Return r, emptyWorld)
             /\ statusCode r = VNum 400)
  /\ (exists r, fst (user stubLarge stubParse stubStatusError stubOtherStatus stubISO
                       sampleEnv None asciiLower sdkBare userRequest emptyWorld)
                = Return r
                /\ prop (body r) "data" = VArr []).
Proof.
  split.
  - destruct (user_without_identifier_or_rows stubLarge stubParse stubStatusError
                stubOtherStatus stubISO sampleEnv None asciiLower sdkTransfers
                sampleRequest emptyWorld eq_refl) as [Hmissing _].
    destruct (Hmissing eq_refl) as (r & Hrun & H400 & _).
    exists r. split; [exact Hrun | exact H400].
  - destruct (user_without_identifier_or_rows stubLarge stubParse stubStatusError
                stubOtherStatus stubISO sampleEnv None asciiLower sdkBare
                userRequest emptyWorld eq_refl) as [_ Hnone].
    destruct (Hnone (VNum 77) (VObj [("execution_time_millis", VNum 3)])
                eq_refl eq_refl eq_refl eq_refl eq_refl)
      as (r & Hrun & _ & Hdata).
    exists r. split; [exact Hrun | exact Hdata].
Defined.

Lemma user_store_witness :
  fst (user stubLarge stubParse stubStatusError stubOtherStatus stubISO sampleEnv None
         asciiLower sdkOddStatus userRequest emptyWorld)
  = Throw (newError "Invalid status code")
  /\ exists n err,
       parseInt stubLarge stubParse (VStr "77") = Return n
       /\ settle (sdkOddStatus n) = Throw err
       /\ validStatus (upstreamStatus err) = false.
Proof.
  assert (Hthrow : fst (user stubLarge stubParse stubStatusError stubOtherStatus stubISO
                          sampleEnv None asciiLower sdkOddStatus userRequest emptyWorld)
                   = Throw (newError "Invalid status code")) by reflexivity.
  split; [exact Hthrow|].
  destruct (user_leaves_the_store_alone stubLarge stubParse stubStatusError stubOtherStatus
              stubISO sampleEnv None asciiLower sdkOddStatus userRequest emptyWorld)
    as (o & w' & Hrun & _ & _ & _ & Hrefused).
  apply (Hrefused (newError "Invalid status code")).
  rewrite Hrun in Hthrow. exact Hthrow.
Defined.

Lemma history_fixed_queries_witness :
  outbound (snd (tvlHistory stubLarge stubParse stubISO sampleEnv stubHistory sdkRows idRequest
                   emptyWorld))
  = [ODune (VNum 5253928)]
  /\ outbound (snd (depositorsHistory stubLarge stubParse stubISO sampleEnv stubHistory
                      sdkRows idRequest emptyWorld))
     = [ODune (VNum 5253927)].
Proof.
  destruct (history_routes_ask_fixed_queries stubLarge stubParse stubISO sampleEnv stubHistory
              sdkRows idRequest emptyWorld eq_refl) as (Ht & Hd & _ & _).
  split; [exact (Ht eq_refl) | exact (Hd eq_refl)].
Defined.

Lemma history_starting_value_witness :
  (exists r,
     fst (tvlHistory stubLarge stubParse stubISO sampleEnv stubHistory sdkDistinct
            sampleRequest emptyWorld)
     = Return r
     /\ prop (body r) "data" = VArr [VNum 300; VNum 1700000000000])
  /\ (exists r,
        fst (depositorsHistory stubLarge stubParse stubISO sampleEnv stubHistory sdkDistinct
               sampleRequest emptyWorld)
        = Return r
        /\ prop (body r) "data" = VArr [VNum 64507; VNum 1700000000000]).
Proof.
  destruct (history_routes_starting_value stubLarge stubParse stubISO sampleEnv stubHistory
              sdkDistinct sampleRequest emptyWorld
              (VObj [("result",
                      VObj [("rows", VArr [VObj [("Distinct_Depositors", VNum 70000);
                                                 ("TVL", VNum 300)]])])])
              (VObj [("Distinct_Depositors", VNum 70000); ("TVL", VNum 300)]) []
              eq_refl eq_refl eq_refl) as (Ht & Hd).
  split.
  - destruct (Ht eq_refl eq_refl) as (Hseries & _).
    destruct (Hseries (VArr [VNum 300; VNum 1700000000000]) eq_refl) as (r & Hr & _ & Hdata).
    exists r. split; [exact Hr | exact Hdata].
  - destruct (Hd eq_refl eq_refl eq_refl (VArr [VNum 64507; VNum 1700000000000]) eq_refl)
      as (r & Hr & _ & Hdata).
    exists r. split; [exact Hr | exact Hdata].
Defined.
